(** * automeme: the MCP client's conversation loop and the meme tool

    A shallow embedding of [mcp_client.py] (class [MCPClient]) and of
    [src/services/meme_generator.py] (the tools [create_meme] and
    [get_meme_templates]), with the properties their specification
    states about them.

    Python values are modelled as follows: [str] as [string], lists as
    [list], raised exceptions as the [Raised] outcome of a small
    state-and-exception monad, the unbounded [while] loops by a fuel
    argument whose exhaustion is the separate outcome [OutOfFuel]. *)

From Stdlib Require Import String Ascii List ZArith Lia.
From stdpp Require Import base tactics option list strings gmap pretty.

(** ** Python helpers *)

Module Py.

(** A raised exception: its class, the text of [str(e)], and for the
    exceptions of [requests] the text of [e.response] when there is
    one ([None] when [e.response] is [None]). *)
Record exn := Exn {
  exn_class : string;
  exn_msg : string;
  exn_response : option string
}.

Definition ValueError (msg : string) : exn := Exn "ValueError" msg None.
Definition AttributeError (msg : string) : exn := Exn "AttributeError" msg None.
Definition TypeError (msg : string) : exn := Exn "TypeError" msg None.
Definition KeyError (msg : string) : exn := Exn "KeyError" msg None.
Definition Exception (msg : string) : exn := Exn "Exception" msg None.

(** What running a piece of code gives: a value, an exception, or
    nothing yet because the fuel of a [while] loop ran out. *)
Inductive outcome (A : Type) : Type :=
| Ok (a : A)
| Raised (e : exn)
| OutOfFuel.
Arguments Ok {A} a.
Arguments Raised {A} e.
Arguments OutOfFuel {A}.

(** Code running over a state [S]. *)
Definition M (S A : Type) : Type := S -> S * outcome A.

Definition ret {S A} (a : A) : M S A := fun s => (s, Ok a).
Definition raise {S A} (e : exn) : M S A := fun s => (s, Raised e).
Definition out_of_fuel {S A} : M S A := fun s => (s, OutOfFuel).
Definition bind {S A B} (m : M S A) (k : A -> M S B) : M S B :=
  fun s =>
    match m s with
    | (s', Ok a) => k a s'
    | (s', Raised e) => (s', Raised e)
    | (s', OutOfFuel) => (s', OutOfFuel)
    end.
Definition gets {S A} (f : S -> A) : M S A := fun s => (s, Ok (f s)).
Definition modify {S} (f : S -> S) : M S unit := fun s => (f s, Ok tt).

(** [try: body except ...:] with the [except] clauses tried in order;
    a clause is the test of the exception's class and the handler. *)
Fixpoint handle {S A} (clauses : list ((exn -> bool) * (exn -> M S A)))
    (e : exn) : M S A :=
  match clauses with
  | [] => raise e
  | (catches, handler) :: rest =>
      if catches e then handler e else handle rest e
  end.

Definition try_except {S A} (body : M S A)
    (clauses : list ((exn -> bool) * (exn -> M S A))) : M S A :=
  fun s =>
    match body s with
    | (s', Raised e) => handle clauses e s'
    | r => r
    end.

(** [sep.join(parts)] *)
Fixpoint join (sep : string) (parts : list string) : string :=
  match parts with
  | [] => ""
  | [p] => p
  | p :: rest => p +:+ sep +:+ join sep rest
  end.

(** [s.endswith(suffix)] *)
Definition endswith (s suffix : string) : bool :=
  bool_decide (list_ascii_of_string suffix `suffix_of` list_ascii_of_string s).

(** [needle in hay] on strings. *)
Fixpoint contains (needle hay : string) : bool :=
  String.prefix needle hay ||
  match hay with
  | EmptyString => false
  | String _ hay' => contains needle hay'
  end.

(** The line feed of ["\n"]. *)
Definition nl : string := String (ascii_of_nat 10) EmptyString.

End Py.

Import Py.

Declare Scope py_scope.
Delimit Scope py_scope with py.
Notation "x <- m ;; k" := (bind m (fun x => k))
  (at level 100, m at next level, right associativity) : py_scope.
Notation "m ;;; k" := (bind m (fun _ => k))
  (at level 100, right associativity) : py_scope.
Open Scope py_scope.

(** ** mcp_client.py *)

Module Client.

Inductive Role := user | assistant.

(** One entry of [messages]: [{"role": ..., "content": ...}]. *)
Record Message := Msg { role : Role; content : string }.

(** The external collaborators of [MCPClient], as the code sees them:
    the MCP session over the server's stdio (tool provider) and the
    Anthropic messages API (model).  [World] is everything outside the
    client; each call may change it and may raise. *)
Class Collaborators := {
  World : Type;
  (** [content.input] of a tool-use block, a JSON object *)
  ToolInput : Type;
  (** [result.content] of a tool call *)
  ToolContent : Type;
  (** [tool.inputSchema] *)
  InputSchema : Type;
  (** [str()] of the two, as the f-strings format them *)
  str_input : ToolInput -> string;
  str_content : ToolContent -> string;
  (** [str()] of a list of [str], as [print] shows it *)
  str_names : list string -> string
}.

Section Model.
Context `{Collaborators}.

(** One tool as [list_tools] reports it. *)
Record Tool := MkTool {
  tool_name : string;
  tool_description : option string;
  inputSchema : InputSchema
}.

(** The dict built from it for the [tools=] argument. *)
Record ToolParam := MkToolParam {
  name : string;
  description : option string;
  input_schema : InputSchema
}.

(** A block of [response.content], by its [type]: ['text'],
    ['tool_use'], or any other. *)
Inductive ContentBlock :=
| TextBlock (text : string)
| ToolUseBlock (name : string) (input : ToolInput)
| OtherBlock (type : string).

(** The keyword arguments of [anthropic.messages.create]. *)
Record Request := MkRequest {
  model : string;
  max_tokens : Z;
  system : string;
  messages : list Message;
  tools : list ToolParam
}.

(** [StdioServerParameters(command, args, env=None)] *)
Record StdioServerParameters := MkParams {
  command : string;
  args : list string
}.

(** The calls that leave the client, in the order they are made, each
    with what came back. *)
Inductive Event :=
| EvStdioClient (p : StdioServerParameters) (r : outcome unit)
| EvClientSession (r : outcome unit)
| EvInitialize (r : outcome unit)
| EvListTools (r : outcome (list Tool))
| EvCreate (req : Request) (r : outcome (list ContentBlock))
| EvCallTool (name : string) (input : ToolInput) (r : outcome ToolContent).

(** How the outside answers. *)
Record Backend := {
  stdio_client : StdioServerParameters -> World -> World * outcome unit;
  ClientSession : World -> World * outcome unit;
  session_initialize : World -> World * outcome unit;
  session_list_tools : World -> World * outcome (list Tool);
  session_call_tool :
    string -> ToolInput -> World -> World * outcome ToolContent;
  messages_create : Request -> World -> World * outcome (list ContentBlock)
}.

(** The client object and what it can observe. *)
Record State := MkState {
  world : World;
  (** [self.session is not None] *)
  session : bool;
  trace : list Event;
  stdout : list string
}.

Variable B : Backend.

Definition print (line : string) : M State unit :=
  modify (fun s => MkState (world s) (session s) (trace s) (stdout s ++ [line])).

(** Perform one outside call and record it. *)
Definition external {A} (call : World -> World * outcome A)
    (ev : outcome A -> Event) : M State A :=
  fun s =>
    let '(w, r) := call (world s) in
    (MkState w (session s) (trace s ++ [ev r]) (stdout s), r).

Definition set_session : M State unit :=
  modify (fun s => MkState (world s) true (trace s) (stdout s)).

(** An attribute of [self.session]: [None] has none. *)
Definition the_session (attr : string) : M State unit :=
  fun s =>
    if session s then (s, Ok tt)
    else (s, Raised (AttributeError
           ("'NoneType' object has no attribute '" +:+ attr +:+ "'"))).

Definition list_tools : M State (list Tool) :=
  the_session "list_tools" ;;;
  external (session_list_tools B) EvListTools.

Definition call_tool (tool_name : string) (tool_args : ToolInput)
    : M State ToolContent :=
  the_session "call_tool" ;;;
  external (session_call_tool B tool_name tool_args)
           (EvCallTool tool_name tool_args).

Definition create (req : Request) : M State (list ContentBlock) :=
  external (messages_create B req) (EvCreate req).

(** *** connect_to_server *)

Definition connect_to_server (server_script_path : string) : M State unit :=
  print "Checking server script type..." ;;;
  let is_python := endswith server_script_path ".py" in
  let is_js := endswith server_script_path ".js" in
  if negb (is_python || is_js) then
    raise (ValueError "Server script must be a .py or .js file")
  else
    let command := if is_python then "python" else "node" in
    print ("Using command: " +:+ command +:+ " " +:+ server_script_path) ;;;
    let server_params := MkParams command [server_script_path] in
    print "Starting stdio client..." ;;;
    external (stdio_client B server_params) (EvStdioClient server_params) ;;;
    print "Stdio client started" ;;;
    print "Creating client session..." ;;;
    external (ClientSession B) EvClientSession ;;;
    set_session ;;;
    print "Initializing session..." ;;;
    external (session_initialize B) EvInitialize ;;;
    print "Requesting tool list..." ;;;
    response <- list_tools ;;
    print (nl +:+ "Connected to server with tools: " +:+
           str_names (map tool_name response)).

(** *** process_query *)

(** [str()] of an optional string inside an f-string. *)
Definition str_opt (o : option string) : string :=
  match o with Some s => s | None => "None" end.

Definition tool_param (tool : Tool) : ToolParam :=
  MkToolParam (tool_name tool) (tool_description tool) (inputSchema tool).

Definition describe_tools (available_tools : list ToolParam) : string :=
  join nl (map (fun tool => "- " +:+ name tool +:+ ": " +:+
                            str_opt (description tool)) available_tools).

Definition prompt_tail : string :=
  nl +:+ nl +:+ "You should use these tools to help users accomplish their " +:+
  "goals. Don't say you can't do something if a tool exists to do it.".

(** The [system=] text of the request made before the loop. *)
Definition first_system (tools_description : string) : string :=
  "You have access to the following tools that you can and should use " +:+
  "if they are relevant to the user's query:" +:+ nl +:+ nl +:+
  tools_description +:+ prompt_tail.

(** The [system=] text of the request made inside the loop. *)
Definition followup_system (tools_description : string) : string :=
  "You have access to the following tools that you can and should use:" +:+
  nl +:+ nl +:+ tools_description +:+ prompt_tail.

Definition model_id : string := "claude-3-5-sonnet-20241022".

(** The local variables the loop updates. *)
Record Locals := MkLocals {
  final_text : list string;
  conversation_history : list Message;
  has_tool_calls : bool
}.

Definition tool_line (tool_name : string) (result : ToolContent) : string :=
  "[Tool " +:+ tool_name +:+ " result: " +:+ str_content result +:+ "]".

Definition using_tool (tool_name : string) (tool_args : ToolInput) : Message :=
  Msg assistant ("I'm using the " +:+ tool_name +:+
                 " tool with these parameters: " +:+ str_input tool_args).

Definition tool_result (result : ToolContent) : Message :=
  Msg user ("Tool result: " +:+ str_content result).

(** The body of [for content in response.content]. *)
Definition process_content (content : ContentBlock) (l : Locals)
    : M State Locals :=
  match content with
  | TextBlock text =>
      ret (MkLocals (final_text l ++ [text])
                    (conversation_history l ++ [Msg assistant text])
                    (has_tool_calls l))
  | ToolUseBlock tool_name tool_args =>
      result <- call_tool tool_name tool_args ;;
      ret (MkLocals (final_text l ++ [tool_line tool_name result])
                    (conversation_history l ++
                       [using_tool tool_name tool_args] ++ [tool_result result])
                    true)
  | OtherBlock _ => ret l
  end.

Fixpoint process_response (response : list ContentBlock) (l : Locals)
    : M State Locals :=
  match response with
  | [] => ret l
  | content :: rest =>
      l' <- process_content content l ;;
      process_response rest l'
  end.

Definition followup_request (query tools_description : string)
    (available_tools : list ToolParam) (history : list Message) : Request :=
  MkRequest model_id 1000 (followup_system tools_description)
            (history ++ [Msg user query]) available_tools.

(** [has_tool_calls = False] at the top of the loop body. *)
Definition reset (l : Locals) : Locals :=
  MkLocals (final_text l) (conversation_history l) false.

(** [while True:], one unit of fuel for each round. *)
Fixpoint conversation_loop (fuel : nat) (query tools_description : string)
    (available_tools : list ToolParam) (response : list ContentBlock)
    (l : Locals) : M State string :=
  match fuel with
  | O => out_of_fuel
  | S fuel' =>
      l' <- process_response response (reset l) ;;
      if negb (has_tool_calls l') then ret (join nl (final_text l'))
      else
        response' <- create (followup_request query tools_description
                               available_tools (conversation_history l')) ;;
        conversation_loop fuel' query tools_description available_tools
          response' l'
  end.

Definition first_request (query tools_description : string)
    (available_tools : list ToolParam) : Request :=
  MkRequest model_id 1000 (first_system tools_description)
            [Msg user query] available_tools.

Definition process_query (fuel : nat) (query : string) : M State string :=
  response <- list_tools ;;
  let available_tools := map tool_param response in
  let tools_description := describe_tools available_tools in
  response <- create (first_request query tools_description available_tools) ;;
  conversation_loop fuel query tools_description available_tools response
    (MkLocals [] [] false).

End Model.

(** *** What an execution shows

    The properties of [process_query] are stated on the events an
    execution adds to the trace and on these readings of them. *)

Section Observations.
Context `{Collaborators}.

(** The texts of the text blocks, in order. *)
Fixpoint texts (blocks : list ContentBlock) : list string :=
  match blocks with
  | [] => []
  | TextBlock text :: rest => text :: texts rest
  | _ :: rest => texts rest
  end.

(** The tool-call blocks, in order. *)
Fixpoint tool_uses (blocks : list ContentBlock) : list (string * ToolInput) :=
  match blocks with
  | [] => []
  | ToolUseBlock name input :: rest => (name, input) :: tool_uses rest
  | _ :: rest => tool_uses rest
  end.

(** The requests sent to the model. *)
Fixpoint requests (t : list Event) : list Request :=
  match t with
  | [] => []
  | EvCreate req _ :: rest => req :: requests rest
  | _ :: rest => requests rest
  end.

(** The blocks of all the responses the model returned, in order. *)
Fixpoint responses (t : list Event) : list ContentBlock :=
  match t with
  | [] => []
  | EvCreate _ (Ok blocks) :: rest => blocks ++ responses rest
  | _ :: rest => responses rest
  end.

(** The tool invocations made, in order. *)
Fixpoint calls (t : list Event) : list (string * ToolInput) :=
  match t with
  | [] => []
  | EvCallTool name input _ :: rest => (name, input) :: calls rest
  | _ :: rest => calls rest
  end.

(** The results of the tool invocations that returned, in order. *)
Fixpoint results (t : list Event) : list ToolContent :=
  match t with
  | [] => []
  | EvCallTool _ _ (Ok result) :: rest => result :: results rest
  | _ :: rest => results rest
  end.

(** The events of [uses] returning [rs]. *)
Fixpoint call_events (uses : list (string * ToolInput))
    (rs : list ToolContent) : list Event :=
  match uses, rs with
  | (name, input) :: uses', r :: rs' =>
      EvCallTool name input (Ok r) :: call_events uses' rs'
  | _, _ => []
  end.

(** The entries of the final answer that [blocks] give when their
    tool calls return [rs]: a text block its text, a tool call the
    bracketed line of its result. *)
Fixpoint final_entries (blocks : list ContentBlock) (rs : list ToolContent)
    : list string :=
  match blocks with
  | [] => []
  | TextBlock text :: rest => text :: final_entries rest rs
  | ToolUseBlock name _ :: rest =>
      match rs with
      | r :: rs' => tool_line name r :: final_entries rest rs'
      | [] => []
      end
  | OtherBlock _ :: rest => final_entries rest rs
  end.

(** The messages that [blocks] add to the history when their tool
    calls return [rs]: a text block one assistant message, a tool call
    an assistant message and then a user message. *)
Fixpoint history_entries (blocks : list ContentBlock) (rs : list ToolContent)
    : list Message :=
  match blocks with
  | [] => []
  | TextBlock text :: rest => Msg assistant text :: history_entries rest rs
  | ToolUseBlock name input :: rest =>
      match rs with
      | r :: rs' =>
          using_tool name input :: tool_result r :: history_entries rest rs'
      | [] => []
      end
  | OtherBlock _ :: rest => history_entries rest rs
  end.

(** The events that the run from [s] to [s'] added. *)
Definition events (s s' : State) : list Event :=
  drop (length (trace s)) (trace s').

(** Processing [blocks] from the locals [l], with the tool calls
    returning [rs], gives the locals [l'] and adds the events [added]. *)
Definition processed (blocks : list ContentBlock) (rs : list ToolContent)
    (l l' : Locals) (added : list Event) : Prop :=
  length rs = length (tool_uses blocks) /\
  added = call_events (tool_uses blocks) rs /\
  final_text l' = final_text l ++ final_entries blocks rs /\
  conversation_history l' =
    conversation_history l ++ history_entries blocks rs /\
  has_tool_calls l' =
    match tool_uses blocks with [] => has_tool_calls l | _ => true end.

End Observations.

(** *** A scripted model and tool provider, to run the client on *)

Module Demo.

#[export] Instance strings : Collaborators := {|
  World := nat;
  ToolInput := string;
  ToolContent := string;
  InputSchema := string;
  str_input := fun s => s;
  str_content := fun s => s;
  str_names := join ", "
|}.

Definition add_tool : Tool :=
  MkTool "add" (Some "Add two numbers") "{'a': int, 'b': int}".

(** The model answers its [n]-th request with the [n]-th entry of
    [script] and fails when the script is over; the world counts the
    requests.  Every tool call is answered by [tool]. *)
Definition scripted (script : list (list ContentBlock))
    (tool : string -> string -> outcome string) : Backend := {|
  stdio_client := fun _ w => (w, Ok tt);
  ClientSession := fun w => (w, Ok tt);
  session_initialize := fun w => (w, Ok tt);
  session_list_tools := fun w => (w, Ok [add_tool]);
  session_call_tool := fun name input w => (w, tool name input);
  messages_create := fun _ w =>
    (S w, match script !! w with
          | Some blocks => Ok blocks
          | None => Raised (Exn "APIError" "overloaded" None)
          end)
|}.

Definition add_2_3 : ContentBlock := ToolUseBlock "add" "{'a': 2, 'b': 3}".

Definition adds : string -> string -> outcome string :=
  fun _ _ => Ok "5".

Definition closed : string -> string -> outcome string :=
  fun _ _ => Raised (Exn "McpError" "Connection closed" None).

Definition connected : State := MkState 0 true [] [].
Definition fresh_client : State := MkState 0 false [] [].

(** The model asks for one addition and then answers. *)
Definition add_script : list (list ContentBlock) :=
  [[TextBlock "Let me add."; add_2_3]; [TextBlock "The sum is 5."]].

Definition answered : State * outcome string :=
  process_query (scripted add_script adds) 5 "add 2 and 3" connected.

(** The model asks for two additions and the provider is gone. *)
Definition failed : State * outcome string :=
  process_query (scripted [[add_2_3; add_2_3]] closed) 5 "add 2 and 3"
    connected.

(** The model answers at once. *)
Definition direct : list ContentBlock := [TextBlock "That is 5."].

Definition lost : exn := Exn "McpError" "Connection closed" None.

Definition add_params : list ToolParam := [tool_param add_tool].

Definition first_add : Request :=
  first_request "add 2 and 3" (describe_tools add_params) add_params.

(** The locals after the first round of that conversation. *)
Definition after_round : Locals :=
  MkLocals
    ["Let me add."; "[Tool add result: 5]"]
    [Msg assistant "Let me add.";
     Msg assistant
       "I'm using the add tool with these parameters: {'a': 2, 'b': 3}";
     Msg user "Tool result: 5"]
    true.

Definition second_add : Request :=
  followup_request "add 2 and 3" (describe_tools add_params) add_params
    (conversation_history after_round).

(** One round on its own: the [for] loop over a response with a text
    and a tool call. *)
Definition round : State * outcome Locals :=
  process_response (scripted [] adds) [TextBlock "Let me add."; add_2_3]
    (MkLocals [] [] false) connected.

End Demo.

End Client.

(** ** src/services/meme_generator.py *)

Module MemeGenerator.

(** A value that arrives as a tool argument or from [json.loads]; a
    float is kept as its digits. *)
#[warnings="-register-all"]
Inductive pyval :=
| PyNone
| PyBool (b : bool)
| PyInt (z : Z)
| PyFloat (digits : string)
| PyStr (s : string)
| PyList (items : list pyval)
| PyDict (items : list (string * pyval)).

(** The value bound to [key], the bindings read from the left. *)
Fixpoint lookup_key (key : string) (items : list (string * pyval))
    : option pyval :=
  match items with
  | [] => None
  | (k, v) :: rest => if String.eqb k key then Some v else lookup_key key rest
  end.

Definition type_name (v : pyval) : string :=
  match v with
  | PyNone => "NoneType"
  | PyBool _ => "bool"
  | PyInt _ => "int"
  | PyFloat _ => "float"
  | PyStr _ => "str"
  | PyList _ => "list"
  | PyDict _ => "dict"
  end.

(** [v[key]] with a string key (the messages are CPython 3.11's). *)
Definition subscript {S} (v : pyval) (key : string) : M S pyval :=
  match v with
  | PyDict items =>
      match lookup_key key items with
      | Some x => ret x
      | None => raise (KeyError ("'" +:+ key +:+ "'"))
      end
  | PyStr _ => raise (TypeError "string indices must be integers, not 'str'")
  | PyList _ =>
      raise (TypeError "list indices must be integers or slices, not str")
  | _ => raise (TypeError ("'" +:+ type_name v +:+
                           "' object is not subscriptable"))
  end.

(** [v.get(key, default)] *)
Definition get {S} (v : pyval) (key : string) (default : pyval) : M S pyval :=
  match v with
  | PyDict items =>
      ret (match lookup_key key items with Some x => x | None => default end)
  | _ => raise (AttributeError ("'" +:+ type_name v +:+
                                "' object has no attribute 'get'"))
  end.

(** The [params=] of the request to the meme endpoint. *)
Record Params := MkParams {
  meme : pyval;
  top : pyval;
  bottom : pyval;
  font_size : pyval;
  font : pyval
}.

(** The arguments of [requests.get]. *)
Record Get := MkGet {
  get_url : string;
  (** ["X-RapidAPI-Key"], from [os.getenv] *)
  api_key : option string;
  (** ["X-RapidAPI-Host"] *)
  api_host : string;
  get_params : option Params;
  get_timeout : option Z
}.

(** What the code reads of a [requests.Response]. *)
Record Response := MkResponse {
  status_code : Z;
  reason : string;
  url : string;
  (** [headers.get('content-type')] *)
  content_type : option string;
  (** the body, as bytes and decoded *)
  content : string;
  text : string
}.

(** What is outside the tool: the HTTP service behind [requests.get]
    (it answers or raises one of the exceptions of [requests]), the
    process environment, [json.loads] and [repr]. *)
Class Service := {
  requests_get : Get -> Response + exn;
  getenv : string -> option string;
  json_loads : string -> pyval + exn;
  py_repr : pyval -> string
}.

(** The files that exist, by path, with their contents; [stdout] for
    [print]; the records of [logger].  Directories are not modelled:
    [os.makedirs(..., exist_ok=True)] changes nothing and
    [open(path, "wb")] creates or truncates [path]. *)
Record Env := MkEnv {
  files : gmap string string;
  stdout : list string;
  log : list string
}.

Section Model.
Context `{Service}.

(** [str(v)] as an f-string formats it. *)
Definition py_str (v : pyval) : string :=
  match v with
  | PyStr s => s
  | _ => py_repr v
  end.

Definition print (line : string) : M Env unit :=
  modify (fun e => MkEnv (files e) (stdout e ++ [line]) (log e)).

Definition logger (level line : string) : M Env unit :=
  modify (fun e => MkEnv (files e) (stdout e) (log e ++ [level +:+ ":" +:+ line])).

Definition path_exists (path : string) : M Env bool :=
  gets (fun e => bool_decide (is_Some (files e !! path))).

Definition write_file (path data : string) : M Env unit :=
  modify (fun e => MkEnv (<[path := data]> (files e)) (stdout e) (log e)).

(** The classes of [requests.exceptions] that derive from
    [RequestException], and those among them that derive from
    [Timeout]. *)
Definition timeout_classes : list string :=
  ["Timeout"; "ConnectTimeout"; "ReadTimeout"].

Definition request_exception_classes : list string :=
  ["RequestException"; "HTTPError"; "ConnectionError"; "ProxyError";
   "SSLError"; "URLRequired"; "TooManyRedirects"; "MissingSchema";
   "InvalidSchema"; "InvalidURL"; "InvalidProxyURL"; "InvalidHeader";
   "InvalidJSONError"; "ChunkedEncodingError";
   "ContentDecodingError"; "StreamConsumedError"; "RetryError";
   "UnrewindableBodyError"] ++ timeout_classes.

Definition is_timeout (e : exn) : bool :=
  bool_decide (exn_class e ∈ timeout_classes).

Definition is_request_exception (e : exn) : bool :=
  bool_decide (exn_class e ∈ request_exception_classes).

Definition is_exception (e : exn) : bool := true.

Definition http_get (g : Get) : M Env Response :=
  match requests_get g with
  | inl response => ret response
  | inr e => raise e
  end.

(** [Response.raise_for_status] of the [requests] library: an
    [HTTPError] for a status from 400 to 599, nothing otherwise. *)
Definition http_error_msg (response : Response) : option string :=
  let describe kind :=
    pretty (status_code response) +:+ " " +:+ kind +:+ " Error: " +:+
    reason response +:+ " for url: " +:+ url response in
  if (400 <=? status_code response)%Z && (status_code response <? 500)%Z
  then Some (describe "Client")
  else if (500 <=? status_code response)%Z && (status_code response <? 600)%Z
  then Some (describe "Server")
  else None.

Definition raise_for_status (response : Response) : M Env unit :=
  match http_error_msg response with
  | Some msg => raise (Exn "HTTPError" msg (Some (text response)))
  | None => ret tt
  end.

Definition service_error : string :=
  "Meme generator service is experiencing internal issues. " +:+
  "Please try again later.".
Definition invalid_key : string :=
  "Invalid API key. Please check your RAPID_API_KEY environment variable.".
Definition rate_limit : string :=
  "Rate limit exceeded. Please try again later.".

(** The [if]/[elif] chain on [response.status_code], followed by
    [response.raise_for_status()]. *)
Definition check_status (response : Response) : M Env unit :=
  (if (status_code response =? 500)%Z then raise (Exception service_error)
   else if (status_code response =? 401)%Z then raise (Exception invalid_key)
   else if (status_code response =? 429)%Z then raise (Exception rate_limit)
   else ret tt) ;;;
  raise_for_status response.

(** [except requests.exceptions.RequestException as e:] of both tools. *)
Definition on_request_exception {A} (what : string) (e : exn) : M Env A :=
  let error_msg := what +:+ exn_msg e in
  match exn_response e with
  | Some response_text =>
      print ("Error details: " +:+ response_text) ;;;
      raise (Exception error_msg)
  | None =>
      raise (AttributeError "'NoneType' object has no attribute 'text'")
  end.

(** *** create_meme *)

(** The wrapping test and the unwrapping at the top of [create_meme]. *)
Definition unwrap (meme_concept : pyval) : pyval :=
  match meme_concept with
  | PyDict items =>
      match lookup_key "meme_concept" items with
      | Some inner => inner
      | None => meme_concept
      end
  | _ => meme_concept
  end.

Definition host : string := "ronreiter-meme-generator.p.rapidapi.com".

(** The numbered file name tried after [counter - 1] others. *)
Definition numbered (base_path : string) (counter : nat) : string :=
  base_path +:+ "_" +:+ pretty counter +:+ ".jpg".

(** [while os.path.exists(output_path):], one unit of fuel for each
    test of the condition. *)
Fixpoint next_free (fuel : nat) (base_path output_path : string)
    (counter : nat) : M Env string :=
  match fuel with
  | O => out_of_fuel
  | S fuel' =>
      taken <- path_exists output_path ;;
      if taken : bool
      then next_free fuel' base_path (numbered base_path counter) (counter + 1)
      else ret output_path
  end.

(** The end of [create_meme]: the check of the content type and the
    saving of the image. *)
Definition save_image (fuel : nat) (meme_concept : pyval)
    (response : Response) : M Env string :=
  let content_type := default "" (content_type response) in
  if negb (contains "image" content_type) then
    raise (Exception ("Unexpected response type: " +:+ content_type +:+
                      ". Expected image data."))
  else
    template <- subscript meme_concept "template" ;;
    let base_path := "generated_memes/" +:+ py_str template in
    output_path <- next_free fuel base_path (base_path +:+ ".jpg") 1 ;;
    write_file output_path (content response) ;;;
    let outcome := "Successfully generated meme! Saved to: " +:+ output_path in
    logger "INFO" outcome ;;;
    ret outcome.

(** Everything in [create_meme] after the unwrapping. *)
Definition generate (fuel : nat) (meme_concept : pyval) : M Env string :=
  meme <- subscript meme_concept "template" ;;
  top <- subscript meme_concept "top_text" ;;
  bottom <- subscript meme_concept "bottom_text" ;;
  font_size <- get meme_concept "font_size" (PyInt 50) ;;
  font <- get meme_concept "font" (PyStr "Impact") ;;
  let params := MkParams meme top bottom font_size font in
  let base_url := "https://" +:+ host +:+ "/meme" in
  response <- http_get (MkGet base_url (getenv "RAPID_API_KEY") host
                              (Some params) None) ;;
  check_status response ;;;
  save_image fuel meme_concept response.

(** The [try] statement of [create_meme] on a configuration that is
    already unwrapped. *)
Definition guarded (fuel : nat) (meme_concept : pyval) : M Env string :=
  try_except
    (generate fuel meme_concept)
    [(is_request_exception,
      on_request_exception "Failed to generate meme: ")].

Definition create_meme (fuel : nat) (meme_concept : pyval) : M Env string :=
  guarded fuel (unwrap meme_concept).

(** *** get_meme_templates *)

(** [len(v)] (the message is CPython 3.11's). *)
Definition len (v : pyval) : M Env nat :=
  match v with
  | PyList items => ret (length items)
  | PyDict items => ret (length items)
  | PyStr s => ret (String.length s)
  | _ => raise (TypeError ("object of type '" +:+ type_name v +:+
                           "' has no len()"))
  end.

(** [v[:5]] (the message is CPython 3.11's). *)
Definition first_five (v : pyval) : M Env pyval :=
  match v with
  | PyList items => ret (PyList (take 5 items))
  | PyStr s => ret (PyStr (String.substring 0 5 s))
  | PyDict _ => raise (TypeError "unhashable type: 'slice'")
  | _ => raise (TypeError ("'" +:+ type_name v +:+
                           "' object is not subscriptable"))
  end.

Definition loads (data : string) : M Env pyval :=
  match json_loads data with
  | inl v => ret v
  | inr e => raise e
  end.

Definition get_meme_templates : M Env pyval :=
  try_except
    (logger "INFO" "Starting get_meme_templates..." ;;;
     let base_url := "https://" +:+ host +:+ "/images" in
     logger "INFO" "Making API request..." ;;;
     response <- http_get (MkGet base_url (getenv "RAPID_API_KEY") host
                                 None (Some 10%Z)) ;;
     logger "INFO" ("Got response with status code: " +:+
                    pretty (status_code response)) ;;;
     check_status response ;;;
     templates <- loads (content response) ;;
     n <- len templates ;;
     logger "INFO" ("Found " +:+ pretty n +:+ " templates") ;;;
     five <- first_five templates ;;
     logger "INFO" ("First 5 Templates: " +:+ py_str five) ;;;
     ret templates)
    [(is_timeout,
      fun _ => raise (Exception
         ("Request timed out while getting meme templates. " +:+
          "The service might be slow or unresponsive.")));
     (is_request_exception,
      on_request_exception "Failed to get meme templates: ");
     (is_exception,
      fun e => logger "ERROR" ("Unexpected error: " +:+ exn_msg e) ;;;
               raise e)].

(** *** What the specification names *)

(** The [k]-th file name for a template saved under [base_path]:
    [<T>.jpg], then [<T>_1.jpg], [<T>_2.jpg], ... *)
Definition candidate (base_path : string) (k : nat) : string :=
  match k with
  | O => base_path +:+ ".jpg"
  | S _ => numbered base_path k
  end.

(** The text of the failure for an error status: the three named ones,
    and for any other the text of the [HTTPError] after [what]. *)
Definition failure_message (what : string) (response : Response) : string :=
  if (status_code response =? 500)%Z then service_error
  else if (status_code response =? 401)%Z then invalid_key
  else if (status_code response =? 429)%Z then rate_limit
  else what +:+ default "" (http_error_msg response).

(** The request that [create_meme] sends for the configuration
    [items]. *)
Definition meme_request (items : list (string * pyval)) : option Get :=
  match lookup_key "template" items, lookup_key "top_text" items,
        lookup_key "bottom_text" items with
  | Some meme, Some top, Some bottom =>
      Some (MkGet ("https://" +:+ host +:+ "/meme") (getenv "RAPID_API_KEY")
              host
              (Some (MkParams meme top bottom
                       (default (PyInt 50) (lookup_key "font_size" items))
                       (default (PyStr "Impact") (lookup_key "font" items))))
              None)
  | _, _, _ => None
  end.

Definition templates_request : Get :=
  MkGet ("https://" +:+ host +:+ "/images") (getenv "RAPID_API_KEY") host
        None (Some 10%Z).

(** The text of a failure tells which of the three named statuses, if
    any, produced it. *)
Definition distinguishes (msg : string) (status : Z) : Prop :=
  (msg = service_error <-> status = 500%Z) /\
  (msg = invalid_key <-> status = 401%Z) /\
  (msg = rate_limit <-> status = 429%Z).

End Model.

(** *** A service that answers every request alike, to run the tools on *)

Module Demo.

Definition answer (status : Z) (reason : string) : Response :=
  MkResponse status reason ("https://" +:+ host +:+ "/meme")
             (Some "image/jpeg") "JFIF" "JFIF".

Definition always (status : Z) (reason : string) : Service := {|
  requests_get := fun _ => inl (answer status reason);
  getenv := fun _ => Some "key";
  json_loads := fun _ => inl (PyList [PyStr "Distracted-Boyfriend"]);
  py_repr := fun _ => "?"
|}.

Definition boyfriend (template : string) : list (string * pyval) :=
  [("template", PyStr template); ("top_text", PyStr "A");
   ("bottom_text", PyStr "B")].

(** The configuration as an MCP call passes it. *)
Definition wrapped : pyval :=
  PyDict [("meme_concept", PyDict (boyfriend "Distracted-Boyfriend"))].

(** A configuration that itself has a key 'meme_concept', and the
    same wrapped once more. *)
Definition twofold : pyval :=
  PyDict (("meme_concept", PyDict (boyfriend "Drake-Hotline-Bling"))
          :: boyfriend "Distracted-Boyfriend").

Definition nested : pyval := PyDict [("meme_concept", twofold)].

Definition empty_disk : Env := MkEnv ∅ [] [].

Definition used_disk : Env :=
  MkEnv (<["generated_memes/Distracted-Boyfriend.jpg" := "old"]>
         (<["generated_memes/Distracted-Boyfriend_1.jpg" := "older"]> ∅))
        [] [].

(** A generation that the service answers with an image, on a disk
    where the first two names are taken. *)
Definition saved : Env * outcome string :=
  create_meme (H := always 200 "OK") 5 wrapped used_disk.

(** A generation that the service answers with 304 and an image. *)
Definition not_modified : Env * outcome string :=
  create_meme (H := always 304 "Not Modified") 5 wrapped empty_disk.

End Demo.

End MemeGenerator.

(** ** mcp_client.py: further readings of an execution *)

Module Execution.
Import Client.

Section Readings.
Context `{Collaborators}.

(** The exception of an outside call that raised. *)
Definition failure (ev : Event) : option exn :=
  match ev with
  | EvStdioClient _ (Raised e) => Some e
  | EvClientSession (Raised e) => Some e
  | EvInitialize (Raised e) => Some e
  | EvListTools (Raised e) => Some e
  | EvCreate _ (Raised e) => Some e
  | EvCallTool _ _ (Raised e) => Some e
  | _ => None
  end.

(** The exceptions raised by the outside calls of a trace, in order. *)
Definition failures (t : list Event) : list exn := omap failure t.

(** The responses the model returned, one by one. *)
Fixpoint replies (t : list Event) : list (list ContentBlock) :=
  match t with
  | [] => []
  | EvCreate _ (Ok blocks) :: rest => blocks :: replies rest
  | _ :: rest => replies rest
  end.

(** The exception that an outcome carries. *)
Definition raised {A} (o : outcome A) : option exn :=
  match o with Raised e => Some e | _ => None end.

(** No outside call of [added] raised, or only the last one did and
    its exception is [r]. *)
Definition failure_is_last (added : list Event) (r : option exn) : Prop :=
  failures added = [] \/
  exists pre ev e,
    added = pre ++ [ev] /\ failures pre = [] /\
    failure ev = Some e /\ r = Some e.

(** Code that stops at the first outside call that raises, with the
    exception of that call. *)
Definition stops_at_failure {A} (m : M State A) : Prop :=
  forall s s' o,
    m s = (s', o) ->
    exists added,
      trace s' = trace s ++ added /\ failure_is_last added (raised o).

(** The launcher that [connect_to_server] picks for a script. *)
Definition launcher (server_script_path : string) : StdioServerParameters :=
  MkParams (if endswith server_script_path ".py" then "python" else "node")
           [server_script_path].

(** The line of the system prompt that describes a tool. *)
Definition tool_line_of (tool : Tool) : string :=
  "- " +:+ tool_name tool +:+ ": " +:+ str_opt (tool_description tool).

End Readings.

(** A model that asks for an addition whatever it is sent. *)
Definition insatiable : Backend (H := Demo.strings) := {|
  stdio_client := fun _ w => (w, Ok tt);
  ClientSession := fun w => (w, Ok tt);
  session_initialize := fun w => (w, Ok tt);
  session_list_tools := fun w => (w, Ok [Demo.add_tool]);
  session_call_tool := fun _ _ w => (w, Ok "5");
  messages_create := fun _ w => (S w, Ok [Demo.add_2_3])
|}.

(** A provider whose process cannot be started. *)
Definition unreachable : Backend (H := Demo.strings) := {|
  stdio_client := fun _ w =>
    (w, Raised (Exn "FileNotFoundError" "No such file or directory" None));
  ClientSession := fun w => (w, Ok tt);
  session_initialize := fun w => (w, Ok tt);
  session_list_tools := fun w => (w, Ok [Demo.add_tool]);
  session_call_tool := fun _ _ w => (w, Ok "5");
  messages_create := fun _ w => (S w, Ok [])
|}.

(** A query whose first model request fails. *)
Definition overloaded : State * outcome string :=
  process_query (Demo.scripted [] Demo.adds) 5 "hello" Demo.connected.

Definition api_error : exn := Exn "APIError" "overloaded" None.

Definition first_hello : Request :=
  first_request "hello" (describe_tools Demo.add_params) Demo.add_params.

(** A connection that succeeds and one that fails at the spawn. *)
Definition started : State * outcome unit :=
  connect_to_server (Demo.scripted [] Demo.adds) "server.py"
    Demo.fresh_client.

Definition refused : State * outcome unit :=
  connect_to_server unreachable "server.js" Demo.fresh_client.

Definition not_found : exn :=
  Exn "FileNotFoundError" "No such file or directory" None.

End Execution.

(** ** mcp_client.py: the chat loop and the entry point *)

Module Shell.
Import Client.

(** What the shell uses of the Python runtime. *)
Class Runtime := {
  (** [str.strip()] and [str.lower()] *)
  strip : string -> string;
  lower : string -> string;
  (** [traceback.format_exc()] while the exception is handled *)
  format_exc : exn -> string
}.

Section Model.
Context `{Collaborators} `{Runtime}.

(** The outside calls of the client object itself: [Anthropic()] in
    [__init__] and [exit_stack.aclose()] in [cleanup]. *)
Record Lifecycle := {
  Anthropic : World -> World * outcome unit;
  aclose : World -> World * outcome unit
}.

(** The process: the client with its outside and its output, the lines
    that [input] has still to read, and how many times the exit stack
    was closed. *)
Record Terminal := MkTerminal {
  client : State;
  stdin : list string;
  closes : nat
}.

Variable B : Backend.
Variable L : Lifecycle.

(** Code of the client, run in the process. *)
Definition lift {A} (m : M State A) : M Terminal A :=
  fun t =>
    let '(s, o) := m (client t) in
    (MkTerminal s (stdin t) (closes t), o).

(** [try: body finally: final] *)
Definition try_finally {A} (body : M Terminal A) (final : M Terminal unit)
    : M Terminal A :=
  fun t =>
    match body t with
    | (t1, OutOfFuel) => (t1, OutOfFuel)
    | (t1, r) =>
        match final t1 with
        | (t2, Ok _) => (t2, r)
        | (t2, Raised e) => (t2, Raised e)
        | (t2, OutOfFuel) => (t2, OutOfFuel)
        end
    end.

(** The classes that [except Exception] does not catch. *)
Definition base_exceptions : list string :=
  ["SystemExit"; "KeyboardInterrupt"; "GeneratorExit"; "CancelledError"].

Definition is_exception (e : exn) : bool :=
  bool_decide (exn_class e ∉ base_exceptions).

Definition is_keyboard_interrupt (e : exn) : bool :=
  bool_decide (exn_class e = "KeyboardInterrupt").

(** [input(prompt)]: the prompt is written, then a line is read; at
    the end of the input it raises [EOFError]. *)
Definition input (prompt : string) : M Terminal string :=
  lift (print prompt) ;;;
  fun t =>
    match stdin t with
    | [] => (t, Raised (Exn "EOFError" "EOF when reading a line" None))
    | line :: rest => (MkTerminal (client t) rest (closes t), Ok line)
    end.

(** *** chat_loop *)

(** The body of [while True:]; its value tells whether [break] was
    reached.  [depth] is the fuel of the loop inside
    [process_query]. *)
Definition turn (depth : nat) : M Terminal bool :=
  try_except
    (line <- input (nl +:+ "Query: ") ;;
     let query := strip line in
     if String.eqb (lower query) "quit" then ret true
     else
       response <- lift (process_query B depth query) ;;
       lift (print (nl +:+ response)) ;;;
       ret false)
    [(is_exception,
      fun e => lift (print (nl +:+ "Error: " +:+ exn_msg e)) ;;; ret false)].

Fixpoint rounds (fuel depth : nat) : M Terminal unit :=
  match fuel with
  | O => out_of_fuel
  | S fuel' =>
      stop <- turn depth ;;
      if stop : bool then ret tt else rounds fuel' depth
  end.

Definition chat_loop (fuel depth : nat) : M Terminal unit :=
  lift (print (nl +:+ "MCP Client Started!")) ;;;
  lift (print "Type your queries or 'quit' to exit.") ;;;
  rounds fuel depth.

(** *** cleanup *)

Definition cleanup : M Terminal unit :=
  fun t =>
    let '(w, o) := aclose L (world (client t)) in
    (MkTerminal (MkState w (session (client t)) (trace (client t))
                         (stdout (client t)))
                (stdin t) (S (closes t)), o).

(** *** main *)

(** [MCPClient()]: a client without session. *)
Definition new_client : M Terminal unit :=
  fun t =>
    let '(w, o) := Anthropic L (world (client t)) in
    (MkTerminal (MkState w false (trace (client t)) (stdout (client t)))
                (stdin t) (closes t), o).

Definition main (fuel depth : nat) (argv : list string) : M Terminal unit :=
  if length argv <? 2 then
    lift (print "Usage: python client.py <path_to_server_script>") ;;;
    raise (Exn "SystemExit" "1" None)
  else
    let script := nth 1 argv "" in
    lift (print ("Starting client with server script: " +:+ script)) ;;;
    new_client ;;;
    try_finally
      (try_except
         (lift (print "Attempting to connect to server...") ;;;
          lift (connect_to_server B script) ;;;
          chat_loop fuel depth)
         [(is_exception,
           fun e =>
             lift (print ("Fatal error: " +:+ exn_msg e)) ;;;
             lift (print (format_exc e)))])
      cleanup.

(** The [if __name__ == "__main__":] block. *)
Definition program (fuel depth : nat) (argv : list string) : M Terminal unit :=
  try_except
    (main fuel depth argv)
    [(is_keyboard_interrupt,
      fun _ => lift (print (nl +:+ "Shutting down...")));
     (is_exception,
      fun e => lift (print ("Startup error: " +:+ exn_msg e)))].

(** The lines that are not the quit command. *)
Definition is_quit (line : string) : bool :=
  String.eqb (lower (strip line)) "quit".

End Model.

(** *** A terminal to run the shell on *)

Module Demo.

Definition blank (c : ascii) : bool :=
  bool_decide (c ∈ [" "%char; ascii_of_nat 9; ascii_of_nat 10;
                    ascii_of_nat 13]).

Fixpoint lstrip (s : string) : string :=
  match s with
  | String c s' => if blank c then lstrip s' else s
  | EmptyString => s
  end.

Definition reverse (s : string) : string :=
  string_of_list_ascii (rev (list_ascii_of_string s)).

Definition lower_char (c : ascii) : ascii :=
  let n := nat_of_ascii c in
  if (65 <=? n) && (n <=? 90) then ascii_of_nat (n + 32) else c.

(** Stripping and lowering for ASCII text. *)
#[export] Instance ascii_runtime : Runtime := {|
  strip := fun s => reverse (lstrip (reverse (lstrip s)));
  lower := fun s =>
    string_of_list_ascii (map lower_char (list_ascii_of_string s));
  format_exc := fun e => "Traceback (most recent call last): " +:+ exn_msg e
|}.

Definition quiet : Lifecycle (H := Client.Demo.strings) := {|
  Anthropic := fun w => (w, Ok tt);
  aclose := fun w => (w, Ok tt)
|}.

Definition console (lines : list string) : Terminal :=
  MkTerminal Client.Demo.fresh_client lines 0.

(** A user who asks once and quits, leaving a line unread. *)
Definition chatted : Terminal * outcome unit :=
  chat_loop (Client.Demo.scripted Client.Demo.add_script Client.Demo.adds)
    5 5 (MkTerminal Client.Demo.connected ["add 2 and 3"; "  QuIt "; "more"] 0).

(** A user who interrupts the tool call of the first query. *)
Definition interrupt : exn := Exn "KeyboardInterrupt" "" None.

Definition interruptible : Backend (H := Client.Demo.strings) :=
  Client.Demo.scripted Client.Demo.add_script (fun _ _ => Raised interrupt).

Definition interrupted : Terminal * outcome unit :=
  main interruptible quiet 5 5 ["client.py"; "server.py"]
    (console ["add 2 and 3"; "quit"]).

(** A whole session. *)
Definition session_run : Terminal * outcome unit :=
  main (Client.Demo.scripted Client.Demo.add_script Client.Demo.adds) quiet
    5 5 ["client.py"; "server.py"] (console ["add 2 and 3"; "quit"]).

End Demo.

End Shell.

(** ** meme_generator.py: further readings and services *)

Module Generation.
Import MemeGenerator.

(** The keys that [create_meme] reads with a subscript, in the order
    it reads them. *)
Definition mandatory : list string := ["template"; "top_text"; "bottom_text"].

(** The first of them that a configuration lacks. *)
Definition first_missing (items : list (string * pyval)) : option string :=
  find (fun key => bool_decide (lookup_key key items = None)) mandatory.

(** The optional keys, spelled out with their defaults. *)
Definition defaults : list (string * pyval) :=
  [("font_size", PyInt 50); ("font", PyStr "Impact")].

(** The message of a successful generation. *)
Definition saved_to (output_path : string) : string :=
  "Successfully generated meme! Saved to: " +:+ output_path.

(** Code that leaves the files as they are. *)
Definition reads_only {A} (m : M Env A) : Prop :=
  forall e e' o, m e = (e', o) -> files e' = files e.

Definition connection_error : exn :=
  Exn "ConnectionError" "Max retries exceeded" None.

Definition read_timeout : exn := Exn "ReadTimeout" "Read timed out." None.

(** A service that cannot be reached, and one that is too slow. *)
Definition failing (err : exn) : Service := {|
  requests_get := fun _ => inr err;
  getenv := fun _ => Some "key";
  json_loads := fun _ => inl (PyList []);
  py_repr := fun _ => "?"
|}.

(** A service that answers with a page of text. *)
Definition html_answer : Response :=
  MkResponse 200 "OK" ("https://" +:+ host +:+ "/meme")
             (Some "text/html") "<html>" "<html>".

Definition page : Service := {|
  requests_get := fun _ => inl html_answer;
  getenv := fun _ => Some "key";
  json_loads := fun _ => inr (Exn "JSONDecodeError" "Expecting value" None);
  py_repr := fun _ => "?"
|}.

(** A configuration without its top text. *)
Definition untitled : pyval :=
  PyDict [("template", PyStr "Drake-Hotline-Bling");
          ("bottom_text", PyStr "B")].

(** A generation that is refused, and two that succeed in a row. *)
Definition refused : Env * outcome string :=
  create_meme (H := Demo.always 401 "Unauthorized") 5 Demo.wrapped
    Demo.used_disk.

Definition again : Env * outcome string :=
  create_meme (H := Demo.always 200 "OK") 5 Demo.wrapped Demo.saved.1.

Definition listed : Env * outcome pyval :=
  get_meme_templates (H := Demo.always 200 "OK") Demo.empty_disk.

End Generation.

(** * Properties *)

(** ** The monad *)

Section MonadFacts.
Context {S A B : Type}.

Lemma bind_ok (m : M S A) (k : A -> M S B) s s1 a :
  m s = (s1, Ok a) -> bind m k s = k a s1.
Proof. unfold bind. intros ->. reflexivity. Qed.

Lemma bind_raised (m : M S A) (k : A -> M S B) s s1 e :
  m s = (s1, Raised e) -> bind m k s = (s1, Raised e).
Proof. unfold bind. intros ->. reflexivity. Qed.

Lemma bind_ok_inv (m : M S A) (k : A -> M S B) s s' b :
  bind m k s = (s', Ok b) ->
  exists s1 a, m s = (s1, Ok a) /\ k a s1 = (s', Ok b).
Proof.
  unfold bind. destruct (m s) as [s1 [a | e |]]; intros Hk.
  - exists s1, a. split; [reflexivity | exact Hk].
  - discriminate.
  - discriminate.
Qed.

End MonadFacts.

(** Splits a hypothesis [bind m k s = (s', Ok b)] into its two steps. *)
Ltac bind_inv Hrun :=
  let s1 := fresh "s" in
  let a := fresh "a" in
  let Hm := fresh "Hstep" in
  apply bind_ok_inv in Hrun as (s1 & a & Hm & Hrun).

Tactic Notation "bind_step" hyp(Hrun) "as" ident(a) ident(Hm) :=
  let s1 := fresh "s" in
  apply bind_ok_inv in Hrun as (s1 & a & Hm & Hrun).

(** ** mcp_client.py: readings of the trace *)

Section TraceFacts.
Context `{Client.Collaborators}.
Import Client.

Lemma requests_app (t u : list Event) :
  requests (t ++ u) = requests t ++ requests u.
Proof.
  induction t as [| [] t IH]; simpl; rewrite ?IH; reflexivity.
Qed.

Lemma responses_app (t u : list Event) :
  responses (t ++ u) = responses t ++ responses u.
Proof.
  induction t as [| ev t IH]; simpl; [reflexivity |].
  destruct ev as [| | | | req [blocks | |] |]; rewrite IH;
    try reflexivity.
  apply app_assoc.
Qed.

Lemma calls_app (t u : list Event) :
  calls (t ++ u) = calls t ++ calls u.
Proof.
  induction t as [| [] t IH]; simpl; rewrite ?IH; reflexivity.
Qed.

Lemma results_app (t u : list Event) :
  results (t ++ u) = results t ++ results u.
Proof.
  induction t as [| ev t IH]; simpl; [reflexivity |].
  destruct ev as [| | | | |name input [r | |]]; rewrite IH; reflexivity.
Qed.

Lemma requests_call_events uses rs : requests (call_events uses rs) = [].
Proof.
  revert rs. induction uses as [| [name input] uses IH]; intros [| r rs];
    simpl; auto.
Qed.

Lemma responses_call_events uses rs : responses (call_events uses rs) = [].
Proof.
  revert rs. induction uses as [| [name input] uses IH]; intros [| r rs];
    simpl; auto.
Qed.

Lemma results_call_events uses rs :
  length rs = length uses -> results (call_events uses rs) = rs.
Proof.
  revert rs. induction uses as [| [name input] uses IH]; intros [| r rs];
    simpl; intros Hlen; try discriminate; try reflexivity.
  f_equal. apply IH. lia.
Qed.

Lemma calls_call_events uses rs :
  length rs = length uses -> calls (call_events uses rs) = uses.
Proof.
  revert rs. induction uses as [| [name input] uses IH]; intros [| r rs];
    simpl; intros Hlen; try discriminate; try reflexivity.
  f_equal. apply IH. lia.
Qed.

Lemma call_events_app uses uses' rs rs' :
  length rs = length uses ->
  call_events (uses ++ uses') (rs ++ rs') =
  call_events uses rs ++ call_events uses' rs'.
Proof.
  revert rs. induction uses as [| [name input] uses IH]; intros [| r rs];
    simpl; intros Hlen; try discriminate; try reflexivity.
  f_equal. apply IH. lia.
Qed.

Lemma tool_uses_app (bs bs' : list ContentBlock) :
  tool_uses (bs ++ bs') = tool_uses bs ++ tool_uses bs'.
Proof.
  induction bs as [| [] bs IH]; simpl; rewrite ?IH; reflexivity.
Qed.

Lemma texts_app (bs bs' : list ContentBlock) :
  texts (bs ++ bs') = texts bs ++ texts bs'.
Proof.
  induction bs as [| [] bs IH]; simpl; rewrite ?IH; reflexivity.
Qed.

Lemma final_entries_app bs bs' rs rs' :
  length rs = length (tool_uses bs) ->
  final_entries (bs ++ bs') (rs ++ rs') =
  final_entries bs rs ++ final_entries bs' rs'.
Proof.
  revert rs. induction bs as [| [text | name input | type] bs IH];
    intros rs Hlen; simpl in *.
  - destruct rs; [reflexivity | discriminate].
  - f_equal. apply IH, Hlen.
  - destruct rs as [| r rs]; [discriminate |]. simpl in *.
    f_equal. apply IH. lia.
  - apply IH, Hlen.
Qed.

Lemma history_entries_app bs bs' rs rs' :
  length rs = length (tool_uses bs) ->
  history_entries (bs ++ bs') (rs ++ rs') =
  history_entries bs rs ++ history_entries bs' rs'.
Proof.
  revert rs. induction bs as [| [text | name input | type] bs IH];
    intros rs Hlen; simpl in *.
  - destruct rs; [reflexivity | discriminate].
  - f_equal. apply IH, Hlen.
  - destruct rs as [| r rs]; [discriminate |]. simpl in *.
    do 2 f_equal. apply IH. lia.
  - apply IH, Hlen.
Qed.

(** Without tool calls the entries are the texts. *)
Lemma final_entries_texts bs rs :
  tool_uses bs = [] -> final_entries bs rs = texts bs.
Proof.
  induction bs as [| [text | name input | type] bs IH]; simpl; intros Hno;
    try discriminate; try reflexivity; rewrite ?IH; auto.
Qed.

Lemma events_app (s s' : State) (added : list Event) :
  trace s' = trace s ++ added -> events s s' = added.
Proof.
  unfold events. intros ->. apply drop_app_length.
Qed.

End TraceFacts.

(** ** mcp_client.py: one round of the loop *)

Section RoundFacts.
Context `{Client.Collaborators}.
Import Client.
Variable B : Backend.

Lemma external_trace {A} (call : World -> World * outcome A)
    (ev : outcome A -> Event) s s' o :
  external call ev s = (s', o) ->
  trace s' = trace s ++ [ev o] /\ session s' = session s /\
  stdout s' = stdout s /\ call (world s) = (world s', o).
Proof.
  unfold external. destruct (call (world s)) as [w r].
  intros [= <- <-]. simpl. auto.
Qed.

(** A tool invocation either finds no session, and nothing leaves the
    client, or it is made and recorded with what came back. *)
Lemma call_tool_trace name input s s' o :
  call_tool B name input s = (s', o) ->
  (s' = s /\ session s = false /\ exists e, o = Raised e) \/
  (trace s' = trace s ++ [EvCallTool name input o] /\ session s = true).
Proof.
  unfold call_tool, bind, the_session.
  destruct (session s) eqn:Hsession.
  - intros Hcall. right. apply external_trace in Hcall. tauto.
  - intros [= <- <-]. left. eauto.
Qed.

(** What the [for] loop over a response does, whatever its outcome:
    it adds tool invocations only, those of the blocks from the left;
    and when it completes, every block was processed. *)
Lemma process_response_spec resp l s s' o :
  process_response B resp l s = (s', o) ->
  exists added,
    trace s' = trace s ++ added /\
    requests added = [] /\
    calls added `prefix_of` tool_uses resp /\
    (forall l', o = Ok l' -> exists rs, processed resp rs l l' added) /\
    (forall pre name input e post,
       added = pre ++ EvCallTool name input (Raised e) :: post ->
       post = [] /\ o = Raised e).
Proof.
  revert l s. induction resp as [| block rest IH]; intros l s; simpl.
  - intros [= <- <-]. exists []. rewrite app_nil_r.
    split_and!; [done | done | apply prefix_nil | |].
    + intros l' [= <-]. exists []. unfold processed. simpl.
      rewrite !app_nil_r. auto.
    + intros pre name input e post Hsplit. by destruct pre.
  - destruct block as [text | name input | type]; simpl.
    + intros Hrest.
      apply IH in Hrest as (added & Htrace & Hreq & Hcalls & Hok & Hfail).
      exists added. split_and!; try assumption.
      intros l' Ho.
      destruct (Hok l' Ho) as (rs & Hlen & Hadded & Hft & Hch & Hhas).
      exists rs. unfold processed. simpl in *.
      rewrite Hft, Hch, <- !app_assoc. auto.
    + unfold bind at 1. unfold bind at 1.
      destruct (call_tool B name input s) as [s1 r] eqn:Hcall.
      apply call_tool_trace in Hcall as Hshape.
      destruct r as [result | e |]; simpl.
      * destruct Hshape as [(_ & _ & e & He) | [Hs1 _]]; [discriminate |].
        intros Hrest.
        apply IH in Hrest as (added & Htrace & Hreq & Hcalls & Hok & Hfail).
        exists (EvCallTool name input (Ok result) :: added).
        rewrite Htrace, Hs1, <- app_assoc. simpl.
        split_and!; [done | assumption | by apply prefix_cons | |].
        -- intros l' Ho.
           destruct (Hok l' Ho) as (rs & Hlen & Hadded & Hft & Hch & Hhas).
           exists (result :: rs). unfold processed. simpl in *.
           rewrite Hft, Hch, <- !app_assoc, Hlen, Hadded. simpl.
           repeat split. rewrite Hhas. by destruct (tool_uses rest).
        -- intros pre name' input' e post Hsplit.
           destruct pre as [| ev pre]; simpl in Hsplit; [discriminate |].
           injection Hsplit as _ Hsplit. eapply Hfail, Hsplit.
      * intros [= <- <-].
        destruct Hshape as [(-> & _) | [Hs1 _]].
        -- exists []. rewrite app_nil_r.
           split_and!; [done | done | apply prefix_nil | discriminate |].
           intros pre name' input' e' post Hsplit. by destruct pre.
        -- exists [EvCallTool name input (Raised e)].
           split_and!; [assumption | done | | discriminate |].
           ++ simpl. apply prefix_cons, prefix_nil.
           ++ intros pre name' input' e' post Hsplit.
              destruct pre as [| ev pre]; simpl in Hsplit.
              ** by injection Hsplit as _ _ -> <-.
              ** injection Hsplit as _ Hsplit. by destruct pre.
      * intros [= <- <-].
        destruct Hshape as [(_ & _ & e & He) | [Hs1 _]]; [discriminate |].
        exists [EvCallTool name input OutOfFuel].
        split_and!; [assumption | done | | discriminate |].
        -- simpl. apply prefix_cons, prefix_nil.
        -- intros pre name' input' e' post Hsplit.
           destruct pre as [| ev pre]; simpl in Hsplit; [discriminate |].
           injection Hsplit as _ Hsplit. by destruct pre.
    + intros Hrest.
      apply IH in Hrest as (added & Htrace & Hreq & Hcalls & Hok & Hfail).
      exists added. split_and!; assumption.
Qed.

End RoundFacts.

(** ** mcp_client.py: the loop *)

Section LoopFacts.
Context `{Client.Collaborators}.
Import Client.
Variable B : Backend.
Variables (query tools_description : string) (available_tools : list ToolParam).

Local Abbreviation loop fuel :=
  (conversation_loop B fuel query tools_description available_tools).
Local Abbreviation followup history :=
  (followup_request query tools_description available_tools history).

(** A model request found in a trace that starts with events that are
    no model requests lies after them. *)
Lemma split_after_calls (t u pre post : list Event) req r :
  requests t = [] ->
  t ++ u = pre ++ EvCreate req r :: post ->
  exists pre', pre = t ++ pre' /\ u = pre' ++ EvCreate req r :: post.
Proof.
  revert pre. induction t as [| ev t IH]; intros pre Hnone Hsplit.
  - exists pre. auto.
  - destruct pre as [| ev' pre]; simpl in Hsplit.
    + injection Hsplit as -> _. discriminate Hnone.
    + injection Hsplit as <- Hsplit.
      assert (Ht : requests t = []) by (destruct ev; simpl in Hnone;
        first [exact Hnone | discriminate]).
      destruct (IH pre Ht Hsplit) as (pre' & -> & ->). eauto.
Qed.

Lemma no_request_no_split (t pre post : list Event) req r :
  requests t = [] -> t <> pre ++ EvCreate req r :: post.
Proof.
  intros Hnone Hsplit. rewrite <- (app_nil_r t) in Hsplit.
  apply split_after_calls in Hsplit as (pre' & _ & Hnil); [| assumption].
  by destruct pre'.
Qed.

(** The answer of a loop that returns is made of the entries of the
    blocks it processed, in order. *)
Lemma loop_answer fuel resp l s s' answer :
  loop fuel resp l s = (s', Ok answer) ->
  exists added,
    trace s' = trace s ++ added /\
    answer = join nl (final_text l ++
               final_entries (resp ++ responses added) (results added)).
Proof.
  revert resp l s. induction fuel as [| fuel IH]; intros resp l s Hrun;
    simpl in Hrun; [discriminate |].
  bind_inv Hrun. rename s0 into s1, a into l1.
  apply process_response_spec in Hstep as (added1 & Htrace1 & _ & _ & Hok & _).
  destruct (Hok l1 eq_refl) as (rs & Hlen & Hadded & Hft & _ & Hhas).
  simpl in Hft, Hhas.
  destruct (has_tool_calls l1) eqn:Hcalls; simpl in Hrun.
  - bind_inv Hrun. rename s0 into s2, a into resp'.
    apply external_trace in Hstep as (Htrace2 & _).
    apply IH in Hrun as (added' & Htrace' & ->).
    exists (added1 ++ EvCreate (followup (conversation_history l1)) (Ok resp')
                   :: added').
    split.
    + rewrite Htrace', Htrace2, Htrace1, <- !app_assoc. reflexivity.
    + rewrite responses_app, results_app, Hadded. simpl.
      rewrite responses_call_events, results_call_events by exact Hlen.
      simpl. rewrite final_entries_app by exact Hlen.
      rewrite Hft, <- app_assoc. reflexivity.
  - injection Hrun as <- <-.
    destruct (tool_uses resp) eqn:Huses; [| discriminate].
    destruct rs; [| discriminate]. simpl in Hadded. subst added1.
    exists []. split; [exact Htrace1 |].
    rewrite Hft, app_nil_r. reflexivity.
Qed.

(** Every model request a loop makes, whatever its outcome, is the
    follow-up request for the history of all the blocks processed
    before it, and by then every tool call of those blocks has
    returned. *)
Lemma loop_requests fuel resp l s s' (o : outcome string) :
  loop fuel resp l s = (s', o) ->
  exists added,
    trace s' = trace s ++ added /\
    forall pre req r post,
      added = pre ++ EvCreate req r :: post ->
      length (results pre) = length (tool_uses (resp ++ responses pre)) /\
      req = followup (conversation_history l ++
              history_entries (resp ++ responses pre) (results pre)).
Proof.
  revert resp l s. induction fuel as [| fuel IH]; intros resp l s Hrun;
    simpl in Hrun.
  { injection Hrun as <- <-. exists []. rewrite app_nil_r. split; [done |].
    intros pre req r post Hsplit. by destruct pre. }
  unfold bind at 1 in Hrun.
  destruct (process_response B resp (reset l) s) as [s1 o1] eqn:Hround.
  apply process_response_spec
    in Hround as (added1 & Htrace1 & Hnone & _ & Hok & _).
  destruct o1 as [l1 | e |];
    try (injection Hrun as <- <-; exists added1; split; [assumption |];
         intros pre req r post Hsplit;
         by apply no_request_no_split in Hsplit).
  destruct (Hok l1 eq_refl) as (rs & Hlen & Hadded & _ & Hch & _).
  simpl in Hch.
  destruct (has_tool_calls l1); simpl in Hrun.
  2: { injection Hrun as <- <-. exists added1. split; [assumption |].
       intros pre req r post Hsplit.
       by apply no_request_no_split in Hsplit. }
  unfold bind at 1 in Hrun.
  destruct (create B (followup (conversation_history l1)) s1)
    as [s2 o2] eqn:Hcreate.
  apply external_trace in Hcreate as (Htrace2 & _).
  assert (Hfirst :
    length (results added1) = length (tool_uses (resp ++ responses added1)) /\
    followup (conversation_history l1) =
    followup (conversation_history l ++
      history_entries (resp ++ responses added1) (results added1))).
  { rewrite Hadded, responses_call_events,
      results_call_events, app_nil_r, Hch by exact Hlen. auto. }
  assert (Hlast : forall o2 pre req r post,
    added1 ++ [EvCreate (followup (conversation_history l1)) o2] =
      pre ++ EvCreate req r :: post ->
    length (results pre) = length (tool_uses (resp ++ responses pre)) /\
    req = followup (conversation_history l ++
            history_entries (resp ++ responses pre) (results pre))).
  { intros o2' pre req r post Hsplit.
    apply split_after_calls in Hsplit as (pre' & -> & Hsplit);
      [| assumption].
    destruct pre' as [| ev pre']; simpl in Hsplit.
    - injection Hsplit as <- _ _. rewrite app_nil_r. exact Hfirst.
    - injection Hsplit as _ Hsplit. by destruct pre'. }
  destruct o2 as [resp' | e |].
  - apply IH in Hrun as (added' & Htrace' & Hreqs).
    exists (added1 ++ EvCreate (followup (conversation_history l1)) (Ok resp')
                   :: added').
    split.
    { rewrite Htrace', Htrace2, Htrace1, <- !app_assoc. reflexivity. }
    intros pre req r post Hsplit.
    apply split_after_calls in Hsplit as (pre' & -> & Hsplit);
      [| assumption].
    destruct pre' as [| ev pre']; simpl in Hsplit.
    + injection Hsplit as <- _ _. rewrite app_nil_r. exact Hfirst.
    + injection Hsplit as <- Hsplit.
      destruct (Hreqs _ _ _ _ Hsplit) as [Hcount ->].
      rewrite Hch, responses_app, results_app, Hadded. simpl.
      rewrite responses_call_events, results_call_events by exact Hlen.
      simpl. rewrite history_entries_app by exact Hlen.
      rewrite tool_uses_app, !length_app, Hcount, Hlen, <- app_assoc.
      auto.
  - injection Hrun as <- <-.
    exists (added1 ++ [EvCreate (followup (conversation_history l1))
                         (Raised e)]).
    split; [| apply Hlast].
    rewrite Htrace2, Htrace1, <- !app_assoc. reflexivity.
  - injection Hrun as <- <-.
    exists (added1 ++ [EvCreate (followup (conversation_history l1))
                         OutOfFuel]).
    split; [| apply Hlast].
    rewrite Htrace2, Htrace1, <- !app_assoc. reflexivity.
Qed.

(** A tool invocation that raises is the last thing a loop does, and
    the loop raises the same exception. *)
Lemma loop_failed_call fuel resp l s s' (o : outcome string) :
  loop fuel resp l s = (s', o) ->
  exists added,
    trace s' = trace s ++ added /\
    forall pre name input e post,
      added = pre ++ EvCallTool name input (Raised e) :: post ->
      post = [] /\ o = Raised e.
Proof.
  revert resp l s. induction fuel as [| fuel IH]; intros resp l s Hrun;
    simpl in Hrun.
  { injection Hrun as <- <-. exists []. rewrite app_nil_r. split; [done |].
    intros pre name input e post Hsplit. by destruct pre. }
  unfold bind at 1 in Hrun.
  destruct (process_response B resp (reset l) s) as [s1 o1] eqn:Hround.
  apply process_response_spec
    in Hround as (added1 & Htrace1 & _ & _ & _ & Hfail).
  destruct o1 as [l1 | e |].
  2, 3: injection Hrun as <- <-; exists added1; split; [assumption |];
    intros pre name input e' post Hsplit;
    destruct (Hfail _ _ _ _ _ Hsplit) as [-> Ho]; by inversion Ho.
  assert (Hreturned : forall pre name input e post,
    added1 <> pre ++ EvCallTool name input (Raised e) :: post).
  { intros pre name input e post Hsplit.
    by destruct (Hfail _ _ _ _ _ Hsplit) as [_ Ho]. }
  destruct (has_tool_calls l1); simpl in Hrun.
  2: { injection Hrun as <- <-. exists added1. split; [assumption |].
       intros pre name input e post Hsplit.
       by apply Hreturned in Hsplit. }
  unfold bind at 1 in Hrun.
  destruct (create B (followup (conversation_history l1)) s1)
    as [s2 o2] eqn:Hcreate.
  apply external_trace in Hcreate as (Htrace2 & _).
  assert (Hafter : forall rest pre name input e post,
    added1 ++ EvCreate (followup (conversation_history l1)) o2 :: rest =
      pre ++ EvCallTool name input (Raised e) :: post ->
    exists pre', rest = pre' ++ EvCallTool name input (Raised e) :: post).
  { intros rest pre name input e post Hsplit.
    apply app_eq_app in Hsplit as (mid & [[Hadded1 Hmid] | [-> Hmid]]).
    - destruct mid as [| ev mid]; simpl in Hmid; [discriminate |].
      injection Hmid as <- _. by apply Hreturned in Hadded1.
    - destruct mid as [| ev mid]; simpl in Hmid; [discriminate |].
      injection Hmid as _ ->. eauto. }
  destruct o2 as [resp' | e |].
  - apply IH in Hrun as (added' & Htrace' & Hcalls).
    exists (added1 ++ EvCreate (followup (conversation_history l1)) (Ok resp')
                   :: added').
    split.
    { rewrite Htrace', Htrace2, Htrace1, <- !app_assoc. reflexivity. }
    intros pre name input e post Hsplit.
    apply Hafter in Hsplit as (pre' & Hsplit). eapply Hcalls, Hsplit.
  - injection Hrun as <- <-.
    exists (added1 ++ [EvCreate (followup (conversation_history l1))
                         (Raised e)]).
    split.
    { rewrite Htrace2, Htrace1, <- !app_assoc. reflexivity. }
    intros pre name input e' post Hsplit.
    apply Hafter in Hsplit as (pre' & Hsplit). by destruct pre'.
  - injection Hrun as <- <-.
    exists (added1 ++ [EvCreate (followup (conversation_history l1))
                         OutOfFuel]).
    split.
    { rewrite Htrace2, Htrace1, <- !app_assoc. reflexivity. }
    intros pre name input e' post Hsplit.
    apply Hafter in Hsplit as (pre' & Hsplit). by destruct pre'.
Qed.

End LoopFacts.

(** ** mcp_client.py: process_query *)

Section QueryFacts.
Context `{Client.Collaborators}.
Import Client.
Variable B : Backend.

Lemma list_tools_trace s s' o :
  list_tools B s = (s', o) ->
  (s' = s /\ session s = false /\ exists e, o = Raised e) \/
  (trace s' = trace s ++ [EvListTools o] /\ session s = true /\
   session s' = true /\ stdout s' = stdout s /\
   session_list_tools B (world s) = (world s', o)).
Proof.
  unfold list_tools, bind, the_session.
  destruct (session s) eqn:Hsession.
  - intros Hcall. right. apply external_trace in Hcall.
    destruct Hcall as (? & -> & ? & ?). auto.
  - intros [= <- <-]. left. eauto.
Qed.

(** A response without tool calls is processed without leaving the
    client: its texts are appended and nothing else changes. *)
Lemma process_response_texts resp l s :
  tool_uses resp = [] ->
  process_response B resp l s =
  (s, Ok (MkLocals (final_text l ++ texts resp)
                   (conversation_history l ++ map (Msg assistant) (texts resp))
                   (has_tool_calls l))).
Proof.
  revert l. induction resp as [| [text | name input | type] rest IH];
    intros l Hnone; simpl in *.
  - rewrite !app_nil_r. by destruct l.
  - unfold bind, ret. rewrite IH by assumption. simpl.
    rewrite <- !app_assoc. reflexivity.
  - discriminate.
  - unfold bind, ret. apply IH, Hnone.
Qed.

(** The steps of [process_query] before the loop: either no model
    request is made, or the tools are listed, the first request is
    made, and the loop runs on its response. *)
Lemma process_query_inv fuel query s s' o :
  process_query B fuel query s = (s', o) ->
  (exists added,
     trace s' = trace s ++ added /\ requests added = [] /\
     calls added = [] /\ forall answer, o <> Ok answer) \/
  (exists listed s1 r s2,
     let available_tools := map tool_param listed in
     let tools_description := describe_tools available_tools in
     let first := first_request query tools_description available_tools in
     trace s1 = trace s ++ [EvListTools (Ok listed)] /\
     trace s2 = trace s1 ++ [EvCreate first r] /\
     match r with
     | Ok resp =>
         conversation_loop B fuel query tools_description available_tools
           resp (MkLocals [] [] false) s2 = (s', o)
     | Raised e => s' = s2 /\ o = Raised e
     | OutOfFuel => s' = s2 /\ o = OutOfFuel
     end).
Proof.
  unfold process_query. unfold bind at 1.
  destruct (list_tools B s) as [s1 o1] eqn:Hlist.
  apply list_tools_trace in Hlist
    as [(-> & _ & e & ->) | (Htrace1 & _)].
  { intros [= <- <-]. left. exists []. rewrite app_nil_r. done. }
  destruct o1 as [listed | e |].
  2, 3: intros [= <- <-]; left; eexists; split; [exact Htrace1 | done].
  unfold bind at 1.
  destruct (create B _ s1) as [s2 r] eqn:Hcreate.
  apply external_trace in Hcreate as (Htrace2 & _).
  intros Hrun. right. exists listed, s1, r, s2. simpl.
  split_and!; [assumption | assumption |].
  destruct r; [assumption | |]; by injection Hrun as <- <-.
Qed.

End QueryFacts.

(** ** mcp_client.py: what the specification says of [process_query] *)

Section QueryClaims.
Context `{Client.Collaborators}.
Import Client.
Variable B : Backend.

(** The two system prompts differ whatever the tools are: after
    "should use" the first goes on with " if they are relevant" and
    the second with ":". *)
Lemma first_system_not_followup tools_description :
  followup_system tools_description <> first_system tools_description.
Proof.
  unfold followup_system, first_system. simpl. intros Heq.
  repeat (injection Heq as Hchar Heq; try discriminate Hchar; clear Hchar).
Qed.

(** Every model request of an execution, the first one too, carries
    the history of the blocks processed so far followed by the user's
    query, and by then every tool call of those blocks has returned. *)
Lemma request_messages fuel query s s' (o : outcome string) pre req r post :
  process_query B fuel query s = (s', o) ->
  events s s' = pre ++ EvCreate req r :: post ->
  length (results pre) = length (tool_uses (responses pre)) /\
  messages req =
    history_entries (responses pre) (results pre) ++ [Msg user query].
Proof.
  intros Hrun Hsplit.
  apply process_query_inv in Hrun
    as [(added & Htrace & Hnone & _)
       | (listed & s1 & r1 & s2 & H1 & H2 & Hloop)].
  { rewrite (events_app _ _ _ Htrace) in Hsplit.
    by apply (no_request_no_split _ _ _ _ _ Hnone) in Hsplit. }
  simpl in *.
  set (available_tools := map tool_param listed) in *.
  set (tools_description := describe_tools available_tools) in *.
  assert (Hrest : forall rest,
    trace s' = trace s2 ++ rest ->
    (pre = [EvListTools (Ok listed)] /\
     req = first_request query tools_description available_tools) \/
    exists pre',
      pre = EvListTools (Ok listed)
            :: EvCreate (first_request query tools_description
                           available_tools) r1 :: pre' /\
      rest = pre' ++ EvCreate req r :: post).
  { intros rest Htrace. rewrite H2, H1, <- !app_assoc in Htrace.
    rewrite (events_app _ _ _ Htrace) in Hsplit.
    destruct pre as [| ev1 [| ev2 pre']]; simpl in Hsplit.
    - discriminate.
    - injection Hsplit; intros; subst. by left.
    - injection Hsplit as <- <- ->. right. eauto. }
  assert (Hfirst : forall rest,
    (pre = [EvListTools (Ok listed)] /\
     req = first_request query tools_description available_tools) \/
    (exists pre',
       pre = EvListTools (Ok listed)
             :: EvCreate (first_request query tools_description
                            available_tools) r1 :: pre' /\
       rest = pre' ++ EvCreate req r :: post) ->
    rest = [] ->
    length (results pre) = length (tool_uses (responses pre)) /\
    messages req =
      history_entries (responses pre) (results pre) ++ [Msg user query]).
  { intros rest [[-> ->] | (pre' & _ & ->)] Hnil; [done |]. by destruct pre'. }
  destruct r1 as [resp | e |].
  - apply loop_requests in Hloop as (added & Htrace & Hreqs).
    destruct (Hrest _ Htrace) as [[-> ->] | (pre' & -> & Hadded)]; [done |].
    destruct (Hreqs _ _ _ _ Hadded) as [Hcount ->]. simpl. auto.
  - destruct Hloop as [-> _]. apply (Hfirst []); [| done].
    apply Hrest. by rewrite app_nil_r.
  - destruct Hloop as [-> _]. apply (Hfirst []); [| done].
    apply Hrest. by rewrite app_nil_r.
Qed.

(** Between two model requests of an execution the history only
    grows, at its end, by the messages of the blocks processed in
    between. *)
Lemma history_grows fuel query s s' (o : outcome string)
    pre req1 r1 mid req2 r2 post :
  process_query B fuel query s = (s', o) ->
  events s s' = pre ++ EvCreate req1 r1 :: mid ++ EvCreate req2 r2 :: post ->
  exists history,
    messages req1 = history ++ [Msg user query] /\
    messages req2 =
      history ++
      history_entries (responses (EvCreate req1 r1 :: mid)) (results mid) ++
      [Msg user query].
Proof.
  intros Hrun Hsplit.
  destruct (request_messages _ _ _ _ _ _ _ _ _ Hrun Hsplit) as [Hcount Hreq1].
  change (pre ++ EvCreate req1 r1 :: mid ++ EvCreate req2 r2 :: post)
    with (pre ++ (EvCreate req1 r1 :: mid) ++ EvCreate req2 r2 :: post)
    in Hsplit.
  rewrite app_assoc in Hsplit.
  destruct (request_messages _ _ _ _ _ _ _ _ _ Hrun Hsplit) as [_ Hreq2].
  exists (history_entries (responses pre) (results pre)).
  split; [exact Hreq1 |].
  rewrite Hreq2, responses_app, results_app.
  rewrite history_entries_app by exact Hcount.
  rewrite <- app_assoc. reflexivity.
Qed.

(** C1, as amended: the string that [process_query] returns is the
    newline-join, in block order over all the rounds, of the text of
    every text block and of the line "[Tool <name> result: <content>]"
    of every tool call; blocks of another type add nothing. *)
Theorem process_query_answer fuel query s s' answer :
  process_query B fuel query s = (s', Ok answer) ->
  answer = join nl (final_entries (responses (events s s'))
                                  (results (events s s'))).
Proof.
  intros Hrun.
  apply process_query_inv in Hrun
    as [(added & _ & _ & _ & Hnot) | (listed & s1 & r & s2 & H1 & H2 & Hloop)].
  { by destruct (Hnot answer). }
  destruct r as [resp | e |]; [| by destruct Hloop | by destruct Hloop].
  apply loop_answer in Hloop as (added & Htrace & ->).
  rewrite H2, H1, <- !app_assoc in Htrace.
  rewrite (events_app _ _ _ Htrace). reflexivity.
Qed.

(** C2, as amended: a tool invocation that raises is not recovered.
    It is the last thing [process_query] does, and [process_query]
    raises the same exception. *)
Theorem failed_tool_call_raises fuel query s s' o pre name input e post :
  process_query B fuel query s = (s', o) ->
  events s s' = pre ++ EvCallTool name input (Raised e) :: post ->
  post = [] /\ o = Raised e.
Proof.
  intros Hrun Hsplit.
  apply process_query_inv in Hrun
    as [(added & Htrace & _ & Hcalls & _)
       | (listed & s1 & r & s2 & H1 & H2 & Hloop)].
  { rewrite (events_app _ _ _ Htrace) in Hsplit. subst added.
    rewrite calls_app in Hcalls. simpl in Hcalls.
    by destruct (calls pre). }
  assert (Hrest : forall rest,
    trace s' = trace s2 ++ rest ->
    exists pre', rest = pre' ++ EvCallTool name input (Raised e) :: post).
  { intros rest Htrace. rewrite H2, H1, <- !app_assoc in Htrace.
    rewrite (events_app _ _ _ Htrace) in Hsplit.
    destruct pre as [| ev1 [| ev2 pre']]; simpl in Hsplit;
      [discriminate | discriminate |].
    injection Hsplit as _ _ ->. eauto. }
  destruct r as [resp | e' |].
  - apply loop_failed_call in Hloop as (added & Htrace & Hfail).
    destruct (Hrest _ Htrace) as (pre' & Hadded). eapply Hfail, Hadded.
  - destruct Hloop as [-> _].
    destruct (Hrest []) as (pre' & Hnil); [by rewrite app_nil_r |].
    by destruct pre'.
  - destruct Hloop as [-> _].
    destruct (Hrest []) as (pre' & Hnil); [by rewrite app_nil_r |].
    by destruct pre'.
Qed.

(** C3, as amended: every model request after the first one carries
    the tool descriptors of the first request, the system prompt of
    the follow-up template filled with the same tool descriptions, and
    as its messages the accumulated history followed by the user's
    query; its system prompt is not that of the first request. *)
Theorem followup_requests fuel query s s' o pre first req r post :
  process_query B fuel query s = (s', o) ->
  events s s' = pre ++ EvCreate req r :: post ->
  head (requests pre) = Some first ->
  first = first_request query (describe_tools (tools first)) (tools first) /\
  req = followup_request query (describe_tools (tools first)) (tools first)
          (history_entries (responses pre) (results pre)) /\
  system req <> system first.
Proof.
  intros Hrun Hsplit Hfirst.
  apply process_query_inv in Hrun
    as [(added & Htrace & Hnone & _)
       | (listed & s1 & r1 & s2 & H1 & H2 & Hloop)].
  { rewrite (events_app _ _ _ Htrace) in Hsplit.
    by apply (no_request_no_split _ _ _ _ _ Hnone) in Hsplit. }
  simpl in *.
  set (available_tools := map tool_param listed) in *.
  set (tools_description := describe_tools available_tools) in *.
  assert (Hrest : forall rest,
    trace s' = trace s2 ++ rest ->
    exists pre',
      first = first_request query tools_description available_tools /\
      pre = EvListTools (Ok listed) :: EvCreate first r1 :: pre' /\
      rest = pre' ++ EvCreate req r :: post).
  { intros rest Htrace. rewrite H2, H1, <- !app_assoc in Htrace.
    rewrite (events_app _ _ _ Htrace) in Hsplit.
    destruct pre as [| ev1 [| ev2 pre']]; simpl in Hsplit.
    - discriminate.
    - injection Hsplit; intros; subst. discriminate Hfirst.
    - injection Hsplit as <- <- ->. simpl in Hfirst.
      injection Hfirst as <-. eauto. }
  assert (Hgoal :
    first = first_request query tools_description available_tools ->
    req = followup_request query tools_description available_tools
            (history_entries (responses pre) (results pre)) ->
    first = first_request query (describe_tools (tools first)) (tools first) /\
    req = followup_request query (describe_tools (tools first)) (tools first)
            (history_entries (responses pre) (results pre)) /\
    system req <> system first).
  { intros -> ->. simpl. split_and!; [done | done |].
    apply first_system_not_followup. }
  destruct r1 as [resp | e |].
  - apply loop_requests in Hloop as (added & Htrace & Hreqs).
    destruct (Hrest _ Htrace) as (pre' & Hf & -> & Hadded).
    apply (Hgoal Hf).
    destruct (Hreqs _ _ _ _ Hadded) as [_ ->]. reflexivity.
  - destruct Hloop as [-> _].
    destruct (Hrest []) as (pre' & _ & _ & Hnil); [by rewrite app_nil_r |].
    by destruct pre'.
  - destruct Hloop as [-> _].
    destruct (Hrest []) as (pre' & _ & _ & Hnil); [by rewrite app_nil_r |].
    by destruct pre'.
Qed.

End QueryClaims.

(** ** mcp_client.py: rounds, history and connection *)

Section RoundClaims.
Context `{Client.Collaborators}.
Import Client.
Variable B : Backend.

(** C4, as amended: when the invocations of a response with at least
    one tool call all return, the round makes exactly one invocation
    for each of its tool-call blocks, in the order of the blocks, each
    has returned before the next is made, and the next model request
    comes right after the last of them. *)
Theorem round_calls fuel query tools_description available_tools
    resp l s s1 l1 s' (o : outcome string) :
  process_response B resp (reset l) s = (s1, Ok l1) ->
  tool_uses resp <> [] ->
  conversation_loop B (S fuel) query tools_description available_tools
    resp l s = (s', o) ->
  exists rs r post,
    length rs = length (tool_uses resp) /\
    events s s' =
      call_events (tool_uses resp) rs ++
      EvCreate (followup_request query tools_description available_tools
                  (conversation_history l1)) r :: post.
Proof.
  intros Hround Hsome Hrun. simpl in Hrun.
  unfold bind at 1 in Hrun. rewrite Hround in Hrun.
  apply process_response_spec in Hround as (added1 & Htrace1 & _ & _ & Hok & _).
  destruct (Hok l1 eq_refl) as (rs & Hlen & -> & _ & _ & Hhas).
  destruct (tool_uses resp) as [| use uses] eqn:Huses; [done |].
  rewrite Hhas in Hrun. simpl in Hrun.
  unfold bind at 1 in Hrun.
  destruct (create B _ s1) as [s2 r] eqn:Hcreate.
  apply external_trace in Hcreate as (Htrace2 & _).
  exists rs, r.
  destruct r as [resp' | e |].
  - apply loop_requests in Hrun as (post & Htrace & _).
    exists post. split; [exact Hlen |]. apply events_app.
    rewrite Htrace, Htrace2, Htrace1, <- !app_assoc. reflexivity.
  - injection Hrun as <- <-. exists []. split; [exact Hlen |].
    apply events_app. rewrite Htrace2, Htrace1, <- !app_assoc. reflexivity.
  - injection Hrun as <- <-. exists []. split; [exact Hlen |].
    apply events_app. rewrite Htrace2, Htrace1, <- !app_assoc. reflexivity.
Qed.

(** C5: a response without tool-call blocks ends the loop in its
    round, and when the first response has none, [process_query]
    returns after listing the tools and making one model request,
    without any tool invocation. *)
Theorem no_tool_calls_one_round fuel query s listed w1 resp w2 :
  let available_tools := map tool_param listed in
  let tools_description := describe_tools available_tools in
  let first := first_request query tools_description available_tools in
  tool_uses resp = [] ->
  session s = true ->
  session_list_tools B (world s) = (w1, Ok listed) ->
  messages_create B first w1 = (w2, Ok resp) ->
  (forall l s0,
     conversation_loop B (S fuel) query tools_description available_tools
       resp l s0 = (s0, Ok (join nl (final_text l ++ texts resp)))) /\
  process_query B (S fuel) query s =
    (MkState w2 true
       (trace s ++ [EvListTools (Ok listed); EvCreate first (Ok resp)])
       (stdout s),
     Ok (join nl (texts resp))).
Proof.
  intros available_tools tools_description first Hnone Hsession Hlist Hcreate.
  assert (Hloop : forall l s0,
    conversation_loop B (S fuel) query tools_description available_tools
      resp l s0 = (s0, Ok (join nl (final_text l ++ texts resp)))).
  { intros l s0. simpl. unfold bind at 1.
    rewrite process_response_texts by exact Hnone. reflexivity. }
  split; [exact Hloop |].
  set (s1 := MkState w1 true (trace s ++ [EvListTools (Ok listed)]) (stdout s)).
  assert (Hlisted : list_tools B s = (s1, Ok listed)).
  { unfold list_tools, bind, the_session, external.
    rewrite Hsession, Hlist. subst s1. rewrite Hsession. reflexivity. }
  assert (Hfirst : create B first s1 =
            (MkState w2 true (trace s1 ++ [EvCreate first (Ok resp)])
                     (stdout s), Ok resp)).
  { unfold create, external. simpl. rewrite Hcreate. reflexivity. }
  unfold process_query.
  erewrite bind_ok by exact Hlisted. cbv beta zeta.
  erewrite bind_ok by exact Hfirst.
  change (map tool_param listed) with available_tools.
  change (describe_tools available_tools) with tools_description.
  rewrite Hloop. simpl. rewrite <- app_assoc. reflexivity.
Qed.

(** C6: the [for] loop over a response only appends to the history,
    in the order of the blocks: for a text block one assistant message
    with its text, for a tool-call block the assistant message that
    describes the invocation and right after it the user message with
    its result; what was there before stays in place. *)
Theorem history_append_only resp l s s' l' :
  process_response B resp l s = (s', Ok l') ->
  calls (events s s') = tool_uses resp /\
  length (results (events s s')) = length (tool_uses resp) /\
  conversation_history l' =
    conversation_history l ++ history_entries resp (results (events s s')).
Proof.
  intros Hround.
  apply process_response_spec in Hround as (added & Htrace & _ & _ & Hok & _).
  destruct (Hok l' eq_refl) as (rs & Hlen & -> & _ & Hch & _).
  rewrite (events_app _ _ _ Htrace).
  rewrite calls_call_events, results_call_events by exact Hlen. auto.
Qed.

(** C7: a server script whose name ends neither in ".py" nor in ".js"
    makes [connect_to_server] raise the [ValueError] after its first
    message: nothing is spawned, no session is created, and the
    outside is not touched. *)
Theorem unsupported_script_rejected server_script_path s :
  endswith server_script_path ".py" = false ->
  endswith server_script_path ".js" = false ->
  connect_to_server B server_script_path s =
    (MkState (world s) (session s) (trace s)
             (stdout s ++ ["Checking server script type..."]),
     Raised (ValueError "Server script must be a .py or .js file")).
Proof.
  intros Hpy Hjs. unfold connect_to_server. rewrite Hpy, Hjs. reflexivity.
Qed.

End RoundClaims.

(** ** mcp_client.py: the properties on concrete runs *)

Section ClientRuns.
Import Client Client.Demo.

Lemma process_query_answer_witness :
  answered.2 =
    Ok (join nl ["Let me add."; "[Tool add result: 5]"; "The sum is 5."]) /\
  join nl ["Let me add."; "[Tool add result: 5]"; "The sum is 5."] =
    join nl (final_entries (responses (events connected answered.1))
                           (results (events connected answered.1))).
Proof.
  split; [reflexivity |].
  apply (process_query_answer (scripted add_script adds) 5 "add 2 and 3"
           connected answered.1).
  reflexivity.
Defined.

(** C1, as stated, fails: with one tool call the answer has the line
    of the tool result between the two texts. *)
Lemma answer_not_texts_only :
  ~ (forall s' answer,
       process_query (scripted add_script adds) 5 "add 2 and 3" connected =
         (s', Ok answer) ->
       answer = join nl (texts (responses (events connected s')))).
Proof.
  intros Hclaim. specialize (Hclaim answered.1 _ eq_refl).
  vm_compute in Hclaim. discriminate Hclaim.
Qed.

Lemma failed_tool_call_raises_witness :
  events connected failed.1 =
    take 2 (trace failed.1) ++
    EvCallTool "add" "{'a': 2, 'b': 3}" (Raised lost) :: [] /\
  ([] = @nil Event /\ failed.2 = Raised lost).
Proof.
  split; [reflexivity |].
  apply (failed_tool_call_raises (scripted [[add_2_3; add_2_3]] closed) 5
           "add 2 and 3" connected failed.1 failed.2
           (take 2 (trace failed.1)) "add" "{'a': 2, 'b': 3}" lost []);
    reflexivity.
Defined.

(** C2, as stated, fails: when the provider raises on a tool call,
    [process_query] raises. *)
Lemma tool_failure_escapes :
  ~ (forall s' o,
       process_query (scripted [[add_2_3; add_2_3]] closed) 5 "add 2 and 3"
         connected = (s', o) ->
       forall e, o <> Raised e).
Proof.
  intros Hclaim. exact (Hclaim failed.1 failed.2 eq_refl lost eq_refl).
Qed.

Lemma followup_requests_witness :
  events connected answered.1 =
    take 3 (trace answered.1) ++
    EvCreate second_add (Ok [TextBlock "The sum is 5."]) :: [] /\
  head (requests (take 3 (trace answered.1))) = Some first_add /\
  system second_add <> system first_add.
Proof.
  split; [reflexivity |]. split; [reflexivity |].
  apply (followup_requests (scripted add_script adds) 5 "add 2 and 3"
           connected answered.1 answered.2 (take 3 (trace answered.1))
           first_add second_add (Ok [TextBlock "The sum is 5."]) []);
    reflexivity.
Defined.

(** C3, as stated, fails: the second request of a run does not have
    the system prompt of the first. *)
Lemma followup_prompt_differs :
  ~ (forall s' o first req,
       process_query (scripted add_script adds) 5 "add 2 and 3" connected =
         (s', o) ->
       requests (events connected s') !! 0 = Some first ->
       requests (events connected s') !! 1 = Some req ->
       system req = system first).
Proof.
  intros Hclaim.
  specialize (Hclaim answered.1 answered.2 first_add second_add
                eq_refl eq_refl eq_refl).
  vm_compute in Hclaim. discriminate Hclaim.
Qed.

Lemma round_calls_witness :
  round = (round.1, Ok after_round) /\
  tool_uses [TextBlock "Let me add."; add_2_3] <> [] /\
  exists rs r post,
    length rs = 1 /\
    events connected
      (conversation_loop (scripted [] adds) 1 "add 2 and 3" "" []
         [TextBlock "Let me add."; add_2_3] (MkLocals [] [] false)
         connected).1 =
    call_events [("add", "{'a': 2, 'b': 3}")] rs ++
    EvCreate (followup_request "add 2 and 3" "" []
                (conversation_history after_round)) r :: post.
Proof.
  split; [reflexivity |]. split; [discriminate |].
  eapply (round_calls (scripted [] adds) 0 "add 2 and 3" "" []
            [TextBlock "Let me add."; add_2_3] (MkLocals [] [] false)
            connected round.1 after_round).
  - reflexivity.
  - discriminate.
  - reflexivity.
Defined.

(** C4, as stated, fails: the response has two tool-call blocks and
    the first invocation raises, so one invocation is made. *)
Lemma calls_stop_at_failure :
  ~ (forall s' o,
       process_query (scripted [[add_2_3; add_2_3]] closed) 5 "add 2 and 3"
         connected = (s', o) ->
       length (calls (events connected s')) =
       length (tool_uses (responses (events connected s')))).
Proof.
  intros Hclaim. specialize (Hclaim failed.1 failed.2 eq_refl).
  vm_compute in Hclaim. discriminate Hclaim.
Qed.

Lemma no_tool_calls_one_round_witness :
  let first := first_request "what is 2 + 3" (describe_tools add_params)
                 add_params in
  process_query (scripted [direct] adds) 1 "what is 2 + 3" connected =
    (MkState 1 true [EvListTools (Ok [add_tool]); EvCreate first (Ok direct)]
             [],
     Ok "That is 5.").
Proof.
  apply (no_tool_calls_one_round (scripted [direct] adds) 0 "what is 2 + 3"
           connected [add_tool] 0 direct 1); reflexivity.
Defined.

Lemma history_append_only_witness :
  calls (events connected round.1) = [("add", "{'a': 2, 'b': 3}")] /\
  length (results (events connected round.1)) = 1 /\
  conversation_history after_round =
    [] ++ history_entries [TextBlock "Let me add."; add_2_3]
            (results (events connected round.1)).
Proof.
  apply (history_append_only (scripted [] adds)
           [TextBlock "Let me add."; add_2_3] (MkLocals [] [] false)
           connected round.1 after_round).
  reflexivity.
Defined.

Lemma unsupported_script_rejected_witness :
  connect_to_server (scripted [] adds) "server.rb" fresh_client =
    (MkState 0 false [] ["Checking server script type..."],
     Raised (ValueError "Server script must be a .py or .js file")).
Proof.
  apply (unsupported_script_rejected (scripted [] adds) "server.rb"
           fresh_client); reflexivity.
Defined.

End ClientRuns.

(** ** meme_generator.py: error statuses *)

Section StatusFacts.
Context `{MemeGenerator.Service}.
Import MemeGenerator.

(** On an error status [check_status] raises, without touching the
    environment: for the three named statuses a plain [Exception]
    with the text of [failure_message], for any other the
    [HTTPError] that the handler of [RequestException] turns into
    that text. *)
Lemma check_status_error what response e :
  (400 <= status_code response < 600)%Z ->
  exists exn,
    check_status response e = (e, Raised exn) /\
    ((is_request_exception exn = false /\
      exn = Exception (failure_message what response)) \/
     (is_request_exception exn = true /\ is_timeout exn = false /\
      exn_response exn = Some (text response) /\
      what +:+ exn_msg exn = failure_message what response)).
Proof.
  intros Hrange. unfold check_status, failure_message.
  destruct (Z.eqb_spec (status_code response) 500) as [H500 | H500].
  { eexists. split; [reflexivity |]. left. auto. }
  destruct (Z.eqb_spec (status_code response) 401) as [H401 | H401].
  { eexists. split; [reflexivity |]. left. auto. }
  destruct (Z.eqb_spec (status_code response) 429) as [H429 | H429].
  { eexists. split; [reflexivity |]. left. auto. }
  unfold bind, ret, raise_for_status.
  destruct (http_error_msg response) as [msg |] eqn:Hmsg.
  - eexists. split; [reflexivity |]. right. auto.
  - exfalso. unfold http_error_msg in Hmsg.
    destruct (Z.leb_spec 400 (status_code response));
      destruct (Z.ltb_spec (status_code response) 500);
      destruct (Z.leb_spec 500 (status_code response));
      destruct (Z.ltb_spec (status_code response) 600);
      simpl in Hmsg; try discriminate; lia.
Qed.

(** The texts of the failures differ by status: the three named ones
    from each other, and from the text for any other error status,
    which starts with "Failed to". *)
Lemma failure_message_distinguishes rest response :
  distinguishes (failure_message ("Failed to " +:+ rest) response)
                (status_code response).
Proof.
  unfold distinguishes, failure_message.
  destruct (Z.eqb_spec (status_code response) 500) as [-> | H500].
  { split_and!; split; intros Heq; try done. }
  destruct (Z.eqb_spec (status_code response) 401) as [-> | H401].
  { split_and!; split; intros Heq; try done. }
  destruct (Z.eqb_spec (status_code response) 429) as [-> | H429].
  { split_and!; split; intros Heq; try done. }
  split_and!; split; intros Heq; try done; simpl in Heq; discriminate Heq.
Qed.

End StatusFacts.

(** ** meme_generator.py: the request and the failures of the tools *)

Section ToolFacts.
Context `{MemeGenerator.Service}.
Import MemeGenerator.

(** With the three mandatory keys present, [create_meme] gets as far
    as the request, and the environment is still untouched. *)
Lemma generate_request fuel items g e :
  meme_request items = Some g ->
  generate fuel (PyDict items) e =
  bind (http_get g)
       (fun response =>
          check_status response ;;; save_image fuel (PyDict items) response) e.
Proof.
  unfold meme_request, generate, subscript, get.
  destruct (lookup_key "template" items) as [meme |]; [| discriminate].
  destruct (lookup_key "top_text" items) as [top |]; [| discriminate].
  destruct (lookup_key "bottom_text" items) as [bottom |]; [| discriminate].
  intros [= <-]. reflexivity.
Qed.

Lemma http_get_answer g response e :
  requests_get g = inl response -> http_get g e = (e, Ok response).
Proof. unfold http_get. intros ->. reflexivity. Qed.

(** C8, as amended: for every response with a status from 400 to 599,
    both tools raise an [Exception] whose text tells the failure: the
    service error for 500, the invalid key for 401, the rate limit for
    429, and for any other such status the text of the HTTP error
    after "Failed to ...". *)
Theorem error_status_raises fuel meme_concept items g response listing e :
  unwrap meme_concept = PyDict items ->
  meme_request items = Some g ->
  requests_get g = inl response ->
  (400 <= status_code response < 600)%Z ->
  requests_get templates_request = inl listing ->
  (400 <= status_code listing < 600)%Z ->
  let failure := failure_message "Failed to generate meme: " response in
  let failure' := failure_message "Failed to get meme templates: " listing in
  (exists e', create_meme fuel meme_concept e = (e', Raised (Exception failure))) /\
  (exists e', get_meme_templates e = (e', Raised (Exception failure'))) /\
  distinguishes failure (status_code response) /\
  distinguishes failure' (status_code listing).
Proof.
  intros Hdict Hreq Hanswer Hrange Hlisting Hrange' failure failure'.
  split_and!.
  - unfold create_meme, guarded, try_except. rewrite Hdict.
    rewrite (generate_request _ _ _ _ Hreq).
    erewrite bind_ok by (apply http_get_answer, Hanswer).
    destruct (check_status_error "Failed to generate meme: " response e Hrange)
      as (err & Hcheck & [[Hclass ->] | (Hclass & _ & Hresponse & Hmsg)]).
    + erewrite bind_raised by exact Hcheck. simpl. eauto.
    + erewrite bind_raised by exact Hcheck. simpl. rewrite Hclass.
      unfold on_request_exception. rewrite Hresponse, Hmsg.
      eexists. reflexivity.
  - unfold get_meme_templates, try_except.
    set (e1 := MkEnv (files e) (stdout e)
                 (log e ++ ["INFO:Starting get_meme_templates..."])).
    set (e2 := MkEnv (files e) (stdout e)
                 (log e1 ++ ["INFO:Making API request..."])).
    set (e3 := MkEnv (files e) (stdout e)
                 (log e2 ++ ["INFO:Got response with status code: " +:+
                             pretty (status_code listing)])).
    destruct (check_status_error "Failed to get meme templates: " listing e3
                Hrange')
      as (err & Hcheck & Hexn).
    assert (Hbody : forall (rest : Response -> M Env pyval)
                       (clauses : list ((exn -> bool) * (exn -> M Env pyval))),
      try_except
        (logger "INFO" "Starting get_meme_templates..." ;;;
         logger "INFO" "Making API request..." ;;;
         response <- http_get templates_request ;;
         logger "INFO" ("Got response with status code: " +:+
                        pretty (status_code response)) ;;;
         check_status response ;;; rest response) clauses e =
      handle clauses err e3).
    { intros rest clauses. unfold try_except.
      erewrite bind_ok by reflexivity.
      erewrite bind_ok by reflexivity.
      erewrite bind_ok by (apply http_get_answer, Hlisting).
      erewrite bind_ok by reflexivity.
      erewrite bind_raised by exact Hcheck. reflexivity. }
    cbv zeta. unfold try_except in Hbody. unfold templates_request in Hbody.
    rewrite Hbody. clear Hbody.
    destruct Hexn as [[Hclass ->] | (Hclass & Htimeout & Hresponse & Hmsg)].
    + simpl. eexists. reflexivity.
    + simpl. rewrite Htimeout, Hclass.
      unfold on_request_exception. rewrite Hresponse, Hmsg.
      eexists. reflexivity.
  - apply (failure_message_distinguishes "generate meme: ").
  - apply (failure_message_distinguishes "get meme templates: ").
Qed.

End ToolFacts.

(** ** meme_generator.py: the name of the saved file *)

Section StringFacts.

Lemma list_ascii_of_string_app (s t : string) :
  list_ascii_of_string (s +:+ t) =
  list_ascii_of_string s ++ list_ascii_of_string t.
Proof.
  induction s as [| c s IH]; simpl; [reflexivity |]. by rewrite IH.
Qed.

Lemma append_cancel_r (s1 s2 t : string) : s1 +:+ t = s2 +:+ t -> s1 = s2.
Proof.
  intros Heq. apply (f_equal list_ascii_of_string) in Heq.
  rewrite !list_ascii_of_string_app in Heq.
  apply app_inv_tail in Heq.
  rewrite <- (string_of_list_ascii_of_string s1),
          <- (string_of_list_ascii_of_string s2).
  by rewrite Heq.
Qed.

(** What [endswith] decides. *)
Lemma endswith_spec (s suffix : string) :
  endswith s suffix = true <-> exists front, s = front +:+ suffix.
Proof.
  unfold endswith. rewrite bool_decide_eq_true. split.
  - intros [front Hfront]. exists (string_of_list_ascii front).
    rewrite <- (string_of_list_ascii_of_string s), Hfront.
    rewrite <- (list_ascii_of_string_of_list_ascii front) at 1.
    rewrite <- list_ascii_of_string_app.
    by rewrite string_of_list_ascii_of_string.
  - intros [front ->]. exists (list_ascii_of_string front).
    apply list_ascii_of_string_app.
Qed.

Lemma prefix_spec (s1 s2 : string) :
  String.prefix s1 s2 = true <-> exists back, s2 = s1 +:+ back.
Proof.
  revert s2. induction s1 as [| a s1 IH]; intros [| b s2]; simpl.
  - split; [intros _; by exists "" | reflexivity].
  - split; [intros _; by exists (String b s2) | reflexivity].
  - split; [discriminate | intros [back Hback]; discriminate Hback].
  - destruct (ascii_dec a b) as [-> | Hne].
    + rewrite IH. split; intros [back Hback]; exists back.
      * by rewrite Hback.
      * by injection Hback.
    + split; [discriminate | intros [back Hback]]. by injection Hback as <-.
Qed.
(** What [contains] decides. *)
Lemma contains_spec (needle hay : string) :
  contains needle hay = true <->
  exists front back, hay = front +:+ needle +:+ back.
Proof.
  induction hay as [| c hay IH].
  - change (contains needle "") with (String.prefix needle "" || false).
    rewrite orb_false_r, prefix_spec. split.
    + intros [back Hback]. by exists "", back.
    + intros (front & back & Hhay). exists back.
      destruct front; [exact Hhay | discriminate Hhay].
  - change (contains needle (String c hay))
      with (String.prefix needle (String c hay) || contains needle hay).
    rewrite orb_true_iff, prefix_spec, IH. split.
    + intros [[back Hback] | (front & back & ->)].
      * by exists "", back.
      * by exists (String c front), back.
    + intros (front & back & Hhay).
      destruct front as [| c' front]; [left; by exists back |].
      right. injection Hhay as _ ->. by exists front, back.
Qed.

End StringFacts.

Section FileNameFacts.
Context `{MemeGenerator.Service}.
Import MemeGenerator.

(** Two candidates for one template are the same file only when they
    have the same number. *)
Lemma candidate_inj base_path : Inj (=) (=) (candidate base_path).
Proof.
  intros [| j] [| k] Heq; unfold candidate, numbered in Heq;
    apply String.app_inj in Heq; try discriminate Heq; [reflexivity |].
  injection Heq as Heq.
  apply (append_cancel_r (pretty (S j)) (pretty (S k)) ".jpg") in Heq.
  by apply pretty_nat_inj in Heq.
Qed.

(** The search for a free name reads the files and changes nothing;
    when it returns, it returns the first candidate, from the one it
    starts with, that does not exist. *)
Lemma next_free_found fuel base_path c e e1 output_path :
  next_free fuel base_path (candidate base_path c) (S c) e =
    (e1, Ok output_path) ->
  e1 = e /\
  exists k,
    c <= k /\ output_path = candidate base_path k /\
    files e !! output_path = None /\
    forall j, c <= j < k -> is_Some (files e !! candidate base_path j).
Proof.
  revert c. induction fuel as [| fuel IH]; intros c Hrun; simpl in Hrun;
    [discriminate |].
  unfold bind, path_exists, gets in Hrun.
  destruct (bool_decide (is_Some (files e !! candidate base_path c)))
    eqn:Htaken.
  - apply bool_decide_eq_true in Htaken.
    rewrite Nat.add_1_r in Hrun.
    apply (IH (S c)) in Hrun as (-> & k & Hle & -> & Hfree & Hbefore).
    split; [reflexivity |]. exists k. split_and!; [lia | done | done |].
    intros j Hj. destruct (decide (j = c)) as [-> | Hne]; [done |].
    apply Hbefore. lia.
  - apply bool_decide_eq_false in Htaken. injection Hrun as <- <-.
    split; [reflexivity |]. exists c. split_and!; [lia | done | |].
    + by apply eq_None_not_Some.
    + intros j Hj. lia.
Qed.

(** The search raises nothing, and when its fuel runs out every
    candidate it tried exists. *)
Lemma next_free_exhausted fuel base_path c e e1 (o : outcome string) :
  next_free fuel base_path (candidate base_path c) (S c) e = (e1, o) ->
  (exists output_path, o = Ok output_path) \/
  (o = OutOfFuel /\
   forall j, c <= j < c + fuel -> is_Some (files e !! candidate base_path j)).
Proof.
  revert c. induction fuel as [| fuel IH]; intros c Hrun; simpl in Hrun.
  { injection Hrun as <- <-. right. split; [reflexivity |]. intros j Hj. lia. }
  unfold bind, path_exists, gets in Hrun.
  destruct (bool_decide (is_Some (files e !! candidate base_path c)))
    eqn:Htaken.
  - apply bool_decide_eq_true in Htaken.
    rewrite Nat.add_1_r in Hrun.
    apply (IH (S c)) in Hrun as [Hfound | [-> Hall]]; [by left |].
    right. split; [reflexivity |]. intros j Hj.
    destruct (decide (j = c)) as [-> | Hne]; [done |]. apply Hall. lia.
  - injection Hrun as <- <-. left. eauto.
Qed.

(** With more fuel than there are files the search returns: the
    candidates are pairwise different, so they cannot all exist. *)
Lemma next_free_terminates fuel base_path e :
  size (files e) < fuel ->
  exists output_path,
    next_free fuel base_path (base_path +:+ ".jpg") 1 e = (e, Ok output_path).
Proof.
  intros Hfuel.
  destruct (next_free fuel base_path (base_path +:+ ".jpg") 1 e)
    as [e1 o] eqn:Hrun.
  change (base_path +:+ ".jpg") with (candidate base_path 0) in Hrun.
  destruct (next_free_exhausted _ _ _ _ _ _ Hrun) as [[out ->] | [-> Hall]].
  { apply next_free_found in Hrun as Hsame. destruct Hsame as [-> _]. eauto. }
  exfalso.
  set (tried := candidate base_path <$> seq 0 fuel).
  assert (Hdistinct : NoDup tried).
  { pose proof (candidate_inj base_path) as Hinj.
    apply (NoDup_fmap_2 _), NoDup_seq. }
  assert (Hexist : (list_to_set tried : gset string) ⊆ dom (files e)).
  { intros name Hname. apply elem_of_list_to_set in Hname.
    apply list_elem_of_fmap in Hname as (j & -> & Hj).
    apply elem_of_seq in Hj. apply elem_of_dom, Hall. lia. }
  apply subseteq_size in Hexist.
  rewrite size_list_to_set, size_dom in Hexist by exact Hdistinct.
  unfold tried in Hexist. rewrite length_fmap, length_seq in Hexist. lia.
Qed.

End FileNameFacts.

(** ** meme_generator.py: a successful generation *)

Section SaveFacts.
Context `{MemeGenerator.Service}.
Import MemeGenerator.

Lemma subscript_ok_inv (v : pyval) key (e e1 : Env) x :
  subscript v key e = (e1, Ok x) ->
  e1 = e /\ exists items, v = PyDict items /\ lookup_key key items = Some x.
Proof.
  destruct v as [| b | z | digits | str | elems | items]; try discriminate. simpl.
  destruct (lookup_key key items) as [y |] eqn:Hkey; [| discriminate].
  intros [= <- <-]. eauto.
Qed.

Lemma get_ok_inv (v : pyval) key fallback (e e1 : Env) x :
  get v key fallback e = (e1, Ok x) ->
  e1 = e /\
  exists items, v = PyDict items /\ x = default fallback (lookup_key key items).
Proof.
  destruct v as [| b | z | digits | str | elems | items]; try discriminate. simpl.
  intros [= <- <-]. split; [reflexivity |]. exists items.
  by destruct (lookup_key key items).
Qed.

Lemma http_get_ok_inv g (e e1 : Env) response :
  http_get g e = (e1, Ok response) ->
  e1 = e /\ requests_get g = inl response.
Proof.
  unfold http_get. destruct (requests_get g) as [r | err]; [| discriminate].
  by intros [= <- <-].
Qed.

(** The status check reads the response only. *)
Lemma check_status_ok_inv response (e e1 : Env) u :
  check_status response e = (e1, Ok u) -> e1 = e.
Proof.
  unfold check_status, bind, raise_for_status.
  destruct (status_code response =? 500)%Z; [discriminate |].
  destruct (status_code response =? 401)%Z; [discriminate |].
  destruct (status_code response =? 429)%Z; [discriminate |].
  simpl. destruct (http_error_msg response); [discriminate |].
  by intros [= <- _].
Qed.

(** The handler of [create_meme] always raises, so a returned value
    is the value of the [try] body. *)
Lemma guarded_ok_inv fuel meme_concept e e' outcome :
  guarded fuel meme_concept e = (e', Ok outcome) ->
  generate fuel meme_concept e = (e', Ok outcome).
Proof.
  unfold guarded, try_except.
  destruct (generate fuel meme_concept e) as [e1 [out | err |]];
    [done | | discriminate].
  simpl. destruct (is_request_exception err); [| discriminate].
  unfold on_request_exception.
  destruct (exn_response err); discriminate.
Qed.

(** With a configuration that has the mandatory keys, an answer that
    is no error and is an image, and more fuel than files,
    [create_meme] returns. *)
Lemma create_meme_returns fuel meme_concept items g response image e :
  unwrap meme_concept = PyDict items ->
  meme_request items = Some g ->
  requests_get g = inl response ->
  (status_code response < 400 \/ 600 <= status_code response)%Z ->
  content_type response = Some image ->
  contains "image" image = true ->
  size (files e) < fuel ->
  exists e' outcome, create_meme fuel meme_concept e = (e', Ok outcome).
Proof.
  intros Hdict Hreq Hanswer Hstatus Htype Himage Hfuel.
  unfold create_meme, guarded, try_except. rewrite Hdict.
  rewrite (generate_request _ _ _ _ Hreq).
  erewrite bind_ok by (apply http_get_answer, Hanswer).
  assert (Hcheck : check_status response e = (e, Ok tt)).
  { unfold check_status, raise_for_status, http_error_msg, bind.
    destruct (Z.eqb_spec (status_code response) 500); [lia |].
    destruct (Z.eqb_spec (status_code response) 401); [lia |].
    destruct (Z.eqb_spec (status_code response) 429); [lia |].
    destruct (Z.leb_spec 400 (status_code response));
      destruct (Z.ltb_spec (status_code response) 500);
      destruct (Z.leb_spec 500 (status_code response));
      destruct (Z.ltb_spec (status_code response) 600);
      simpl; try reflexivity; lia. }
  erewrite bind_ok by exact Hcheck.
  unfold save_image. rewrite Htype. simpl. rewrite Himage. simpl.
  unfold meme_request in Hreq.
  destruct (lookup_key "template" items) as [template |] eqn:Htemplate;
    [| discriminate].
  erewrite bind_ok by reflexivity.
  destruct (next_free_terminates fuel
              ("generated_memes/" +:+ py_str template) e Hfuel)
    as [output_path Hpath].
  erewrite bind_ok by exact Hpath.
  eexists _, _. reflexivity.
Qed.

(** C9: when [create_meme] returns, the image was written under
    "generated_memes/" to the first of "<T>.jpg", "<T>_1.jpg",
    "<T>_2.jpg", ... that did not exist, all the earlier ones
    existing, and every file that existed is still there with its
    contents. *)
Theorem saved_at_first_free fuel meme_concept e e' outcome :
  create_meme fuel meme_concept e = (e', Ok outcome) ->
  exists items template g response k,
    unwrap meme_concept = PyDict items /\
    lookup_key "template" items = Some template /\
    meme_request items = Some g /\
    requests_get g = inl response /\
    let base_path := "generated_memes/" +:+ py_str template in
    let output_path := candidate base_path k in
    outcome = "Successfully generated meme! Saved to: " +:+ output_path /\
    files e !! output_path = None /\
    (forall j, j < k -> is_Some (files e !! candidate base_path j)) /\
    files e' = <[output_path := content response]> (files e) /\
    (forall path data,
       files e !! path = Some data -> files e' !! path = Some data).
Proof.
  intros Hrun. apply guarded_ok_inv in Hrun. unfold generate in Hrun.
  bind_step Hrun as meme Hmeme.
  apply subscript_ok_inv in Hmeme as (-> & items & Hdict & Hmeme).
  rewrite Hdict in Hrun.
  bind_step Hrun as top Htop.
  apply subscript_ok_inv in Htop as (-> & ? & [= <-] & Htop).
  bind_step Hrun as bottom Hbottom.
  apply subscript_ok_inv in Hbottom as (-> & ? & [= <-] & Hbottom).
  bind_step Hrun as font_size Hsize.
  apply get_ok_inv in Hsize as (-> & ? & [= <-] & ->).
  bind_step Hrun as font Hfont.
  apply get_ok_inv in Hfont as (-> & ? & [= <-] & ->).
  bind_step Hrun as response Hanswer.
  apply http_get_ok_inv in Hanswer as (-> & Hanswer).
  bind_step Hrun as checked Hcheck.
  apply check_status_ok_inv in Hcheck as ->.
  unfold save_image in Hrun.
  destruct (negb _); [discriminate |].
  bind_step Hrun as template Htemplate.
  apply subscript_ok_inv in Htemplate as (-> & ? & [= <-] & Htemplate).
  rewrite Hmeme in Htemplate. injection Htemplate as <-.
  bind_step Hrun as output_path Hpath.
  change (_ +:+ ".jpg")
    with (candidate ("generated_memes/" +:+ py_str meme) 0) in Hpath.
  apply next_free_found in Hpath as (-> & k & _ & -> & Hfree & Hbefore).
  unfold write_file, logger, modify, bind, ret in Hrun.
  injection Hrun as <- <-.
  eexists items, meme, _, response, k. cbv zeta.
  split_and!.
  - exact Hdict.
  - exact Hmeme.
  - unfold meme_request. rewrite Hmeme, Htop, Hbottom. reflexivity.
  - exact Hanswer.
  - reflexivity.
  - exact Hfree.
  - intros j Hj. apply Hbefore. lia.
  - reflexivity.
  - intros path data Hpath. simpl.
    rewrite lookup_insert_ne; [done |]. intros <-. congruence.
Qed.

(** C10, as amended: a dictionary with the key 'meme_concept' is
    replaced by the value of that key, once, and [create_meme] then
    runs on that value as it is; so it behaves as [create_meme] on
    the value whenever the value is not itself a dictionary with the
    key 'meme_concept'. *)
Theorem unwraps_one_level fuel items inner e :
  lookup_key "meme_concept" items = Some inner ->
  (forall items', inner = PyDict items' ->
                  lookup_key "meme_concept" items' = None) ->
  create_meme fuel (PyDict items) e = guarded fuel inner e /\
  create_meme fuel (PyDict items) e = create_meme fuel inner e.
Proof.
  intros Hkey Hplain. unfold create_meme. simpl. rewrite Hkey.
  split; [reflexivity |]. f_equal.
  destruct inner as [| b | z | digits | str | elems | items']; try reflexivity.
  simpl. by rewrite (Hplain items' eq_refl).
Qed.

End SaveFacts.

(** ** meme_generator.py: the properties on concrete runs *)

Section MemeRuns.
Import MemeGenerator MemeGenerator.Demo.

Lemma error_status_raises_witness :
  (exists e',
     create_meme (H := always 401 "Unauthorized") 5 wrapped empty_disk =
       (e', Raised (Exception invalid_key))) /\
  (exists e',
     get_meme_templates (H := always 401 "Unauthorized") empty_disk =
       (e', Raised (Exception invalid_key))).
Proof.
  destruct (error_status_raises (H := always 401 "Unauthorized") 5 wrapped
              (boyfriend "Distracted-Boyfriend") _
              (answer 401 "Unauthorized") (answer 401 "Unauthorized")
              empty_disk eq_refl eq_refl eq_refl
              ltac:(simpl; lia) eq_refl ltac:(simpl; lia))
    as (Hmeme & Htemplates & _).
  split; assumption.
Defined.

(** C8, as stated, fails: a status that is not 2xx and is no error
    status either, here 304, raises nothing, and the body is saved. *)
Lemma status_304_saves :
  ~ (forall e' o,
       create_meme (H := always 304 "Not Modified") 5 wrapped empty_disk =
         (e', o) ->
       exists err, o = Raised err).
Proof.
  intros Hclaim.
  destruct (Hclaim not_modified.1 not_modified.2 eq_refl) as [err Herr].
  vm_compute in Herr. discriminate Herr.
Qed.

Lemma saved_at_first_free_witness :
  saved.2 =
    Ok ("Successfully generated meme! Saved to: " +:+
        "generated_memes/Distracted-Boyfriend_2.jpg") /\
  (forall path data,
     files used_disk !! path = Some data -> files saved.1 !! path = Some data).
Proof.
  split; [reflexivity |].
  destruct (saved_at_first_free (H := always 200 "OK") 5 wrapped used_disk
              saved.1 _ eq_refl)
    as (items & template & g & response & k & Hkept).
  apply Hkept.
Defined.

Lemma unwraps_one_level_witness :
  create_meme (H := always 200 "OK") 5 wrapped used_disk =
  create_meme (H := always 200 "OK") 5
    (PyDict (boyfriend "Distracted-Boyfriend")) used_disk.
Proof.
  apply (unwraps_one_level (H := always 200 "OK") 5
           [("meme_concept", PyDict (boyfriend "Distracted-Boyfriend"))]
           (PyDict (boyfriend "Distracted-Boyfriend")) used_disk).
  - reflexivity.
  - intros items' [= <-]. reflexivity.
Defined.

(** C10, as stated, fails: when the value of 'meme_concept' has that
    key too, [create_meme] on the dictionary uses the value as it is,
    and [create_meme] on the value unwraps it again. *)
Lemma unwrapped_twice :
  ~ (create_meme (H := always 200 "OK") 5 nested empty_disk =
     create_meme (H := always 200 "OK") 5 twofold empty_disk).
Proof.
  intros Hclaim. apply (f_equal snd) in Hclaim.
  vm_compute in Hclaim. discriminate Hclaim.
Qed.

End MemeRuns.

(** * Further properties *)

(** ** mcp_client.py: the first outside call that raises *)

Section FailureFacts.
Context `{Client.Collaborators}.
Import Client Execution.
Variable B : Backend.

Lemma failures_app (t u : list Event) :
  failures (t ++ u) = failures t ++ failures u.
Proof. apply omap_app. Qed.

Lemma failure_is_last_clean added : failure_is_last added None -> failures added = [].
Proof. intros [Hclean | (pre & ev & e & _ & _ & _ & Hnone)]; [done | discriminate]. Qed.

Lemma failure_is_last_after added1 added2 r :
  failures added1 = [] ->
  failure_is_last added2 r ->
  failure_is_last (added1 ++ added2) r.
Proof.
  intros Hclean [Hclean2 | (pre & ev & e & -> & Hpre & Hev & ->)].
  - left. by rewrite failures_app, Hclean, Hclean2.
  - right. exists (added1 ++ pre), ev, e.
    rewrite failures_app, Hclean, Hpre, app_assoc. auto.
Qed.

(** Where a failed call sits in a trace that keeps failures last. *)
Lemma failure_is_last_split added r pre ev e post :
  failure_is_last added r ->
  added = pre ++ ev :: post ->
  failure ev = Some e ->
  post = [] /\ r = Some e.
Proof.
  intros [Hclean | (pre0 & ev0 & e0 & -> & Hpre & Hev & ->)] Hsplit Hfail.
  - subst added. rewrite failures_app in Hclean.
    apply app_eq_nil in Hclean as [_ Hclean].
    unfold failures in Hclean. simpl in Hclean.
    rewrite Hfail in Hclean. discriminate.
  - destruct post as [| ev' post].
    + apply app_inj_tail in Hsplit as [_ <-].
      rewrite Hfail in Hev. by injection Hev as <-.
    + exfalso.
      change (ev :: ev' :: post) with ([ev] ++ ev' :: post) in Hsplit.
      rewrite app_assoc in Hsplit.
      destruct (exists_last (l := ev' :: post)) as (mid & last & Hlast);
        [done |].
      rewrite Hlast, app_assoc in Hsplit.
      apply app_inj_tail in Hsplit as [-> _].
      rewrite !failures_app in Hpre.
      apply app_eq_nil in Hpre as [Hpre _].
      apply app_eq_nil in Hpre as [_ Hpre].
      unfold failures in Hpre. simpl in Hpre.
      rewrite Hfail in Hpre. discriminate.
Qed.

Lemma stops_ret {A} (a : A) : stops_at_failure (ret a).
Proof. intros s s' o [= <- <-]. exists []. rewrite app_nil_r. by split; [| left]. Qed.

Lemma stops_raise {A} e : stops_at_failure (@raise State A e).
Proof. intros s s' o [= <- <-]. exists []. rewrite app_nil_r. by split; [| left]. Qed.

Lemma stops_out_of_fuel {A} : stops_at_failure (@out_of_fuel State A).
Proof. intros s s' o [= <- <-]. exists []. rewrite app_nil_r. by split; [| left]. Qed.

Lemma stops_print line : stops_at_failure (print line).
Proof. intros s s' o [= <- <-]. exists []. simpl. rewrite app_nil_r. by split; [| left]. Qed.

Lemma stops_set_session : stops_at_failure set_session.
Proof. intros s s' o [= <- <-]. exists []. simpl. rewrite app_nil_r. by split; [| left]. Qed.

Lemma stops_the_session attr : stops_at_failure (the_session attr).
Proof.
  intros s s' o. unfold the_session.
  destruct (session s); intros [= <- <-]; exists [];
    rewrite app_nil_r; by split; [| left].
Qed.

Lemma stops_bind {A C} (m : M State A) (k : A -> M State C) :
  stops_at_failure m ->
  (forall a, stops_at_failure (k a)) ->
  stops_at_failure (bind m k).
Proof.
  intros Hm Hk s s' o. unfold bind.
  destruct (m s) as [s1 o1] eqn:Hrun1.
  destruct (Hm _ _ _ Hrun1) as (added1 & Htrace1 & Hlast1).
  destruct o1 as [a | e |].
  - intros Hrun2. destruct (Hk a _ _ _ Hrun2) as (added2 & Htrace2 & Hlast2).
    exists (added1 ++ added2). split.
    + by rewrite Htrace2, Htrace1, app_assoc.
    + apply failure_is_last_after; [| done].
      by apply failure_is_last_clean.
  - intros [= <- <-]. exists added1. by split.
  - intros [= <- <-]. exists added1. split; [done |].
    left. by apply failure_is_last_clean.
Qed.

(** An outside call is recorded with its outcome. *)
Lemma stops_external {A} (call : World -> World * outcome A)
    (ev : outcome A -> Event) :
  (forall o, failure (ev o) = raised o) ->
  stops_at_failure (external call ev).
Proof.
  intros Hev s s' o Hrun.
  apply external_trace in Hrun as (Htrace & _).
  exists [ev o]. split; [done |].
  destruct o as [a | e |].
  - left. unfold failures. simpl. by rewrite Hev.
  - right. exists [], (ev (Raised e)), e. rewrite Hev. auto.
  - left. unfold failures. simpl. by rewrite Hev.
Qed.

Lemma stops_list_tools : stops_at_failure (list_tools B).
Proof.
  apply stops_bind; [apply stops_the_session | intros _].
  apply stops_external. by intros [].
Qed.

Lemma stops_call_tool name input : stops_at_failure (call_tool B name input).
Proof.
  apply stops_bind; [apply stops_the_session | intros _].
  apply stops_external. by intros [].
Qed.

Lemma stops_create req : stops_at_failure (create B req).
Proof. apply stops_external. by intros []. Qed.

Lemma stops_process_response resp l :
  stops_at_failure (process_response B resp l).
Proof.
  revert l. induction resp as [| block rest IH]; intros l; simpl.
  - apply stops_ret.
  - apply stops_bind; [| intros l'; apply IH].
    destruct block as [text | name input | type]; simpl.
    + apply stops_ret.
    + apply stops_bind; [apply stops_call_tool | intros r; apply stops_ret].
    + apply stops_ret.
Qed.

Lemma stops_conversation_loop fuel query tools_description available_tools
    resp l :
  stops_at_failure (conversation_loop B fuel query tools_description
                      available_tools resp l).
Proof.
  revert resp l. induction fuel as [| fuel IH]; intros resp l; simpl.
  - apply stops_out_of_fuel.
  - apply stops_bind; [apply stops_process_response | intros l'].
    destruct (negb (has_tool_calls l')); [apply stops_ret |].
    apply stops_bind; [apply stops_create | intros resp'; apply IH].
Qed.

Lemma stops_process_query fuel query :
  stops_at_failure (process_query B fuel query).
Proof.
  unfold process_query.
  apply stops_bind; [apply stops_list_tools | intros listed].
  apply stops_bind; [apply stops_create | intros resp].
  apply stops_conversation_loop.
Qed.

Lemma stops_connect_to_server server_script_path :
  stops_at_failure (connect_to_server B server_script_path).
Proof.
  unfold connect_to_server.
  apply stops_bind; [apply stops_print | intros _].
  destruct (negb _); [apply stops_raise |].
  repeat first
    [ apply stops_print
    | apply stops_set_session
    | apply stops_list_tools
    | apply stops_external; by intros []
    | apply stops_bind; [| intros ?] ].
Qed.

End FailureFacts.

(** ** mcp_client.py: failures and the connection *)

Section ConnectionFacts.
Context `{Client.Collaborators}.
Import Client Execution.
Variable B : Backend.

(** X1: whichever outside call of [process_query] raises first, be it
    the listing of the tools, a model request or a tool invocation, it
    is the last call made and [process_query] raises its exception. *)
Theorem outside_failure_ends_query fuel query s s' (o : outcome string)
    pre ev e post :
  process_query B fuel query s = (s', o) ->
  events s s' = pre ++ ev :: post ->
  failure ev = Some e ->
  post = [] /\ o = Raised e.
Proof.
  intros Hrun Hsplit Hfail.
  destruct (stops_process_query B _ _ _ _ _ Hrun) as (added & Htrace & Hlast).
  rewrite (events_app _ _ _ Htrace) in Hsplit.
  destruct (failure_is_last_split _ _ _ _ _ _ Hlast Hsplit Hfail) as [-> Hr].
  split; [reflexivity |]. by destruct o; try discriminate; injection Hr as ->.
Qed.

Lemma print_trace line s s' (o : outcome unit) :
  print line s = (s', o) ->
  trace s' = trace s /\ session s' = session s /\ world s' = world s.
Proof. unfold print, modify. intros [= <- <-]. simpl. auto. Qed.

Lemma set_session_trace s s' (o : outcome unit) :
  set_session s = (s', o) -> trace s' = trace s /\ session s' = true.
Proof. unfold set_session, modify. intros [= <- <-]. simpl. auto. Qed.

(** X2: [connect_to_server] returns only for a ".py" or ".js" script
    and only after the whole handshake: the launcher for the script is
    spawned, the session is created and initialized and the tools are
    listed, in this order and each with success; the client then has
    its session. *)
Theorem connect_handshake server_script_path s s' :
  connect_to_server B server_script_path s = (s', Ok tt) ->
  endswith server_script_path ".py" || endswith server_script_path ".js"
    = true /\
  session s' = true /\
  exists listed,
    events s s' =
      [EvStdioClient (launcher server_script_path) (Ok tt);
       EvClientSession (Ok tt); EvInitialize (Ok tt);
       EvListTools (Ok listed)].
Proof.
  unfold connect_to_server. intros Hrun.
  bind_step Hrun as u Hprint. apply print_trace in Hprint as (Ht0 & _).
  destruct (endswith server_script_path ".py" ||
            endswith server_script_path ".js") eqn:Hkind;
    [| discriminate].
  simpl in Hrun. split; [reflexivity |].
  bind_step Hrun as u1 Hstep. apply print_trace in Hstep as (Ht1 & _).
  bind_step Hrun as u2 Hstep. apply print_trace in Hstep as (Ht2 & _).
  bind_step Hrun as u3 Hspawn.
  apply external_trace in Hspawn as (Hspawn & _).
  bind_step Hrun as u4 Hstep. apply print_trace in Hstep as (Ht4 & _).
  bind_step Hrun as u5 Hstep. apply print_trace in Hstep as (Ht5 & _).
  bind_step Hrun as u6 Hsession.
  apply external_trace in Hsession as (Hsession & _).
  bind_step Hrun as u7 Hset.
  apply set_session_trace in Hset as (Ht7 & _).
  bind_step Hrun as u8 Hstep. apply print_trace in Hstep as (Ht8 & _).
  bind_step Hrun as u9 Hinit.
  apply external_trace in Hinit as (Hinit & _).
  bind_step Hrun as u10 Hstep. apply print_trace in Hstep as (Ht10 & _).
  bind_step Hrun as listed Hlist.
  apply list_tools_trace in Hlist
    as [(_ & _ & e & He) | (Hlist & _ & Hset' & _)]; [discriminate |].
  apply print_trace in Hrun as (Ht11 & Hs11 & _).
  split; [by rewrite Hs11 |]. exists listed. apply events_app.
  destruct u3, u6, u9.
  rewrite Ht11, Hlist, Ht10, Hinit, Ht8, Ht7, Hsession, Ht5, Ht4, Hspawn,
    Ht2, Ht1, Ht0, <- !app_assoc.
  reflexivity.
Qed.

(** X3: when one of the outside calls of [connect_to_server] raises,
    no later call is made and [connect_to_server] raises its
    exception. *)
Theorem connect_stops_at_failure server_script_path s s' (o : outcome unit)
    pre ev e post :
  connect_to_server B server_script_path s = (s', o) ->
  events s s' = pre ++ ev :: post ->
  failure ev = Some e ->
  post = [] /\ o = Raised e.
Proof.
  intros Hrun Hsplit Hfail.
  destruct (stops_connect_to_server B _ _ _ _ Hrun)
    as (added & Htrace & Hlast).
  rewrite (events_app _ _ _ Htrace) in Hsplit.
  destruct (failure_is_last_split _ _ _ _ _ _ Hlast Hsplit Hfail) as [-> Hr].
  split; [reflexivity |]. by destruct o; try discriminate; injection Hr as ->.
Qed.

(** X4: on a client that has no session, [process_query] raises the
    [AttributeError] of [None] at once: nothing leaves the client and
    its state is unchanged. *)
Theorem query_without_session fuel query s :
  session s = false ->
  process_query B fuel query s =
    (s, Raised (AttributeError
                  "'NoneType' object has no attribute 'list_tools'")).
Proof.
  intros Hnone. unfold process_query, list_tools, the_session, bind.
  rewrite Hnone. reflexivity.
Qed.

End ConnectionFacts.

(** ** mcp_client.py: which tools are invoked and when the loop ends *)

Section RoundsFacts.
Context `{Client.Collaborators}.
Import Client Execution.
Variable B : Backend.
Variables (query tools_description : string) (available_tools : list ToolParam).

Local Abbreviation loop fuel :=
  (conversation_loop B fuel query tools_description available_tools).

Lemma no_requests_no_responses (t : list Event) :
  requests t = [] -> responses t = [].
Proof.
  induction t as [| [] t IH]; simpl; intros Hnone; try discriminate; auto.
Qed.

Lemma no_requests_no_replies (t : list Event) :
  requests t = [] -> replies t = [].
Proof.
  induction t as [| [] t IH]; simpl; intros Hnone; try discriminate; auto.
Qed.

Lemma replies_app (t u : list Event) :
  replies (t ++ u) = replies t ++ replies u.
Proof.
  induction t as [| ev t IH]; simpl; [reflexivity |].
  destruct ev as [| | | | req [blocks | |] |]; rewrite ?IH; reflexivity.
Qed.

(** The tool invocations of a loop are those its responses ask for,
    from the first on and in their order; a loop that returns has made
    all of them, and each has returned. *)
Lemma loop_calls fuel resp l s s' (o : outcome string) :
  loop fuel resp l s = (s', o) ->
  exists added,
    trace s' = trace s ++ added /\
    calls added `prefix_of` tool_uses (resp ++ responses added) /\
    forall answer, o = Ok answer ->
      calls added = tool_uses (resp ++ responses added) /\
      length (results added) = length (calls added).
Proof.
  revert resp l s. induction fuel as [| fuel IH]; intros resp l s Hrun;
    simpl in Hrun.
  { injection Hrun as <- <-. exists []. rewrite app_nil_r.
    split_and!; [done | apply prefix_nil | discriminate]. }
  unfold bind at 1 in Hrun.
  destruct (process_response B resp (reset l) s) as [s1 o1] eqn:Hround.
  apply process_response_spec
    in Hround as (added1 & Htrace1 & Hnone & Hprefix & Hok & _).
  pose proof (no_requests_no_responses _ Hnone) as Hnoresp.
  destruct o1 as [l1 | e |].
  2, 3: injection Hrun as <- <-; exists added1;
    rewrite Hnoresp, app_nil_r; split_and!; [done | done | discriminate].
  destruct (Hok l1 eq_refl) as (rs & Hlen & Hadded & _ & _ & _).
  assert (Hcalls1 : calls added1 = tool_uses resp)
    by (by rewrite Hadded, calls_call_events).
  assert (Hres1 : results added1 = rs)
    by (by rewrite Hadded, results_call_events).
  destruct (has_tool_calls l1); simpl in Hrun.
  2: { injection Hrun as <- <-. exists added1.
       rewrite Hnoresp, app_nil_r.
       split_and!; [done | done |]. intros answer _.
       by rewrite Hcalls1, Hres1. }
  unfold bind at 1 in Hrun.
  destruct (create B _ s1) as [s2 o2] eqn:Hcreate.
  apply external_trace in Hcreate as (Htrace2 & _).
  destruct o2 as [resp' | e |].
  - apply IH in Hrun as (added' & Htrace' & Hprefix' & Hok').
    eexists (added1 ++ EvCreate _ (Ok resp') :: added').
    split; [by rewrite Htrace', Htrace2, Htrace1, <- !app_assoc |].
    rewrite calls_app, responses_app, results_app, Hnoresp. simpl.
    rewrite tool_uses_app, Hcalls1, Hres1.
    split; [by apply prefix_app |].
    intros answer Ho. destruct (Hok' answer Ho) as [-> Hcount].
    by rewrite !length_app, Hcount, Hlen.
  - injection Hrun as <- <-. eexists (added1 ++ [EvCreate _ (Raised e)]).
    split; [by rewrite Htrace2, Htrace1, <- !app_assoc |].
    rewrite calls_app, responses_app, Hnoresp. simpl.
    rewrite !app_nil_r, Hcalls1. split; [done | discriminate].
  - injection Hrun as <- <-. eexists (added1 ++ [EvCreate _ OutOfFuel]).
    split; [by rewrite Htrace2, Htrace1, <- !app_assoc |].
    rewrite calls_app, responses_app, Hnoresp. simpl.
    rewrite !app_nil_r, Hcalls1. split; [done | discriminate].
Qed.

(** Of the responses that a returning loop went through, the last one
    has no tool call and every one before has some. *)
Lemma loop_replies fuel resp l s s' answer :
  loop fuel resp l s = (s', Ok answer) ->
  exists added init last,
    trace s' = trace s ++ added /\
    resp :: replies added = init ++ [last] /\
    tool_uses last = [] /\
    Forall (fun blocks => tool_uses blocks <> []) init.
Proof.
  revert resp l s. induction fuel as [| fuel IH]; intros resp l s Hrun;
    simpl in Hrun; [discriminate |].
  bind_step Hrun as l1 Hround.
  apply process_response_spec
    in Hround as (added1 & Htrace1 & Hnone & _ & Hok & _).
  pose proof (no_requests_no_replies _ Hnone) as Hnorep.
  destruct (Hok l1 eq_refl) as (rs & _ & _ & _ & _ & Hhas).
  simpl in Hhas.
  destruct (has_tool_calls l1); simpl in Hrun.
  - bind_step Hrun as resp' Hcreate.
    apply external_trace in Hcreate as (Htrace2 & _).
    apply IH in Hrun as (added' & init & last & Htrace' & Hsplit & Hlast & Hinit).
    eexists (added1 ++ EvCreate _ (Ok resp') :: added'), (resp :: init), last.
    split_and!.
    + by rewrite Htrace', Htrace2, Htrace1, <- !app_assoc.
    + rewrite replies_app, Hnorep. simpl. by rewrite Hsplit.
    + exact Hlast.
    + constructor; [| exact Hinit]. by destruct (tool_uses resp).
  - injection Hrun as <- _. exists added1, [], resp.
    rewrite Hnorep. split_and!; [done | done | | constructor].
    by destruct (tool_uses resp).
Qed.

End RoundsFacts.

Section ExecutionFacts.
Context `{Client.Collaborators}.
Import Client Execution.
Variable B : Backend.

(** X5: [process_query] invokes only tools that the model asked for:
    the invocations of an execution are, from the first on and in the
    same order, the tool-call blocks of the responses received; when
    [process_query] returns, every such block was invoked and every
    invocation returned. *)
Theorem calls_follow_tool_uses fuel query s s' (o : outcome string) :
  process_query B fuel query s = (s', o) ->
  calls (events s s') `prefix_of` tool_uses (responses (events s s')) /\
  forall answer, o = Ok answer ->
    calls (events s s') = tool_uses (responses (events s s')) /\
    length (results (events s s')) = length (calls (events s s')).
Proof.
  intros Hrun.
  apply process_query_inv in Hrun
    as [(added & Htrace & _ & Hcalls & Hnot)
       | (listed & s1 & r & s2 & H1 & H2 & Hloop)].
  { rewrite (events_app _ _ _ Htrace), Hcalls.
    split; [apply prefix_nil |]. intros answer ->. by destruct (Hnot answer). }
  simpl in *. destruct r as [resp | e |].
  - apply loop_calls in Hloop as (added & Htrace & Hprefix & Hok).
    rewrite H2, H1, <- !app_assoc in Htrace.
    rewrite (events_app _ _ _ Htrace). simpl. auto.
  - destruct Hloop as [-> ->]. rewrite H1, <- !app_assoc in H2.
    rewrite (events_app _ _ _ H2). simpl.
    split; [apply prefix_nil | discriminate].
  - destruct Hloop as [-> ->]. rewrite H1, <- !app_assoc in H2.
    rewrite (events_app _ _ _ H2). simpl.
    split; [apply prefix_nil | discriminate].
Qed.

(** X6: [process_query] returns at the first response without a
    tool call: of the responses of an execution that returns, the last
    has no tool-call block and every earlier one has at least one. *)
Theorem returns_at_first_plain_response fuel query s s' answer :
  process_query B fuel query s = (s', Ok answer) ->
  exists init last,
    replies (events s s') = init ++ [last] /\
    tool_uses last = [] /\
    Forall (fun blocks => tool_uses blocks <> []) init.
Proof.
  intros Hrun.
  apply process_query_inv in Hrun
    as [(added & _ & _ & _ & Hnot)
       | (listed & s1 & r & s2 & H1 & H2 & Hloop)].
  { by destruct (Hnot answer). }
  simpl in *.
  destruct r as [resp | e |]; [| by destruct Hloop | by destruct Hloop].
  apply loop_replies
    in Hloop as (added & init & last & Htrace & Hsplit & Hlast & Hinit).
  rewrite H2, H1, <- !app_assoc in Htrace.
  rewrite (events_app _ _ _ Htrace). simpl. eauto.
Qed.

(** With a session, a provider whose invocations all return lets the
    [for] loop over any response complete. *)
Lemma process_response_returns resp l s :
  session s = true ->
  (forall name input w,
     exists w' r, session_call_tool B name input w = (w', Ok r)) ->
  exists s1 l1,
    process_response B resp l s = (s1, Ok l1) /\ session s1 = true.
Proof.
  intros Hsession Htools. revert l s Hsession.
  induction resp as [| block rest IH]; intros l s Hsession; simpl.
  - eauto.
  - destruct block as [text | name input | type]; simpl.
    + apply IH, Hsession.
    + destruct (Htools name input (world s)) as (w' & r & Hcall).
      unfold bind at 1. unfold bind at 1.
      unfold call_tool, the_session, bind at 1, external.
      rewrite Hsession, Hcall. simpl. apply IH. simpl. exact Hsession.
    + apply IH, Hsession.
Qed.

(** X7: the loop has no bound of its own.  With a model that asks for
    a tool in every response and a provider whose invocations all
    return, [process_query] does not return: whatever the number of
    rounds allowed, they are all used, each with one more model
    request. *)
Theorem loop_has_no_bound fuel query s :
  session s = true ->
  (forall w, exists w' listed, session_list_tools B w = (w', Ok listed)) ->
  (forall req w,
     exists w' resp,
       messages_create B req w = (w', Ok resp) /\ tool_uses resp <> []) ->
  (forall name input w,
     exists w' r, session_call_tool B name input w = (w', Ok r)) ->
  exists s',
    process_query B fuel query s = (s', OutOfFuel) /\
    length (requests (events s s')) = S fuel.
Proof.
  intros Hsession Hlist Hmodel Htools.
  assert (Hcreate : forall req s0,
    exists s2 resp,
      create B req s0 = (s2, Ok resp) /\ tool_uses resp <> [] /\
      session s2 = session s0 /\
      trace s2 = trace s0 ++ [EvCreate req (Ok resp)]).
  { intros req s0. destruct (Hmodel req (world s0)) as (w2 & resp & Hreq & Hasks).
    exists (MkState w2 (session s0) (trace s0 ++ [EvCreate req (Ok resp)])
                    (stdout s0)), resp.
    unfold create, external. rewrite Hreq. auto. }
  assert (Hloop : forall fuel tools_description available_tools resp l s0,
    session s0 = true -> tool_uses resp <> [] ->
    exists s' added,
      conversation_loop B fuel query tools_description available_tools
        resp l s0 = (s', OutOfFuel) /\
      trace s' = trace s0 ++ added /\ length (requests added) = fuel).
  { clear fuel s Hsession. intros fuel td at'.
    induction fuel as [| fuel IH]; intros resp l s0 Hsession Hasks; simpl.
    { exists s0, []. by rewrite app_nil_r. }
    destruct (process_response_returns resp (reset l) s0 Hsession Htools)
      as (s1 & l1 & Hround & Hsession1).
    erewrite bind_ok by exact Hround.
    apply process_response_spec
      in Hround as (added1 & Htrace1 & Hnone & _ & Hok & _).
    destruct (Hok l1 eq_refl) as (rs & _ & _ & _ & _ & Hhas).
    destruct (tool_uses resp) as [| use uses]; [done |].
    rewrite Hhas. simpl.
    destruct (Hcreate (followup_request query td at' (conversation_history l1))
                s1) as (s2 & resp' & Hreq & Hasks' & Hsession2 & Htrace2).
    erewrite bind_ok by exact Hreq.
    rewrite Hsession1 in Hsession2.
    destruct (IH resp' l1 s2 Hsession2 Hasks')
      as (s' & added' & Hrun & Htrace' & Hcount).
    eexists s', (added1 ++ EvCreate _ (Ok resp') :: added').
    split_and!; [exact Hrun | |].
    - by rewrite Htrace', Htrace2, Htrace1, <- !app_assoc.
    - rewrite requests_app, Hnone. simpl. by rewrite Hcount. }
  unfold process_query.
  destruct (Hlist (world s)) as (w1 & listed & Hlisted).
  set (s1 := MkState w1 true (trace s ++ [EvListTools (Ok listed)]) (stdout s)).
  assert (Hlt : list_tools B s = (s1, Ok listed)).
  { unfold list_tools, bind, the_session, external.
    rewrite Hsession, Hlisted. subst s1. rewrite Hsession. reflexivity. }
  erewrite bind_ok by exact Hlt. cbv beta zeta.
  destruct (Hcreate (first_request query
                       (describe_tools (map tool_param listed))
                       (map tool_param listed)) s1)
    as (s2 & resp & Hreq & Hasks & Hsession2 & Htrace2).
  erewrite bind_ok by exact Hreq.
  destruct (Hloop fuel (describe_tools (map tool_param listed))
              (map tool_param listed) resp (MkLocals [] [] false) s2
              Hsession2 Hasks)
    as (s' & added & Hrun & Htrace & Hcount).
  exists s'. split; [exact Hrun |].
  rewrite Htrace2 in Htrace. simpl in Htrace.
  rewrite <- !app_assoc in Htrace.
  rewrite (events_app _ _ _ Htrace). simpl. by rewrite Hcount.
Qed.

End ExecutionFacts.

(** ** mcp_client.py: the system prompt *)

Section PromptFacts.
Context `{Client.Collaborators}.
Import Client Execution.
Variable B : Backend.

Lemma append_assoc (a b c : string) : (a +:+ b) +:+ c = a +:+ b +:+ c.
Proof.
  induction a as [| ch a IH]; [reflexivity |].
  change (String ch ((a +:+ b) +:+ c) = String ch (a +:+ b +:+ c)).
  by rewrite IH.
Qed.

Lemma append_nil_r (a : string) : a +:+ "" = a.
Proof.
  induction a as [| ch a IH]; [reflexivity |].
  change (String ch (a +:+ "") = String ch a). by rewrite IH.
Qed.

Lemma contains_after part a x :
  contains part x = true -> contains part (a +:+ x) = true.
Proof.
  rewrite !contains_spec. intros (front & back & ->).
  exists (a +:+ front), back. by rewrite append_assoc.
Qed.

Lemma contains_before part x b :
  contains part x = true -> contains part (x +:+ b) = true.
Proof.
  rewrite !contains_spec. intros (front & back & ->).
  exists front, (back +:+ b). by rewrite !append_assoc.
Qed.

(** A part of a join is a piece of the joined string. *)
Lemma join_part sep parts part :
  part ∈ parts ->
  exists front back, join sep parts = front +:+ part +:+ back.
Proof.
  induction parts as [| p rest IH]; intros Hin; [by apply elem_of_nil in Hin |].
  apply elem_of_cons in Hin as [-> | Hin].
  - destruct rest as [| p' rest].
    + exists "", "". simpl. by rewrite append_nil_r.
    + exists "", (sep +:+ join sep (p' :: rest)). reflexivity.
  - destruct (IH Hin) as (front & back & Hjoin).
    destruct rest as [| p' rest]; [by apply elem_of_nil in Hin |].
    exists (p +:+ sep +:+ front), back.
    change (join sep (p :: p' :: rest))
      with (p +:+ sep +:+ join sep (p' :: rest)).
    by rewrite Hjoin, !append_assoc.
Qed.

(** A model request of a trace is an event of it. *)
Lemma request_split (t : list Event) req :
  req ∈ requests t -> exists pre r post, t = pre ++ EvCreate req r :: post.
Proof.
  induction t as [| ev t IH]; simpl; intros Hin;
    [by apply elem_of_nil in Hin |].
  assert (Hrest : req ∈ requests t ->
    exists pre r post, ev :: t = pre ++ EvCreate req r :: post).
  { intros Ht. destruct (IH Ht) as (pre & r & post & ->).
    by exists (ev :: pre), r, post. }
  destruct ev as [| | | | req' r' |]; try by apply Hrest.
  apply elem_of_cons in Hin as [-> | Hin]; [| by apply Hrest].
  by exists [], r', t.
Qed.

(** Every model request of an execution has one of the two system
    prompts, filled with the description of the tools listed. *)
Lemma request_system fuel query s s' (o : outcome string) listed rest req :
  process_query B fuel query s = (s', o) ->
  events s s' = EvListTools (Ok listed) :: rest ->
  req ∈ requests rest ->
  let tools_description := describe_tools (map tool_param listed) in
  system req = first_system tools_description \/
  system req = followup_system tools_description.
Proof.
  intros Hrun Hevents Hin.
  apply request_split in Hin as (pre & r & post & ->).
  apply process_query_inv in Hrun
    as [(added & Htrace & Hnone & _)
       | (listed' & s1 & r1 & s2 & H1 & H2 & Hloop)].
  { rewrite (events_app _ _ _ Htrace) in Hevents. subst added.
    simpl in Hnone. rewrite requests_app in Hnone.
    by destruct (requests pre). }
  simpl in *.
  assert (Hrest : forall added,
    trace s' = trace s2 ++ added ->
    listed' = listed /\
    EvCreate (first_request query (describe_tools (map tool_param listed'))
                (map tool_param listed')) r1 :: added =
    pre ++ EvCreate req r :: post).
  { intros added Htrace. rewrite H2, H1, <- !app_assoc in Htrace.
    rewrite (events_app _ _ _ Htrace) in Hevents.
    by injection Hevents as -> ->. }
  assert (Hfirst : forall added,
    EvCreate (first_request query (describe_tools (map tool_param listed))
                (map tool_param listed)) r1 :: added =
      pre ++ EvCreate req r :: post ->
    (pre = [] /\
     req = first_request query (describe_tools (map tool_param listed))
             (map tool_param listed)) \/
    exists pre', added = pre' ++ EvCreate req r :: post).
  { intros added Hsplit. destruct pre as [| ev pre]; simpl in Hsplit.
    - injection Hsplit as <- _ _. by left.
    - injection Hsplit as _ ->. right. eauto. }
  destruct r1 as [resp | e |].
  - apply loop_requests in Hloop as (added & Htrace & Hreqs).
    destruct (Hrest _ Htrace) as [-> Hsplit].
    destruct (Hfirst _ Hsplit) as [[_ ->] | (pre' & Hadded)]; [by left |].
    destruct (Hreqs _ _ _ _ Hadded) as [_ ->]. by right.
  - destruct Hloop as [-> _].
    destruct (Hrest []) as [-> Hsplit]; [by rewrite app_nil_r |].
    destruct (Hfirst _ Hsplit) as [[_ ->] | (pre' & Hadded)]; [by left |].
    by destruct pre'.
  - destruct Hloop as [-> _].
    destruct (Hrest []) as [-> Hsplit]; [by rewrite app_nil_r |].
    destruct (Hfirst _ Hsplit) as [[_ ->] | (pre' & Hadded)]; [by left |].
    by destruct pre'.
Qed.

(** X8: the system prompt of every model request of an execution
    contains, for each tool that the provider listed, the line
    "- <name>: <description>" of that tool. *)
Theorem prompt_lists_every_tool fuel query s s' (o : outcome string)
    listed rest req tool :
  process_query B fuel query s = (s', o) ->
  events s s' = EvListTools (Ok listed) :: rest ->
  req ∈ requests rest ->
  tool ∈ listed ->
  contains (tool_line_of tool) (system req) = true.
Proof.
  intros Hrun Hevents Hreq Htool.
  assert (Hline : exists front back,
    describe_tools (map tool_param listed) =
    front +:+ tool_line_of tool +:+ back).
  { unfold describe_tools. apply join_part.
    apply list_elem_of_fmap. exists (tool_param tool). split; [done |].
    by apply list_elem_of_fmap_2. }
  assert (Hshown : contains (tool_line_of tool)
                     (describe_tools (map tool_param listed)) = true).
  { apply contains_spec. exact Hline. }
  destruct (request_system _ _ _ _ _ _ _ _ Hrun Hevents Hreq) as [-> | ->];
    unfold first_system, followup_system.
  - do 4 apply contains_after. by apply contains_before.
  - do 3 apply contains_after. by apply contains_before.
Qed.

End PromptFacts.

(** ** mcp_client.py: the further properties on concrete runs *)

Section ExecutionRuns.
Import Client Client.Demo Execution.

Lemma outside_failure_ends_query_witness :
  events connected overloaded.1 =
    take 1 (trace overloaded.1) ++ EvCreate first_hello (Raised api_error) :: [] /\
  ([] = @nil Event /\ overloaded.2 = Raised api_error).
Proof.
  split; [reflexivity |].
  apply (outside_failure_ends_query (scripted [] adds) 5 "hello" connected
           overloaded.1 overloaded.2 (take 1 (trace overloaded.1))
           (EvCreate first_hello (Raised api_error)) api_error []);
    reflexivity.
Defined.

Lemma connect_handshake_witness :
  started.2 = Ok tt /\
  session started.1 = true /\
  events fresh_client started.1 =
    [EvStdioClient (MkParams "python" ["server.py"]) (Ok tt);
     EvClientSession (Ok tt); EvInitialize (Ok tt);
     EvListTools (Ok [add_tool])].
Proof.
  split; [vm_compute; reflexivity |].
  assert (Hrun : connect_to_server (scripted [] adds) "server.py"
                   fresh_client = (started.1, Ok tt))
    by (vm_compute; reflexivity).
  destruct (connect_handshake (scripted [] adds) "server.py" fresh_client
              started.1 Hrun) as (_ & Hsession & listed & Hevents).
  split; [exact Hsession | vm_compute; reflexivity].
Defined.

Lemma connect_stops_at_failure_witness :
  events fresh_client refused.1 =
    [] ++ EvStdioClient (MkParams "node" ["server.js"]) (Raised not_found)
          :: [] /\
  ([] = @nil Event /\ refused.2 = Raised not_found).
Proof.
  split; [reflexivity |].
  apply (connect_stops_at_failure unreachable "server.js" fresh_client
           refused.1 refused.2 []
           (EvStdioClient (MkParams "node" ["server.js"]) (Raised not_found))
           not_found []);
    reflexivity.
Defined.

Lemma query_without_session_witness :
  process_query (scripted add_script adds) 5 "add 2 and 3" fresh_client =
    (fresh_client,
     Raised (AttributeError
               "'NoneType' object has no attribute 'list_tools'")).
Proof.
  apply (query_without_session (scripted add_script adds) 5 "add 2 and 3"
           fresh_client).
  reflexivity.
Defined.

Lemma calls_follow_tool_uses_witness :
  calls (events connected answered.1) = [("add", "{'a': 2, 'b': 3}")] /\
  calls (events connected answered.1) =
    tool_uses (responses (events connected answered.1)).
Proof.
  split; [reflexivity |].
  destruct (calls_follow_tool_uses (scripted add_script adds) 5 "add 2 and 3"
              connected answered.1 answered.2 eq_refl) as [_ Hall].
  destruct (Hall _ eq_refl) as [Hcalls _]. exact Hcalls.
Defined.

Lemma returns_at_first_plain_response_witness :
  exists init last,
    replies (events connected answered.1) = init ++ [last] /\
    tool_uses last = [] /\
    Forall (fun blocks => tool_uses blocks <> []) init.
Proof.
  apply (returns_at_first_plain_response (scripted add_script adds) 5
           "add 2 and 3" connected answered.1
           (join nl ["Let me add."; "[Tool add result: 5]"; "The sum is 5."])).
  reflexivity.
Defined.

Lemma loop_has_no_bound_witness :
  exists s',
    process_query insatiable 7 "add 2 and 3" connected = (s', OutOfFuel) /\
    length (requests (events connected s')) = 8.
Proof.
  apply (loop_has_no_bound insatiable 7 "add 2 and 3" connected).
  - reflexivity.
  - intros w. by exists w, [add_tool].
  - intros req w. exists (S w), [add_2_3]. by split.
  - intros name input w. by exists w, "5".
Defined.

Lemma prompt_lists_every_tool_witness :
  contains "- add: Add two numbers" (system second_add) = true.
Proof.
  apply (prompt_lists_every_tool (scripted add_script adds) 5 "add 2 and 3"
           connected answered.1 answered.2 [add_tool]
           (drop 1 (trace answered.1)) second_add add_tool).
  - reflexivity.
  - reflexivity.
  - apply list_elem_of_lookup. by exists 1.
  - apply list_elem_of_singleton. reflexivity.
Defined.

End ExecutionRuns.

(** ** mcp_client.py: the chat loop *)

Section ChatFacts.
Context `{Client.Collaborators} `{Shell.Runtime}.
Import Client Shell.
Variable B : Backend.
Variable L : Lifecycle.

Lemma lift_inv {A} (m : M State A) t t' (o : outcome A) :
  lift m t = (t', o) ->
  exists s', m (client t) = (s', o) /\ t' = MkTerminal s' (stdin t) (closes t).
Proof.
  unfold lift. destruct (m (client t)) as [s' o']. intros [= <- <-]. eauto.
Qed.

Lemma lift_print line t :
  lift (print line) t =
    (MkTerminal (MkState (world (client t)) (session (client t))
                         (trace (client t)) (stdout (client t) ++ [line]))
                (stdin t) (closes t), Ok tt).
Proof. reflexivity. Qed.

(** What one turn of the chat does: it ends the chat on a quit line,
    which it consumes without touching the outside; it goes on after
    any other line and at the end of the input; and the only
    exceptions it lets through are those that [except Exception]
    does not catch. *)
Lemma turn_cases depth t t' (o : outcome bool) :
  turn B depth t = (t', o) ->
  closes t' = closes t /\
  match o with
  | Ok true =>
      exists line,
        stdin t = line :: stdin t' /\ is_quit line = true /\
        world (client t') = world (client t) /\
        trace (client t') = trace (client t)
  | Ok false =>
      (stdin t = [] /\ stdin t' = [] /\
       world (client t') = world (client t) /\
       trace (client t') = trace (client t)) \/
      (exists line, stdin t = line :: stdin t' /\ is_quit line = false)
  | Raised e => is_exception e = false
  | OutOfFuel => True
  end.
Proof.
  unfold turn, try_except, input.
  unfold bind at 1. unfold bind at 1. rewrite lift_print. cbv beta iota.
  destruct (stdin t) as [| line rest] eqn:Hstdin; simpl stdin.
  - cbv beta iota. simpl handle.
    change (is_exception (Exn "EOFError" "EOF when reading a line" None))
      with true.
    cbv iota. unfold bind at 1. rewrite lift_print.
    intros [= <- <-]. simpl. split; [reflexivity |]. left. auto.
  - cbv beta iota zeta. fold (is_quit line).
    destruct (is_quit line) eqn:Hquit.
    + intros [= <- <-]. simpl. split; [reflexivity |]. exists line. auto.
    + unfold bind at 1.
      match goal with
      | |- context [lift (process_query B depth ?q) ?t0] =>
          destruct (lift (process_query B depth q) t0) as [t1 o1] eqn:Hquery
      end.
      apply lift_inv in Hquery as (s1 & _ & ->). simpl.
      destruct o1 as [response | e |].
      * unfold bind at 1. rewrite lift_print.
        intros [= <- <-]. simpl. split; [reflexivity |]. right. eauto.
      * destruct (is_exception e) eqn:Hcaught.
        -- unfold bind at 1. rewrite lift_print.
           intros [= <- <-]. simpl. split; [reflexivity |]. right. eauto.
        -- intros [= <- <-]. simpl. auto.
      * intros [= <- <-]. simpl. auto.
Qed.

(** The prints at the start of [chat_loop] leave the rest to
    [rounds]. *)
Lemma chat_loop_rounds fuel depth t :
  exists t0,
    chat_loop B fuel depth t = rounds B fuel depth t0 /\
    stdin t0 = stdin t /\ closes t0 = closes t /\
    world (client t0) = world (client t) /\
    trace (client t0) = trace (client t) /\
    session (client t0) = session (client t).
Proof.
  unfold chat_loop. unfold bind at 1. rewrite lift_print.
  unfold bind at 1. rewrite lift_print.
  eexists. split; [reflexivity |]. simpl. auto.
Qed.

Lemma rounds_return fuel depth t t' :
  rounds B fuel depth t = (t', Ok tt) ->
  exists before line,
    stdin t = before ++ line :: stdin t' /\
    is_quit line = true /\
    Forall (fun l => is_quit l = false) before.
Proof.
  revert t. induction fuel as [| fuel IH]; intros t Hrun; simpl in Hrun;
    [discriminate |].
  bind_step Hrun as stop Hturn.
  apply turn_cases in Hturn as (_ & Hturn).
  destruct stop.
  - injection Hrun as <-. destruct Hturn as (line & Hstdin & Hquit & _).
    exists [], line. auto.
  - apply IH in Hrun as (before & line & Hrest & Hquit & Hbefore).
    destruct Hturn as [(_ & Hnil & _) | (first & Hstdin & Hnot)].
    + rewrite Hnil in Hrest. by destruct before.
    + exists (first :: before), line. rewrite Hstdin, Hrest. auto.
Qed.

Lemma rounds_raise fuel depth t t' e :
  rounds B fuel depth t = (t', Raised e) -> is_exception e = false.
Proof.
  revert t. induction fuel as [| fuel IH]; intros t Hrun; simpl in Hrun;
    [discriminate |].
  unfold bind at 1 in Hrun.
  destruct (turn B depth t) as [t1 o1] eqn:Hturn.
  apply turn_cases in Hturn as (_ & Hturn).
  destruct o1 as [[|] | e1 |]; try discriminate.
  - by apply IH in Hrun.
  - by injection Hrun as _ <-.
Qed.

(** At the end of the input a turn reports the [EOFError] and goes
    on. *)
Lemma turn_at_end_of_input depth t :
  stdin t = [] ->
  exists t1,
    turn B depth t = (t1, Ok false) /\ stdin t1 = [] /\
    closes t1 = closes t /\
    world (client t1) = world (client t) /\
    trace (client t1) = trace (client t).
Proof.
  intros Hnil. unfold turn, try_except, input.
  unfold bind at 1. unfold bind at 1. rewrite lift_print.
  cbv beta iota. simpl stdin. rewrite Hnil. cbv beta iota. simpl handle.
  change (is_exception (Exn "EOFError" "EOF when reading a line" None))
    with true.
  cbv iota. unfold bind at 1. rewrite lift_print.
  eexists. split; [reflexivity |]. simpl. auto.
Qed.

Lemma rounds_spin fuel depth t :
  stdin t = [] ->
  exists t',
    rounds B fuel depth t = (t', OutOfFuel) /\
    world (client t') = world (client t) /\
    trace (client t') = trace (client t).
Proof.
  revert t. induction fuel as [| fuel IH]; intros t Hnil; simpl.
  { by exists t. }
  destruct (turn_at_end_of_input depth t Hnil)
    as (t1 & Hturn & Hnil1 & _ & Hworld & Htrace).
  erewrite bind_ok by exact Hturn.
  destruct (IH t1 Hnil1) as (t' & Hloop & Hworld' & Htrace').
  exists t'. rewrite Hloop, Hworld', Htrace'. auto.
Qed.

(** X9: [chat_loop] returns only through the quit command: the lines
    read before it were other lines, the quit line is the last one
    read, and the lines after it are left unread. *)
Theorem chat_returns_at_quit fuel depth t t' :
  chat_loop B fuel depth t = (t', Ok tt) ->
  exists before line,
    stdin t = before ++ line :: stdin t' /\
    is_quit line = true /\
    Forall (fun l => is_quit l = false) before.
Proof.
  destruct (chat_loop_rounds fuel depth t) as (t0 & -> & <- & _).
  apply rounds_return.
Qed.

(** X10: [chat_loop] lets no exception of a query through: an
    exception that leaves it is of a class that [except Exception]
    does not catch. *)
Theorem chat_catches_exceptions fuel depth t t' e :
  chat_loop B fuel depth t = (t', Raised e) ->
  is_exception e = false.
Proof.
  destruct (chat_loop_rounds fuel depth t) as (t0 & -> & _).
  apply rounds_raise.
Qed.

(** X11: at the end of the input [chat_loop] does not stop: every
    turn fails to read, reports it and goes on, without touching the
    outside. *)
Theorem chat_spins_at_end_of_input fuel depth t :
  stdin t = [] ->
  exists t',
    chat_loop B fuel depth t = (t', OutOfFuel) /\
    world (client t') = world (client t) /\
    trace (client t') = trace (client t).
Proof.
  intros Hnil.
  destruct (chat_loop_rounds fuel depth t)
    as (t0 & -> & Hstdin & _ & <- & <- & _).
  apply rounds_spin. by rewrite Hstdin.
Qed.

End ChatFacts.

(** ** mcp_client.py: main *)

Section MainFacts.
Context `{Client.Collaborators} `{Shell.Runtime}.
Import Client Shell.
Variable B : Backend.
Variable L : Lifecycle.

Lemma rounds_closes fuel depth t t' (o : outcome unit) :
  rounds B fuel depth t = (t', o) -> closes t' = closes t.
Proof.
  revert t. induction fuel as [| fuel IH]; intros t Hrun; simpl in Hrun.
  { by injection Hrun as <- _. }
  unfold bind at 1 in Hrun.
  destruct (turn B depth t) as [t1 o1] eqn:Hturn.
  apply turn_cases in Hturn as (Hcloses & _).
  destruct o1 as [[|] | e |]; try (by injection Hrun as <- _).
  apply IH in Hrun. by rewrite Hrun.
Qed.

(** The [try] body of [main] and its [except] clause never close the
    exit stack, and let through only what [except Exception] does not
    catch. *)
Lemma session_closes fuel depth script t t1 (o : outcome unit) :
  try_except
    (lift (print "Attempting to connect to server...") ;;;
     lift (connect_to_server B script) ;;;
     chat_loop B fuel depth)
    [(is_exception,
      fun e =>
        lift (print ("Fatal error: " +:+ exn_msg e)) ;;;
        lift (print (format_exc e)))] t = (t1, o) ->
  closes t1 = closes t /\
  forall e, o = Raised e -> is_exception e = false.
Proof.
  unfold try_except. unfold bind at 1. rewrite lift_print.
  unfold bind at 1.
  match goal with
  | |- context [lift (connect_to_server B script) ?t0] =>
      destruct (lift (connect_to_server B script) t0) as [t2 o2] eqn:Hconnect
  end.
  apply lift_inv in Hconnect as (s2 & _ & ->).
  assert (Hhandled : forall e t3 t4 (o4 : outcome unit),
    closes t3 = closes t ->
    handle [(is_exception,
             fun e =>
               lift (print ("Fatal error: " +:+ exn_msg e)) ;;;
               lift (print (format_exc e)))] e t3 = (t4, o4) ->
    closes t4 = closes t /\
    forall e', o4 = Raised e' -> is_exception e' = false).
  { intros e t3 t4 o4 Hsame. simpl.
    destruct (is_exception e) eqn:Hcaught.
    - unfold bind at 1. rewrite !lift_print.
      intros [= <- <-]. simpl. split; [exact Hsame | discriminate].
    - intros [= <- <-]. split; [exact Hsame |]. by intros e' [= <-]. }
  destruct o2 as [u | e |].
  - match goal with
    | |- context [chat_loop B fuel depth ?tx] =>
        destruct (chat_loop B fuel depth tx) as [t3 o3] eqn:Hchat;
        destruct (chat_loop_rounds B fuel depth tx)
          as (t0 & Hrounds & _ & Hcloses0 & _)
    end.
    rewrite Hrounds in Hchat. apply rounds_closes in Hchat as Hcloses3.
    simpl in Hcloses0. rewrite Hcloses0 in Hcloses3.
    destruct o3 as [u' | e |].
    + intros [= <- <-]. split; [exact Hcloses3 | discriminate].
    + apply Hhandled, Hcloses3.
    + intros [= <- <-]. split; [exact Hcloses3 | discriminate].
  - apply Hhandled. reflexivity.
  - intros [= <- <-]. split; [reflexivity | discriminate].
Qed.

(** X12: with a script path on the command line and a client that
    could be built, [main] closes the exit stack exactly once on every
    path that ends: when the connection fails, when the chat raises
    and when it returns. *)
Theorem main_closes_once fuel depth argv t w t' (o : outcome unit) :
  2 <= length argv ->
  Anthropic L (world (client t)) = (w, Ok tt) ->
  main B L fuel depth argv t = (t', o) ->
  o <> OutOfFuel ->
  closes t' = S (closes t).
Proof.
  intros Hargs Hnew Hrun Hends. unfold main in Hrun.
  destruct (Nat.ltb_spec (length argv) 2) as [Hfew | _]; [lia |].
  unfold bind at 1 in Hrun. rewrite lift_print in Hrun.
  unfold bind at 1 in Hrun. unfold new_client at 1 in Hrun.
  simpl in Hrun. rewrite Hnew in Hrun.
  unfold try_finally in Hrun.
  match type of Hrun with
  | context [try_except ?body ?clauses ?t0] =>
      destruct (try_except body clauses t0) as [t1 o1] eqn:Hsession
  end.
  apply session_closes in Hsession as (Hcloses1 & _). simpl in Hcloses1.
  destruct (cleanup L t1) as [t2 o2] eqn:Hcleanup.
  assert (Hclosed : closes t2 = S (closes t)).
  { unfold cleanup in Hcleanup.
    destruct (aclose L (world (client t1))) as [w2 o2'].
    injection Hcleanup as <- _. simpl. by rewrite Hcloses1. }
  destruct o1 as [u | e |].
  - by destruct o2; injection Hrun as <- _.
  - by destruct o2; injection Hrun as <- _.
  - by injection Hrun as _ <-.
Qed.

(** X13: when the client could be built and the closing of the exit
    stack does not raise, the only exceptions that [main] lets through
    are those that [except Exception] does not catch: a failure to
    connect is printed as a fatal error and not raised. *)
Theorem main_reports_failures fuel depth argv t w t' e :
  2 <= length argv ->
  Anthropic L (world (client t)) = (w, Ok tt) ->
  (forall w1, exists w2, aclose L w1 = (w2, Ok tt)) ->
  main B L fuel depth argv t = (t', Raised e) ->
  is_exception e = false.
Proof.
  intros Hargs Hnew Hclose Hrun. unfold main in Hrun.
  destruct (Nat.ltb_spec (length argv) 2) as [Hfew | _]; [lia |].
  unfold bind at 1 in Hrun. rewrite lift_print in Hrun.
  unfold bind at 1 in Hrun. unfold new_client at 1 in Hrun.
  simpl in Hrun. rewrite Hnew in Hrun.
  unfold try_finally in Hrun.
  match type of Hrun with
  | context [try_except ?body ?clauses ?t0] =>
      destruct (try_except body clauses t0) as [t1 o1] eqn:Hsession
  end.
  apply session_closes in Hsession as (_ & Hraised).
  unfold cleanup in Hrun.
  destruct (Hclose (world (client t1))) as (w2 & Hclosed).
  rewrite Hclosed in Hrun.
  destruct o1 as [u | e1 |]; try discriminate.
  injection Hrun as _ <-. by apply Hraised.
Qed.

(** X14: without a script path on the command line the program
    prints the usage line and exits with status 1: no client is built,
    nothing is spawned and nothing is closed. *)
Theorem program_usage fuel depth argv t :
  length argv < 2 ->
  program B L fuel depth argv t =
    (MkTerminal
       (MkState (world (client t)) (session (client t)) (trace (client t))
          (stdout (client t) ++
           ["Usage: python client.py <path_to_server_script>"]))
       (stdin t) (closes t),
     Raised (Exn "SystemExit" "1" None)).
Proof.
  intros Hfew. unfold program, try_except, main.
  destruct (Nat.ltb_spec (length argv) 2) as [_ | Hmany]; [| lia].
  unfold bind at 1. rewrite lift_print. reflexivity.
Qed.

(** X15: started with a script that is neither ".py" nor ".js",
    [main] reports the fatal error with its traceback, closes the exit
    stack and ends normally; nothing was spawned. *)
Theorem main_rejects_script fuel depth prog script t w w' :
  endswith script ".py" = false ->
  endswith script ".js" = false ->
  Anthropic L (world (client t)) = (w, Ok tt) ->
  aclose L w = (w', Ok tt) ->
  let rejected := ValueError "Server script must be a .py or .js file" in
  main B L fuel depth [prog; script] t =
    (MkTerminal
       (MkState w' false (trace (client t))
          (stdout (client t) ++
           ["Starting client with server script: " +:+ script;
            "Attempting to connect to server...";
            "Checking server script type...";
            "Fatal error: " +:+ exn_msg rejected;
            format_exc rejected]))
       (stdin t) (S (closes t)),
     Ok tt).
Proof.
  intros Hpy Hjs Hnew Hclose rejected. unfold main.
  change (length [prog; script] <? 2) with false.
  cbv beta iota zeta. simpl nth.
  erewrite bind_ok by apply lift_print.
  erewrite bind_ok
    by (unfold new_client; simpl; rewrite Hnew; reflexivity).
  unfold try_finally, try_except.
  erewrite bind_ok by apply lift_print.
  erewrite bind_raised
    by (unfold lift; simpl client;
        unfold connect_to_server, bind, print, modify;
        rewrite Hpy, Hjs; reflexivity).
  simpl handle.
  change (is_exception
            (ValueError "Server script must be a .py or .js file"))
    with true.
  cbv iota. erewrite bind_ok by apply lift_print. rewrite lift_print.
  unfold cleanup. simpl. rewrite Hclose.
  rewrite <- !app_assoc. reflexivity.
Qed.

End MainFacts.

(** ** mcp_client.py: the shell on concrete runs *)

Section ShellRuns.
Import Client Client.Demo Shell Shell.Demo.

Lemma chat_returns_at_quit_witness :
  chatted.2 = Ok tt /\
  exists before line,
    ["add 2 and 3"; "  QuIt "; "more"] = before ++ line :: stdin chatted.1 /\
    is_quit line = true /\
    Forall (fun l => is_quit l = false) before.
Proof.
  split; [vm_compute; reflexivity |].
  apply (chat_returns_at_quit (scripted add_script adds) 5 5
           (MkTerminal connected ["add 2 and 3"; "  QuIt "; "more"] 0)
           chatted.1).
  vm_compute. reflexivity.
Defined.

Lemma chat_catches_exceptions_witness :
  (chat_loop interruptible 5 5 (MkTerminal connected ["add 2 and 3"] 0)).2 =
    Raised interrupt /\
  is_exception interrupt = false.
Proof.
  split; [vm_compute; reflexivity |].
  apply (chat_catches_exceptions interruptible 5 5
           (MkTerminal connected ["add 2 and 3"] 0)
           (chat_loop interruptible 5 5
              (MkTerminal connected ["add 2 and 3"] 0)).1 interrupt).
  vm_compute. reflexivity.
Defined.

Lemma chat_spins_at_end_of_input_witness :
  exists t',
    chat_loop (scripted add_script adds) 9 5 (console []) = (t', OutOfFuel) /\
    world (client t') = 0 /\ trace (client t') = [].
Proof.
  apply (chat_spins_at_end_of_input (scripted add_script adds) 9 5
           (console [])).
  reflexivity.
Defined.

Lemma main_closes_once_witness :
  session_run.2 = Ok tt /\ closes session_run.1 = 1.
Proof.
  split; [vm_compute; reflexivity |].
  apply (main_closes_once (scripted add_script adds) quiet 5 5
           ["client.py"; "server.py"] (console ["add 2 and 3"; "quit"]) 0
           session_run.1 session_run.2).
  - simpl. lia.
  - reflexivity.
  - vm_compute. reflexivity.
  - vm_compute. discriminate.
Defined.

Lemma main_reports_failures_witness :
  interrupted.2 = Raised interrupt /\ is_exception interrupt = false.
Proof.
  split; [vm_compute; reflexivity |].
  apply (main_reports_failures interruptible quiet 5 5
           ["client.py"; "server.py"] (console ["add 2 and 3"; "quit"]) 0
           interrupted.1 interrupt).
  - simpl. lia.
  - reflexivity.
  - intros w1. by exists w1.
  - vm_compute. reflexivity.
Defined.

Lemma program_usage_witness :
  program (scripted add_script adds) quiet 5 5 ["client.py"] (console []) =
    (MkTerminal
       (MkState 0 false []
          ["Usage: python client.py <path_to_server_script>"]) [] 0,
     Raised (Exn "SystemExit" "1" None)).
Proof.
  apply (program_usage (scripted add_script adds) quiet 5 5 ["client.py"]
           (console [])).
  simpl. lia.
Defined.

Lemma main_rejects_script_witness :
  (main (scripted add_script adds) quiet 5 5 ["client.py"; "server.rb"]
     (console ["quit"])).2 = Ok tt.
Proof.
  rewrite (main_rejects_script (scripted add_script adds) quiet 5 5
             "client.py" "server.rb" (console ["quit"]) 0 0);
    vm_compute; reflexivity.
Defined.

End ShellRuns.

(** ** meme_generator.py: what a generation does to the files *)

Section FilesFacts.
Context `{MemeGenerator.Service}.
Import MemeGenerator Generation.

Lemma subscript_pure (v : pyval) key (e e' : Env) o :
  subscript v key e = (e', o) -> e' = e.
Proof.
  destruct v; simpl; try (by intros [= <- _]).
  destruct (lookup_key key items); by intros [= <- _].
Qed.

Lemma get_pure (v : pyval) key fallback (e e' : Env) o :
  get v key fallback e = (e', o) -> e' = e.
Proof. destruct v; simpl; by intros [= <- _]. Qed.

Lemma http_get_pure g (e e' : Env) o : http_get g e = (e', o) -> e' = e.
Proof. unfold http_get. destruct (requests_get g); by intros [= <- _]. Qed.

Lemma check_status_pure response (e e' : Env) o :
  check_status response e = (e', o) -> e' = e.
Proof.
  unfold check_status, bind, raise_for_status.
  destruct (status_code response =? 500)%Z; [by intros [= <- _] |].
  destruct (status_code response =? 401)%Z; [by intros [= <- _] |].
  destruct (status_code response =? 429)%Z; [by intros [= <- _] |].
  simpl. destruct (http_error_msg response); by intros [= <- _].
Qed.

Lemma next_free_pure fuel base_path output_path counter (e e' : Env) o :
  next_free fuel base_path output_path counter e = (e', o) -> e' = e.
Proof.
  revert output_path counter.
  induction fuel as [| fuel IH]; intros output_path counter; simpl.
  { by intros [= <- _]. }
  unfold bind, path_exists, gets.
  destruct (bool_decide _); [apply IH | by intros [= <- _]].
Qed.

(** What [generate] does to the environment: nothing unless it
    returns, and then it has written one file that did not exist and
    logged the message it returns. *)
Lemma generate_files fuel meme_concept e e' (o : outcome string) :
  generate fuel meme_concept e = (e', o) ->
  match o with
  | Ok out =>
      exists output_path data,
        out = saved_to output_path /\
        files e !! output_path = None /\
        files e' = <[output_path := data]> (files e)
  | _ => e' = e
  end.
Proof.
  unfold generate.
  repeat
    (unfold bind at 1;
     match goal with
     | |- context [subscript ?v ?k e] =>
         let Hs := fresh "Hs" in
         destruct (subscript v k e) as [? [? | ? |]] eqn:Hs;
         apply subscript_pure in Hs as ->; try (by intros [= <- <-])
     | |- context [get ?v ?k ?d e] =>
         let Hs := fresh "Hs" in
         destruct (get v k d e) as [? [? | ? |]] eqn:Hs;
         apply get_pure in Hs as ->; try (by intros [= <- <-])
     end).
  unfold bind at 1.
  match goal with
  | |- context [http_get ?g e] =>
      destruct (http_get g e) as [? [response | ? |]] eqn:Hs;
      apply http_get_pure in Hs as ->; try (by intros [= <- <-])
  end.
  unfold bind at 1.
  destruct (check_status response e) as [? [? | ? |]] eqn:Hs;
    apply check_status_pure in Hs as ->; try (by intros [= <- <-]).
  unfold save_image.
  destruct (negb _); [by intros [= <- <-] |].
  unfold bind at 1.
  match goal with
  | |- context [subscript ?v ?k e] =>
      destruct (subscript v k e) as [? [template | ? |]] eqn:Hs;
      apply subscript_pure in Hs as ->; try (by intros [= <- <-])
  end.
  unfold bind at 1.
  match goal with
  | |- context [next_free fuel ?b ?p 1 e] =>
      destruct (next_free fuel b p 1 e) as [e1 [output_path | ? |]] eqn:Hs;
      apply next_free_pure in Hs as Hsame; subst e1;
      try (by intros [= <- <-])
  end.
  change (_ +:+ ".jpg")
    with (candidate ("generated_memes/" +:+ py_str template) 0) in Hs.
  apply next_free_found in Hs as (_ & k & _ & -> & Hfree & _).
  unfold write_file, logger, modify, bind, ret.
  intros [= <- <-]. simpl. eauto.
Qed.

(** The same for [create_meme], whose handler writes nothing. *)
Lemma create_meme_files fuel meme_concept e e' (o : outcome string) :
  create_meme fuel meme_concept e = (e', o) ->
  match o with
  | Ok out =>
      exists output_path data,
        out = saved_to output_path /\
        files e !! output_path = None /\
        files e' = <[output_path := data]> (files e)
  | _ => files e' = files e
  end.
Proof.
  unfold create_meme, guarded, try_except.
  destruct (generate fuel (unwrap meme_concept) e) as [e1 o1] eqn:Hgen.
  apply generate_files in Hgen.
  destruct o1 as [out | err |].
  - by intros [= <- <-].
  - subst e1. simpl.
    destruct (is_request_exception err); [| by intros [= <- <-]].
    unfold on_request_exception.
    destruct (exn_response err); [| by intros [= <- <-]].
    unfold bind, print, modify. by intros [= <- <-].
  - subst e1. by intros [= <- <-].
Qed.

(** X16: a generation that does not return successfully writes
    nothing: whatever exception [create_meme] raises, the files are
    those from before. *)
Theorem failed_generation_writes_nothing fuel meme_concept e e'
    (o : outcome string) :
  create_meme fuel meme_concept e = (e', o) ->
  (forall out, o <> Ok out) ->
  files e' = files e.
Proof.
  intros Hrun Hfailed. apply create_meme_files in Hrun.
  destruct o as [out | err |]; [by destruct (Hfailed out) | done | done].
Qed.

(** X17: two successful generations, one after the other, are saved
    under two different names, and both files are there afterwards:
    there are two files more than before. *)
Theorem generations_do_not_collide fuel fuel' meme_concept meme_concept'
    e e1 e2 out1 out2 :
  create_meme fuel meme_concept e = (e1, Ok out1) ->
  create_meme fuel' meme_concept' e1 = (e2, Ok out2) ->
  out1 <> out2 /\ size (files e2) = S (S (size (files e))).
Proof.
  intros Hfirst Hsecond.
  apply create_meme_files in Hfirst as (path1 & data1 & -> & Hfree1 & Hfiles1).
  apply create_meme_files in Hsecond as (path2 & data2 & -> & Hfree2 & Hfiles2).
  split.
  - intros Hsame. apply String.app_inj in Hsame as <-.
    rewrite Hfiles1, lookup_insert_eq in Hfree2. discriminate.
  - rewrite Hfiles2, map_size_insert_None by exact Hfree2.
    by rewrite Hfiles1, map_size_insert_None.
Qed.

(** X24: a generation always comes to an end.  With the mandatory
    keys in the configuration and an answer that is no error and is an
    image, [create_meme] returns its success message once the search
    for a free name may take more steps than there are files, and one
    file has been added. *)
Theorem generation_terminates fuel meme_concept items g response image e :
  unwrap meme_concept = PyDict items ->
  meme_request items = Some g ->
  requests_get g = inl response ->
  (status_code response < 400 \/ 600 <= status_code response)%Z ->
  content_type response = Some image ->
  contains "image" image = true ->
  size (files e) < fuel ->
  exists e' output_path,
    create_meme fuel meme_concept e = (e', Ok (saved_to output_path)) /\
    size (files e') = S (size (files e)).
Proof.
  intros Hdict Hreq Hanswer Hstatus Htype Himage Hfuel.
  destruct (create_meme_returns fuel meme_concept items g response image e
              Hdict Hreq Hanswer Hstatus Htype Himage Hfuel)
    as (e' & outcome & Hrun).
  apply create_meme_files in Hrun as Hfiles.
  destruct Hfiles as (output_path & data & -> & Hfree & Hfiles).
  exists e', output_path. split; [exact Hrun |].
  by rewrite Hfiles, map_size_insert_None.
Qed.

End FilesFacts.

(** ** meme_generator.py: configurations and failed requests *)

Section ConfigurationFacts.
Context `{MemeGenerator.Service}.
Import MemeGenerator Generation.

Lemma lookup_key_app key (items more : list (string * pyval)) :
  lookup_key key (items ++ more) =
  match lookup_key key items with
  | Some v => Some v
  | None => lookup_key key more
  end.
Proof.
  induction items as [| [k v] items IH]; simpl; [reflexivity |].
  by destruct (String.eqb k key).
Qed.

(** X18: a configuration that lacks one of the keys 'template',
    'top_text' and 'bottom_text' makes [create_meme] raise the
    [KeyError] of the first one missing, before any request: the
    environment is untouched. *)
Theorem missing_key_raises fuel meme_concept items key e :
  unwrap meme_concept = PyDict items ->
  first_missing items = Some key ->
  create_meme fuel meme_concept e =
    (e, Raised (KeyError ("'" +:+ key +:+ "'"))).
Proof.
  intros Hdict Hmissing.
  unfold create_meme, guarded, try_except, generate. rewrite Hdict.
  unfold first_missing, mandatory in Hmissing. simpl in Hmissing.
  unfold subscript, bind.
  destruct (lookup_key "template" items) as [meme |].
  2: { injection Hmissing as <-. reflexivity. }
  destruct (lookup_key "top_text" items) as [top |].
  2: { injection Hmissing as <-. reflexivity. }
  destruct (lookup_key "bottom_text" items) as [bottom |].
  2: { injection Hmissing as <-. reflexivity. }
  discriminate Hmissing.
Qed.

(** X19: leaving out the optional keys is the same as giving their
    defaults: a configuration without 'font_size' and 'font' behaves
    as the same configuration with font size 50 and font "Impact". *)
Theorem defaults_are_implied fuel items e :
  lookup_key "font_size" items = None ->
  lookup_key "font" items = None ->
  lookup_key "meme_concept" items = None ->
  create_meme fuel (PyDict (items ++ defaults)) e =
  create_meme fuel (PyDict items) e.
Proof.
  intros Hsize Hfont Hplain.
  unfold create_meme, unwrap.
  rewrite lookup_key_app, Hplain. simpl lookup_key.
  unfold guarded, try_except, generate, save_image, subscript, get.
  rewrite !lookup_key_app, Hsize, Hfont. simpl lookup_key.
  destruct (lookup_key "template" items) as [meme |];
    destruct (lookup_key "top_text" items) as [top |];
    destruct (lookup_key "bottom_text" items) as [bottom |];
    reflexivity.
Qed.

(** X20: an answer that is no error but whose content type does not
    contain "image" makes [create_meme] raise the exception that names
    the content type received; the environment is untouched. *)
Theorem unexpected_content_type fuel meme_concept items g response e :
  unwrap meme_concept = PyDict items ->
  meme_request items = Some g ->
  requests_get g = inl response ->
  (status_code response < 400 \/ 600 <= status_code response)%Z ->
  contains "image" (default "" (content_type response)) = false ->
  create_meme fuel meme_concept e =
    (e, Raised (Exception
                  ("Unexpected response type: " +:+
                   default "" (content_type response) +:+
                   ". Expected image data."))).
Proof.
  intros Hdict Hreq Hanswer Hstatus Htype.
  unfold create_meme, guarded, try_except. rewrite Hdict.
  rewrite (generate_request _ _ _ _ Hreq).
  erewrite bind_ok by (apply http_get_answer, Hanswer).
  assert (Hcheck : check_status response e = (e, Ok tt)).
  { unfold check_status, raise_for_status, http_error_msg, bind.
    destruct (Z.eqb_spec (status_code response) 500); [lia |].
    destruct (Z.eqb_spec (status_code response) 401); [lia |].
    destruct (Z.eqb_spec (status_code response) 429); [lia |].
    destruct (Z.leb_spec 400 (status_code response));
      destruct (Z.ltb_spec (status_code response) 500);
      destruct (Z.leb_spec 500 (status_code response));
      destruct (Z.ltb_spec (status_code response) 600);
      simpl; try reflexivity; lia. }
  erewrite bind_ok by exact Hcheck.
  unfold save_image. rewrite Htype. reflexivity.
Qed.

(** X21: when the request itself fails with an exception of
    [requests], [create_meme] prints the text of the response that the
    exception carries and raises "Failed to generate meme: ..."; but
    when the exception carries no response, as a connection error
    does, the handler itself fails and an [AttributeError] is
    raised. *)
Theorem request_failure_handling fuel meme_concept items g err e :
  unwrap meme_concept = PyDict items ->
  meme_request items = Some g ->
  requests_get g = inr err ->
  is_request_exception err = true ->
  create_meme fuel meme_concept e =
    match exn_response err with
    | Some response_text =>
        (MkEnv (files e) (stdout e ++ ["Error details: " +:+ response_text])
               (log e),
         Raised (Exception ("Failed to generate meme: " +:+ exn_msg err)))
    | None =>
        (e, Raised (AttributeError
                      "'NoneType' object has no attribute 'text'"))
    end.
Proof.
  intros Hdict Hreq Hanswer Hclass.
  unfold create_meme, guarded, try_except. rewrite Hdict.
  rewrite (generate_request _ _ _ _ Hreq).
  erewrite bind_raised by (unfold http_get; rewrite Hanswer; reflexivity).
  simpl. rewrite Hclass. unfold on_request_exception.
  by destruct (exn_response err).
Qed.

End ConfigurationFacts.

(** ** meme_generator.py: get_meme_templates *)

Section TemplatesFacts.
Context `{MemeGenerator.Service}.
Import MemeGenerator Generation.

Lemma reads_only_ret {A} (a : A) : reads_only (ret a).
Proof. by intros e e' o [= <- _]. Qed.

Lemma reads_only_raise {A} err : reads_only (@raise Env A err).
Proof. by intros e e' o [= <- _]. Qed.

Lemma reads_only_logger level line : reads_only (logger level line).
Proof. by intros e e' o [= <- _]. Qed.

Lemma reads_only_print line : reads_only (print line).
Proof. by intros e e' o [= <- _]. Qed.

Lemma reads_only_bind {A C} (m : M Env A) (k : A -> M Env C) :
  reads_only m -> (forall a, reads_only (k a)) -> reads_only (bind m k).
Proof.
  intros Hm Hk e e' o. unfold bind.
  destruct (m e) as [e1 [a | err |]] eqn:Hrun; apply Hm in Hrun.
  - intros Hrest. apply Hk in Hrest. congruence.
  - intros [= <- _]. exact Hrun.
  - intros [= <- _]. exact Hrun.
Qed.

Lemma reads_only_handle {A}
    (clauses : list ((exn -> bool) * (exn -> M Env A))) err :
  Forall (fun clause => forall e0, reads_only (clause.2 e0)) clauses ->
  reads_only (handle clauses err).
Proof.
  induction clauses as [| [catches handler] clauses IH]; intros Hall; simpl.
  - apply reads_only_raise.
  - apply Forall_cons in Hall as [Hhandler Hall].
    destruct (catches err); [apply Hhandler | by apply IH].
Qed.

Lemma reads_only_try_except {A} (body : M Env A) clauses :
  reads_only body ->
  Forall (fun clause => forall e0, reads_only (clause.2 e0)) clauses ->
  reads_only (try_except body clauses).
Proof.
  intros Hbody Hclauses e e' o. unfold try_except.
  destruct (body e) as [e1 [a | err |]] eqn:Hrun; apply Hbody in Hrun.
  - intros [= <- _]. exact Hrun.
  - intros Hhandled. apply (reads_only_handle _ _ Hclauses) in Hhandled.
    congruence.
  - intros [= <- _]. exact Hrun.
Qed.

Lemma reads_only_on_request_exception {A} what err :
  reads_only (@on_request_exception A what err).
Proof.
  unfold on_request_exception. destruct (exn_response err).
  - apply reads_only_bind; [apply reads_only_print | intros _].
    apply reads_only_raise.
  - apply reads_only_raise.
Qed.

Lemma reads_only_http_get g : reads_only (http_get g).
Proof. intros e e' o Hrun. by apply http_get_pure in Hrun as ->. Qed.

Lemma reads_only_check_status response : reads_only (check_status response).
Proof. intros e e' o Hrun. by apply check_status_pure in Hrun as ->. Qed.

Lemma reads_only_loads data : reads_only (loads data).
Proof.
  unfold loads. destruct (json_loads data);
    [apply reads_only_ret | apply reads_only_raise].
Qed.

Lemma reads_only_len v : reads_only (len v).
Proof.
  destruct v; first [apply reads_only_ret | apply reads_only_raise].
Qed.

Lemma reads_only_first_five v : reads_only (first_five v).
Proof.
  destruct v; first [apply reads_only_ret | apply reads_only_raise].
Qed.

Lemma reads_only_get_meme_templates : reads_only get_meme_templates.
Proof.
  unfold get_meme_templates. apply reads_only_try_except.
  - cbv zeta.
    apply reads_only_bind; [apply reads_only_logger | intros _].
    apply reads_only_bind; [apply reads_only_logger | intros _].
    apply reads_only_bind; [apply reads_only_http_get | intros response].
    apply reads_only_bind; [apply reads_only_logger | intros _].
    apply reads_only_bind; [apply reads_only_check_status | intros _].
    apply reads_only_bind; [apply reads_only_loads | intros templates].
    apply reads_only_bind; [apply reads_only_len | intros n].
    apply reads_only_bind; [apply reads_only_logger | intros _].
    apply reads_only_bind; [apply reads_only_first_five | intros five].
    apply reads_only_bind; [apply reads_only_logger | intros _].
    apply reads_only_ret.
  - repeat constructor; simpl; intros e0.
    + apply reads_only_raise.
    + apply reads_only_on_request_exception.
    + apply reads_only_bind; [apply reads_only_logger | intros _].
      apply reads_only_raise.
Qed.

(** X22: [get_meme_templates] never touches the files, whatever its
    outcome, and what it returns is the body of the answer to its
    request as [json.loads] parses it. *)
Theorem templates_are_the_parsed_body e e' (o : outcome pyval) :
  get_meme_templates e = (e', o) ->
  files e' = files e /\
  forall templates, o = Ok templates ->
    exists response,
      requests_get templates_request = inl response /\
      json_loads (content response) = inl templates.
Proof.
  intros Hrun. split; [by apply reads_only_get_meme_templates in Hrun |].
  intros templates ->. unfold get_meme_templates, try_except in Hrun.
  match type of Hrun with
  | (let (_, _) := ?body e in _) = _ =>
      destruct (body e) as [e1 [v | err |]] eqn:Hbody
  end.
  2: { simpl in Hrun. destruct (is_timeout err); [discriminate |].
       destruct (is_request_exception err).
       - unfold on_request_exception in Hrun.
         destruct (exn_response err); discriminate.
       - simpl in Hrun. discriminate. }
  2: discriminate.
  injection Hrun as _ <-. cbv zeta in Hbody.
  bind_step Hbody as u1 Hlog1. clear Hlog1.
  bind_step Hbody as u2 Hlog2. clear Hlog2.
  bind_step Hbody as response Hanswer.
  apply http_get_ok_inv in Hanswer as (_ & Hanswer).
  bind_step Hbody as u3 Hlog3. clear Hlog3.
  bind_step Hbody as u4 Hcheck. clear Hcheck.
  bind_step Hbody as parsed Hloads.
  bind_step Hbody as n Hlen. clear Hlen.
  bind_step Hbody as u5 Hlog5. clear Hlog5.
  bind_step Hbody as five Hfive. clear Hfive.
  bind_step Hbody as u6 Hlog6. clear Hlog6.
  injection Hbody as _ <-.
  exists response. split; [exact Hanswer |].
  unfold loads in Hloads.
  destruct (json_loads (content response)); [| discriminate].
  by injection Hloads as _ ->.
Qed.

(** X23: when the request for the templates times out,
    [get_meme_templates] raises the exception that says so, whichever
    kind of timeout it was; nothing is printed. *)
Theorem templates_timeout err e :
  requests_get templates_request = inr err ->
  is_timeout err = true ->
  get_meme_templates e =
    (MkEnv (files e) (stdout e)
           (log e ++ ["INFO:Starting get_meme_templates...";
                      "INFO:Making API request..."]),
     Raised (Exception
               ("Request timed out while getting meme templates. " +:+
                "The service might be slow or unresponsive."))).
Proof.
  intros Hanswer Htimeout. unfold get_meme_templates, try_except.
  cbv zeta.
  erewrite bind_ok by reflexivity.
  erewrite bind_ok by reflexivity.
  erewrite bind_raised
    by (unfold http_get; fold templates_request; rewrite Hanswer;
        reflexivity).
  simpl. rewrite Htimeout. rewrite <- app_assoc. reflexivity.
Qed.

End TemplatesFacts.

(** ** meme_generator.py: the further properties on concrete runs *)

Section GenerationRuns.
Import MemeGenerator MemeGenerator.Demo Generation.

Lemma failed_generation_writes_nothing_witness :
  refused.2 = Raised (Exception invalid_key) /\
  files refused.1 = files used_disk.
Proof.
  split; [vm_compute; reflexivity |].
  apply (failed_generation_writes_nothing (H := always 401 "Unauthorized") 5
           wrapped used_disk refused.1 refused.2).
  - vm_compute. reflexivity.
  - intros out. vm_compute. discriminate.
Defined.

Lemma generations_do_not_collide_witness :
  saved.2 = Ok (saved_to "generated_memes/Distracted-Boyfriend_2.jpg") /\
  again.2 = Ok (saved_to "generated_memes/Distracted-Boyfriend_3.jpg") /\
  size (files again.1) = S (S (size (files used_disk))).
Proof.
  split; [vm_compute; reflexivity |].
  split; [vm_compute; reflexivity |].
  apply (generations_do_not_collide (H := always 200 "OK") 5 5 wrapped wrapped
           used_disk saved.1 again.1
           (saved_to "generated_memes/Distracted-Boyfriend_2.jpg")
           (saved_to "generated_memes/Distracted-Boyfriend_3.jpg"));
    vm_compute; reflexivity.
Defined.

Lemma missing_key_raises_witness :
  create_meme (H := always 200 "OK") 5 untitled used_disk =
    (used_disk, Raised (KeyError "'top_text'")).
Proof.
  apply (missing_key_raises (H := always 200 "OK") 5 untitled
           [("template", PyStr "Drake-Hotline-Bling");
            ("bottom_text", PyStr "B")] "top_text" used_disk);
    reflexivity.
Defined.

Lemma defaults_are_implied_witness :
  create_meme (H := always 200 "OK") 5
    (PyDict (boyfriend "Distracted-Boyfriend" ++ defaults)) used_disk =
  create_meme (H := always 200 "OK") 5
    (PyDict (boyfriend "Distracted-Boyfriend")) used_disk.
Proof.
  apply (defaults_are_implied (H := always 200 "OK") 5
           (boyfriend "Distracted-Boyfriend") used_disk);
    reflexivity.
Defined.

Lemma unexpected_content_type_witness :
  create_meme (H := page) 5 wrapped used_disk =
    (used_disk,
     Raised (Exception
               "Unexpected response type: text/html. Expected image data.")).
Proof.
  eapply (unexpected_content_type (H := page) 5 wrapped
            (boyfriend "Distracted-Boyfriend") _ html_answer).
  - reflexivity.
  - reflexivity.
  - reflexivity.
  - simpl. lia.
  - reflexivity.
Defined.

Lemma request_failure_handling_witness :
  create_meme (H := failing connection_error) 5 wrapped used_disk =
    (used_disk,
     Raised (AttributeError "'NoneType' object has no attribute 'text'")).
Proof.
  eapply (request_failure_handling (H := failing connection_error) 5 wrapped
            (boyfriend "Distracted-Boyfriend") _ connection_error used_disk).
  - reflexivity.
  - reflexivity.
  - reflexivity.
  - reflexivity.
Defined.

Lemma templates_are_the_parsed_body_witness :
  listed.2 = Ok (PyList [PyStr "Distracted-Boyfriend"]) /\
  files listed.1 = files empty_disk.
Proof.
  split; [vm_compute; reflexivity |].
  apply (templates_are_the_parsed_body (H := always 200 "OK") empty_disk
           listed.1 listed.2).
  vm_compute. reflexivity.
Defined.

Lemma templates_timeout_witness :
  (get_meme_templates (H := failing read_timeout) empty_disk).2 =
    Raised (Exception
              ("Request timed out while getting meme templates. " +:+
               "The service might be slow or unresponsive.")).
Proof.
  rewrite (templates_timeout (H := failing read_timeout) read_timeout
             empty_disk); reflexivity.
Defined.

Lemma generation_terminates_witness :
  exists e' output_path,
    create_meme (H := always 200 "OK") 3 wrapped used_disk =
      (e', Ok (saved_to output_path)) /\
    size (files e') = S (size (files used_disk)).
Proof.
  eapply (generation_terminates (H := always 200 "OK") 3 wrapped
            (boyfriend "Distracted-Boyfriend") _ (answer 200 "OK")
            "image/jpeg" used_disk).
  - reflexivity.
  - reflexivity.
  - reflexivity.
  - simpl. lia.
  - reflexivity.
  - reflexivity.
  - vm_compute. lia.
Defined.

End GenerationRuns.
